(** * The Gold layer of musica-market-intel: extraction and matchmaking

    A shallow embedding of [src/pipeline/process_gold.py]: the role
    extractor ([extract_instruments]), the salary extractor
    ([extract_salaries]) and the matchmaker ([match_opportunities]),
    followed by the properties of the specification that concern them.

    Conventions of the embedding.
    - A Python [str] is a list of code points ([text]); offsets into it are
      integers, as [match.span()] gives them.
    - A salary amount ([float] in the source, parsed from a decimal with
      exactly two fractional digits) is kept in centavos: [350000] stands
      for [3500.00].  The bounds the code compares it with (700, 45000,
      1900, 2100) are integers, so the comparisons agree with the ones on
      floats.
    - What the code delegates to libraries and to the Unicode database is
      a parameter: [unicodedata.normalize('NFKD', _)], the decimal digits
      and the white space of Unicode, the regular-expression engine on the
      taxonomy and bond patterns, the table sort behind
      [DataFrame.sort_values].  The one numeric pattern of [SALARY_CONFIG]
      and the escaped keyword patterns are matched by functions written
      here, following the backtracking order of the pattern. *)

From Stdlib Require Import ZArith List String Ascii Lia Permutation Sorted DecimalString.
From stdpp Require Import base decidable option list sorting gmap.

Local Open Scope Z_scope.

(** ** Text *)

Abbreviation text := (list Z).

(** Code points of a literal written in UTF-8 (one to four bytes a
    character), so that constants read as they do in the source. *)
Fixpoint utf8_decode (fuel : nat) (bs : list Z) : list Z :=
  match fuel with
  | O => []
  | S fuel =>
    match bs with
    | [] => []
    | b :: bs1 =>
      if b <? 128 then b :: utf8_decode fuel bs1
      else if b <? 224 then
        match bs1 with
        | c1 :: r => ((b - 192) * 64 + (c1 - 128)) :: utf8_decode fuel r
        | _ => []
        end
      else if b <? 240 then
        match bs1 with
        | c1 :: c2 :: r =>
            ((b - 224) * 4096 + (c1 - 128) * 64 + (c2 - 128)) :: utf8_decode fuel r
        | _ => []
        end
      else
        match bs1 with
        | c1 :: c2 :: c3 :: r =>
            ((b - 240) * 262144 + (c1 - 128) * 4096 + (c2 - 128) * 64 + (c3 - 128))
              :: utf8_decode fuel r
        | _ => []
        end
    end
  end.

Definition bytes_of (s : string) : list Z :=
  map (fun a => Z.of_nat (nat_of_ascii a)) (list_ascii_of_string s).

Definition utf8 (s : string) : list Z :=
  let bs := bytes_of s in utf8_decode (length bs) bs.

(** [len(t)] *)
Definition len (t : text) : Z := Z.of_nat (length t).

(** [t[a:b]] for [0 <= a] and [0 <= b], the only slices the code takes. *)
Definition slice (t : text) (a b : Z) : list Z :=
  take (Z.to_nat (b - a)) (drop (Z.to_nat a) t).

(** [t.replace(old, new)] for a one-character [old]. *)
Definition replace_char (old : Z) (new : list Z) (t : text) : list Z :=
  flat_map (fun c => if c =? old then new else [c]) t.

Fixpoint drop_while {A} (p : A -> bool) (l : list A) : list A :=
  match l with
  | [] => []
  | x :: l' => if p x then drop_while p l' else l
  end.

Fixpoint take_while {A} (p : A -> bool) (l : list A) : list A :=
  match l with
  | [] => []
  | x :: l' => if p x then x :: take_while p l' else []
  end.

(** [k in t] for strings: [k] occurs in [t] as a contiguous run. *)
Fixpoint starts_with (k t : text) : bool :=
  match k, t with
  | [], _ => true
  | _ :: _, [] => false
  | a :: k', b :: t' => (a =? b) && starts_with k' t'
  end.

Fixpoint contains (k t : text) : bool :=
  starts_with k t ||
  match t with
  | [] => false
  | _ :: t' => contains k t'
  end.

(** [try f on each element in turn], the first success wins: the order in
    which a backtracking matcher explores its choices. *)
Fixpoint first_some {A B} (f : A -> option B) (l : list A) : option B :=
  match l with
  | [] => None
  | x :: l' => match f x with Some y => Some y | None => first_some f l' end
  end.

(** A loop whose passes append rows to one list: the rows in the order of
    the passes, [None] when a pass raises (the exception leaves the loop
    and the rows are lost). *)
Fixpoint extend_rows {A B} (body : A -> option (list B)) (l : list A)
  : option (list B) :=
  match l with
  | [] => Some []
  | x :: l' =>
      match body x with
      | Some rows => option_map (app rows) (extend_rows body l')
      | None => None
      end
  end.

(** [hi, hi-1, ..., lo]: the counts a greedy repetition tries, most first. *)
Definition down_from (hi lo : nat) : list nat :=
  rev (seq lo (S hi - lo)).

(** ** What the interpreter and its libraries provide *)

(** The span [(start, end)] of a match. *)
Abbreviation span := (Z * Z)%type.

(** What a call of [re.finditer] leaves: the spans of the matches, the
    exception [re.error], or another exception ([OverflowError] for a
    repetition count the engine cannot hold, [RecursionError] for a
    pattern nested too deep). *)
Inductive engine_result :=
  | Matches (spans : list span)
  | ReError
  | OtherError.

Class Runtime := {
  (** [unicodedata.decimal]: the value of a decimal digit (category Nd),
      which is what [\d] matches and what [float] reads. *)
  decimal : Z -> option Z;
  (** [str.isspace], which is what [\s] matches and [str.strip] removes. *)
  space : Z -> bool;
  (** [unicodedata.normalize('NFKD', _)]. *)
  nfkd : list Z -> list Z;
  (** [list(re.finditer(pattern, t, re.IGNORECASE))]. *)
  re_finditer : list Z -> list Z -> engine_result;
  (** [re.search(pattern, t)] is not [None], for the constant patterns of
      [BOND_KEYWORDS], all of which compile. *)
  re_search : list Z -> list Z -> bool;
  (** [DataFrame.sort_values(key, ascending=False)] with the default
      [kind]: the rows by descending key.  How rows of equal key are
      ordered is left to the library. *)
  sort_values_desc : forall A : Type, (A -> Z) -> list A -> list A;
  (** [pd.to_numeric(s, errors='coerce')] then [int(_)] on a cell that
      holds a string: [None] when the string is not a number (NaN). *)
  numeric_of_text : list Z -> option Z
}.

(** ** Text normalisation and keyword search *)

Section Normalisation.
Context {rt : Runtime}.

Definition is_digit (c : Z) : bool :=
  match decimal c with Some _ => true | None => false end.

(** [t.strip()] *)
Definition strip (t : text) : list Z :=
  rev (drop_while space (rev (drop_while space t))).

(** [t.replace('\n', ' ').strip()], the evidence window of a match. *)
Definition evidence_of (t : text) : list Z :=
  strip (replace_char 10 [32] t).

(** [str.lower] on the ASCII letters, the only ones left when it runs. *)
Definition ascii_lower (c : Z) : Z :=
  if (65 <=? c) && (c <=? 90) then c + 32 else c.

(** [_normalize_text]: NFKD, drop what is not ASCII, lower-case. *)
Definition _normalize_text (t : text) : list Z :=
  map ascii_lower (List.filter (fun c => (0 <=? c) && (c <? 128)) (nfkd t)).

(** A word character of [\b] in ASCII text: letters, digits and the
    underscore.  The code searches keywords in the text
    [_normalize_text] returns, which is ASCII; on other characters [\b]
    follows the Unicode database, which is not modelled. *)
Definition is_word (c : Z) : bool :=
  ((48 <=? c) && (c <=? 57)) || ((65 <=? c) && (c <=? 90))
  || ((97 <=? c) && (c <=? 122)) || (c =? 95).

Definition word_opt (c : option Z) : bool :=
  match c with Some c => is_word c | None => false end.

(** [\b] between the character [prev] and the head of [t]. *)
Definition boundary (prev : option Z) (t : text) : bool :=
  negb (Bool.eqb (word_opt prev) (word_opt (head t))).

(** The pattern [\b kw \b] matches at the head of [t], which [prev]
    precedes. *)
Definition word_here (kw : text) (prev : option Z) (t : text) : bool :=
  boundary prev t && starts_with kw t
  && boundary (match last kw with Some c => Some c | None => prev end)
              (drop (length kw) t).

(** [re.search(r'\b' + re.escape(kw) + r'\b', t)] finds a match at or
    after the head of [t]. *)
Fixpoint search_word (kw : text) (prev : option Z) (t : text) : bool :=
  word_here kw prev t
  || match t with
     | [] => false
     | c :: t' => search_word kw (Some c) t'
     end.

(** [_has_keyword_simple] *)
Definition _has_keyword_simple (t : text) (keywords : list (list Z)) : bool :=
  existsb (fun kw => search_word kw None t) keywords.

End Normalisation.

(** ** Tables *)

(** A cell of the [page_num] column of the page table, before
    [pd.to_numeric(_, errors='coerce')]: missing ([None], NaN), a finite
    number (given by its [int(_)]), or a string.  An infinite cell, on
    which [int(_)] raises, is not modelled. *)
Inductive cell :=
  | Missing
  | Number (n : Z)
  | Written (s : list Z).

(** A row of the page table (Silver), as [iterrows] delivers it:
    [row['doc_id']], [row.get('source_name', 'unknown')],
    [row.get('page_num')] and [str(row['full_text'])]. *)
Record PageRow := {
  p_doc_id : list Z;
  p_source_name : list Z;
  p_page_num : cell;
  p_full_text : list Z
}.

(** A row of [self.candidates] (entity type INSTRUMENTO).  [page_num] and
    [match_start_idx] are table cells: [None] stands for NaN. *)
Record RoleRow := {
  i_doc_id : list Z;
  i_source_name : list Z;
  i_page_num : option Z;
  i_entity_type : list Z;
  i_canonical_value : list Z;
  i_raw_value : list Z;
  i_evidence_text : list Z;
  i_match_start_idx : option Z;
  i_confidence : list Z
}.

(** A row of [self.salaries] (entity type SALARIO); [s_canonical_value] is
    the amount in centavos. *)
Record SalaryRow := {
  s_doc_id : list Z;
  s_source_name : list Z;
  s_page_num : option Z;
  s_entity_type : list Z;
  s_canonical_value : Z;
  s_raw_value : list Z;
  s_evidence_text : list Z;
  s_match_start_idx : option Z;
  s_score : Z
}.

(** ** SALARY_CONFIG *)

Definition min_val : Z := 70000.      (* 700.0 *)
Definition max_val : Z := 4500000.    (* 45000.0 *)

Definition positive_keywords : list (list Z) :=
  map utf8 ["remuneracao"; "salario"; "mensal"; "cache"; "bolsa"; "vencimento";
            "subsidio"; "honorario"; "premio"; "pagamento"]%string.

Definition negative_keywords : list (list Z) :=
  map utf8 ["multa"; "taxa"; "inscricao"; "boleto"; "gru"; "darf";
            "custo"; "diaria"; "ajuda de custo"; "verba"; "recurso"]%string.

(** ** The numeric pattern *)

(** [SALARY_CONFIG['regex']]: not preceded by a digit; an optional currency
    marker with its white space (group 1); the integer run (group 2),
    thousands-grouped or three to six bare digits; an optional fractional
    suffix of a comma and two digits (group 3); not followed by a digit. *)
Definition salary_regex : list Z :=
  utf8 "(?<!\d)(R\$\s*)?((?:\d{1,3}(?:\.\d{3})+)|(?:\d{3,6}))(?:,(\d{2}))?(?!\d)".

(** A match of the pattern at a position: its length and groups 1 to 3. *)
Record RawMatch := {
  rm_len : nat;
  rm_group1 : option (list Z);
  rm_group2 : list Z;
  rm_group3 : option (list Z)
}.

(** The match object the extractor reads: [span()] and the groups. *)
Record NumMatch := {
  m_start : Z;
  m_end : Z;
  m_group1 : option (list Z);
  m_group2 : list Z;
  m_group3 : option (list Z)
}.

Section NumericPattern.
Context {rt : Runtime}.

(** [(?!\d)] *)
Definition lookahead_ok (t : text) : bool :=
  match t with
  | c :: _ => negb (is_digit c)
  | [] => true
  end.

(** [(?<!\d)] *)
Definition lookbehind_ok (prev : option Z) : bool :=
  match prev with
  | Some c => negb (is_digit c)
  | None => true
  end.

(** [(?:,(\d{2}))?(?!\d)]: with the fractional suffix first, then without.
    The result is the length taken and group 3. *)
Definition match_suffix (t : text) : option (nat * option (list Z)) :=
  let without := if lookahead_ok t then Some (0%nat, None) else None in
  match t with
  | 44 :: d1 :: d2 :: t' =>
      if is_digit d1 && is_digit d2 && lookahead_ok t'
      then Some (3%nat, Some [d1; d2])
      else without
  | _ => without
  end.

(** The integer run takes the first [n] characters of [t]; the rest of
    the pattern follows. *)
Definition after_integer (g1 : option (list Z)) (t : text) (n : nat)
  : option RawMatch :=
  match match_suffix (drop n t) with
  | Some (k, g3) =>
      Some {| rm_len := (n + k)%nat; rm_group1 := g1;
              rm_group2 := take n t; rm_group3 := g3 |}
  | None => None
  end.

(** How many digits open [t]. *)
Definition digit_run (t : text) : nat := length (take_while is_digit t).

(** How many times [(?:\.\d{3})] matches in a row at the head of [t]. *)
Fixpoint group_run (t : text) : nat :=
  match t with
  | 46 :: d1 :: d2 :: d3 :: t' =>
      if is_digit d1 && is_digit d2 && is_digit d3
      then S (group_run t') else O
  | _ => O
  end.

(** [\d{1,3}(?:\.\d{3})+]: greedy on the leading digits, then greedy on
    the groups, giving back one at a time. *)
Definition grouped (g1 : option (list Z)) (t : text) : option RawMatch :=
  first_some
    (fun k =>
       first_some (fun n => after_integer g1 t (k + 4 * n))
                  (down_from (group_run (drop k t)) 1))
    (down_from (Nat.min 3 (digit_run t)) 1).

(** [\d{3,6}] *)
Definition bare (g1 : option (list Z)) (t : text) : option RawMatch :=
  first_some (after_integer g1 t) (down_from (Nat.min 6 (digit_run t)) 3).

(** Group 2 and what follows it, the grouped alternative first. *)
Definition match_number (g1 : option (list Z)) (t : text) : option RawMatch :=
  match grouped g1 t with
  | Some r => Some r
  | None => bare g1 t
  end.

(** A match whose number starts after a prefix of [n] characters. *)
Definition after_prefix (t : text) (n : nat) : option RawMatch :=
  match match_number (Some (take n t)) (drop n t) with
  | Some r =>
      Some {| rm_len := (n + rm_len r)%nat; rm_group1 := rm_group1 r;
              rm_group2 := rm_group2 r; rm_group3 := rm_group3 r |}
  | None => None
  end.

(** The whole pattern at the head of [t], which [prev] precedes: the
    currency marker [R$] with its white space (greedy), else no marker. *)
Definition match_here (prev : option Z) (t : text) : option RawMatch :=
  if negb (lookbehind_ok prev) then None
  else
    let marked :=
      if starts_with [82; 36] t
      then first_some (fun w => after_prefix t (2 + w))
                      (down_from (length (take_while space (drop 2 t))) 0)
      else None in
    match marked with
    | Some r => Some r
    | None => match_number None t
    end.

(** [salary_pattern.finditer(t)]: leftmost matches, the scan resuming
    where a match ends.  [skip] characters are still inside the last
    match. *)
Fixpoint scan (pos : Z) (prev : option Z) (skip : nat) (t : text)
  : list NumMatch :=
  match t with
  | [] => []
  | c :: t' =>
    match skip with
    | S k => scan (pos + 1) (Some c) k t'
    | O =>
      match match_here prev t with
      | Some r =>
          {| m_start := pos; m_end := pos + Z.of_nat (rm_len r);
             m_group1 := rm_group1 r; m_group2 := rm_group2 r;
             m_group3 := rm_group3 r |}
            :: scan (pos + 1) (Some c) (rm_len r - 1) t'
      | None => scan (pos + 1) (Some c) 0 t'
      end
    end
  end.

Definition salary_finditer (t : text) : list NumMatch := scan 0 None 0 t.

End NumericPattern.

(** ** extract_salaries *)

Section ExtractSalaries.
Context {rt : Runtime}.

(** [pd.to_numeric(row.get('page_num'), errors='coerce')] followed by
    [int(_)]; [None] is NaN, on which both extractors [continue]. *)
Definition to_numeric (c : cell) : option Z :=
  match c with
  | Missing => None
  | Number n => Some n
  | Written s => numeric_of_text s
  end.

(** The value of a run of decimal digits, [None] on any other character. *)
Definition digits_value (t : text) : option Z :=
  fold_left (fun acc c =>
               match acc, decimal c with
               | Some v, Some d => Some (10 * v + d)
               | _, _ => None
               end) t (Some 0).

(** [float(f"{int_clean}.{dec_clean}")] in centavos, on what the pattern
    captures: a run of digits and two fractional digits.  [None] is the
    [ValueError] branch. *)
Definition parse_amount (int_clean dec_clean : text) : option Z :=
  match digits_value int_clean, digits_value dec_clean with
  | Some i, Some d =>
      if (length dec_clean =? 2)%nat then Some (100 * i + d) else None
  | _, _ => None
  end.

(** The score of a match that passed the filters. *)
Definition score_of (symbol_found has_positive has_negative : bool) : Z :=
  let score := 0 in
  let score := if symbol_found then score + 2 else score in
  let score := if has_positive then score + 3 else score in
  let score := if has_negative then score - 10 else score in
  score.

(** The filters and the score of one match (the body of the inner loop
    after the context flags are known): the amount and the score of an
    accepted match, [None] for [continue]. *)
Definition judge (symbol_found : bool) (int_part_raw : text)
    (dec_part_raw : option (list Z)) (has_positive has_negative : bool)
  : option (Z * Z) :=
  let has_format :=
    contains [46] int_part_raw
    || match dec_part_raw with Some _ => true | None => false end in
  if negb symbol_found && (negb has_format && negb has_positive) then None
  else
    let int_clean := replace_char 46 [] int_part_raw in
    let dec_clean :=
      match dec_part_raw with
      | Some (c :: d) => c :: d
      | _ => [48; 48]
      end in
    match parse_amount int_clean dec_clean with
    | None => None
    | Some val_float =>
      if negb ((min_val <=? val_float) && (val_float <=? max_val)) then None
      else
        let is_year_range := (190000 <=? val_float) && (val_float <=? 210000) in
        let is_raw_number :=
          negb (contains [46] int_part_raw)
          && match dec_part_raw with Some _ => false | None => true end in
        if is_year_range && is_raw_number && negb symbol_found && negb has_positive
        then None
        else
          let score := score_of symbol_found has_positive has_negative in
          if negb symbol_found && negb has_positive then None
          else if score <? 0 then None
          else Some (val_float, score)
    end.


(** [bool(match.group(1))] *)
Definition symbol_found (m : NumMatch) : bool :=
  match m_group1 m with
  | Some (_ :: _) => true
  | _ => false
  end.

(** The 120-character window around a match, [text[ctx_start:ctx_end]]. *)
Definition salary_window (t : text) (m : NumMatch) : list Z :=
  let ctx_start := Z.max 0 (m_start m - 120) in
  let ctx_end := Z.min (len t) (m_end m + 120) in
  slice t ctx_start ctx_end.

Definition context_norm (t : text) (m : NumMatch) : list Z :=
  _normalize_text (salary_window t m).

Definition has_positive (t : text) (m : NumMatch) : bool :=
  _has_keyword_simple (context_norm t m) positive_keywords.

Definition has_negative (t : text) (m : NumMatch) : bool :=
  _has_keyword_simple (context_norm t m) negative_keywords.

(** One iteration of the loop over the matches of a page: the row
    appended for the match [m] of the text [t], if any. *)
Definition salary_of_match (row : PageRow) (page_num : Z) (m : NumMatch)
  : option SalaryRow :=
  let t := p_full_text row in
  match m_group2 m with
  | [] => None
  | _ :: _ =>
    match judge (symbol_found m) (m_group2 m) (m_group3 m)
                (has_positive t m) (has_negative t m) with
    | None => None
    | Some (val_float, score) =>
        Some {| s_doc_id := p_doc_id row;
                s_source_name := p_source_name row;
                s_page_num := Some page_num;
                s_entity_type := utf8 "SALARIO";
                s_canonical_value := val_float;
                s_raw_value := slice t (m_start m) (m_end m);
                s_evidence_text := evidence_of (salary_window t m);
                s_match_start_idx := Some (m_start m);
                s_score := score |}
    end
  end.

(** One iteration of the loop over the pages. *)
Definition salaries_of_page (row : PageRow) : list SalaryRow :=
  match to_numeric (p_page_num row) with
  | None => []
  | Some page_num =>
      omap (salary_of_match row page_num) (salary_finditer (p_full_text row))
  end.

(** [extracted_rows] when the loop over the pages ends. *)
Definition salary_rows (silver_data : list PageRow) : list SalaryRow :=
  flat_map salaries_of_page silver_data.

(** [self.salaries] when [extract_salaries] returns. *)
Definition extract_salaries (silver_data : list PageRow) : list SalaryRow :=
  match salary_rows silver_data with
  | [] => []
  | rows => sort_values_desc SalaryRow s_score rows
  end.

End ExtractSalaries.

(** ** extract_instruments *)

(** A taxonomy: canonical role names with their patterns, in the order of
    the dictionary. *)
Abbreviation taxonomy := (list (list Z * list (list Z))).

Definition INSTRUMENT_TAXONOMY : taxonomy :=
  [ (utf8 "Fagote", map utf8 ["fagote"; "fagotista"]%string);
    (utf8 "Flauta", map utf8 ["flauta"; "flautista"; "flautim"; "piccolo"]%string);
    (utf8 "Oboé", map utf8 ["obo[eé]"; "obo[ií]sta"; "corne\s+ingl[eê]s"]%string);
    (utf8 "Clarinete",
      map utf8 ["clarinete"; "clarinetista"; "clarineta"; "clarone"]%string);
    (utf8 "Trompa", map utf8 ["trompa"; "trompista"]%string);
    (utf8 "Trompete", map utf8 ["trompete"; "trompetista"]%string);
    (utf8 "Trombone", map utf8 ["trombone"; "trombonista"]%string);
    (utf8 "Tuba", map utf8 ["tuba"; "tubista"; "euphonium"; "bombardino"]%string);
    (utf8 "Violino", map utf8 ["violino"; "violinista"; "spalla"; "concertino"]%string);
    (utf8 "Viola", map utf8 ["\bviola(?!\w)"; "violista"]%string);
    (utf8 "Violoncelo", map utf8 ["violoncelo"; "violoncelista"; "cello"]%string);
    (utf8 "Contrabaixo",
      map utf8 ["contrabaixo"; "contrabaixista"; "baixo\s+ac[uú]stico"]%string);
    (utf8 "Piano", map utf8 ["piano"; "pianista"; "correpetidor"]%string);
    (utf8 "Percussão", map utf8 ["percuss[aã]o"; "percussionista"; "t[ií]mpanos"]%string);
    (utf8 "Harpa", map utf8 ["harpa"; "harpista"]%string);
    (utf8 "Canto",
      map utf8 ["cantor(?:a)?"; "corista"; "solista\s+vocal"; "artista\s+do\s+coro"]%string)
  ].

Definition basic_markers : list (list Z) :=
  map utf8 ["\s"; "["; "("; "|"; "*"; "+"; "?"; "{"]%string.

(** The pattern already carries regular-expression syntax of its own. *)
Definition is_complex (pattern : text) : bool :=
  contains (utf8 "\") pattern
  || contains (utf8 "\b") pattern
  || contains (utf8 "(?") pattern
  || existsb (fun marker => contains marker pattern) basic_markers.

(** A bare keyword is wrapped in word boundaries. *)
Definition regex_pattern (pattern : text) : list Z :=
  if is_complex pattern then pattern
  else utf8 "\b" ++ pattern ++ utf8 "\b".

(** The key of [drop_duplicates(subset=['doc_id', 'page_num',
    'canonical_value'])]. *)
Definition role_key (r : RoleRow) : list Z * option Z * list Z :=
  (i_doc_id r, i_page_num r, i_canonical_value r).

(** The column [evidence_len]. *)
Definition evidence_len (r : RoleRow) : Z := len (i_evidence_text r).

(** [drop_duplicates(subset=key)] with the default [keep='first']: a row
    stays when no earlier row has its key. *)
Fixpoint drop_duplicates_from {A K} `{EqDecision K} (key : A -> K)
    (seen : list K) (l : list A) : list A :=
  match l with
  | [] => []
  | x :: l' =>
      if decide (key x ∈ seen) then drop_duplicates_from key seen l'
      else x :: drop_duplicates_from key (key x :: seen) l'
  end.

Definition drop_duplicates {A K} `{EqDecision K} (key : A -> K) (l : list A)
  : list A :=
  drop_duplicates_from key [] l.

Section ExtractInstruments.
Context {rt : Runtime}.

(** The row appended for one match of a pattern of [canonical]. *)
Definition role_of_match (row : PageRow) (page_num : Z) (canonical : text)
    (m : span) : RoleRow :=
  let t := p_full_text row in
  let '(start, end_) := m in
  let ctx_start := Z.max 0 (start - 80) in
  let ctx_end := Z.min (len t) (end_ + 80) in
  {| i_doc_id := p_doc_id row;
     i_source_name := p_source_name row;
     i_page_num := Some page_num;
     i_entity_type := utf8 "INSTRUMENTO";
     i_canonical_value := canonical;
     i_raw_value := slice t start end_;
     i_evidence_text := evidence_of (slice t ctx_start ctx_end);
     i_match_start_idx := Some start;
     i_confidence := utf8 "HIGH" |}.

(** The body of the loop over the patterns, the rows it appends:
    [except re.error: pass] leaves nothing of a pattern on which the
    engine raises [re.error]; another exception is not caught and leaves
    the method ([None]). *)
Definition roles_of_pattern (row : PageRow) (page_num : Z) (canonical : text)
    (pattern : text) : option (list RoleRow) :=
  match re_finditer (regex_pattern pattern) (p_full_text row) with
  | Matches matches => Some (map (role_of_match row page_num canonical) matches)
  | ReError => Some []
  | OtherError => None
  end.

(** One iteration of the loop over the pages. *)
Definition roles_of_page (tax : taxonomy) (row : PageRow)
  : option (list RoleRow) :=
  match to_numeric (p_page_num row) with
  | None => Some []
  | Some page_num =>
      extend_rows (fun entry : list Z * list (list Z) =>
                     extend_rows (roles_of_pattern row page_num (fst entry))
                                 (snd entry))
                  tax
  end.

(** [extracted_rows] when the loop over the pages ends. *)
Definition role_rows (tax : taxonomy) (silver_data : list PageRow)
  : option (list RoleRow) :=
  extend_rows (roles_of_page tax) silver_data.

(** The deduplication that ends [extract_instruments]. *)
Definition deduplicate (rows : list RoleRow) : list RoleRow :=
  match rows with
  | [] => []
  | _ => drop_duplicates role_key (sort_values_desc RoleRow evidence_len rows)
  end.

(** [self.candidates] when [extract_instruments] returns, [None] when
    an exception leaves it. *)
Definition extract_instruments (tax : taxonomy) (silver_data : list PageRow)
  : option (list RoleRow) :=
  option_map deduplicate (role_rows tax silver_data).

End ExtractInstruments.

(** ** match_opportunities *)

Inductive MatchType := PAGE_PROXIMITY | NO_MATCH.

(** A row of the final table.  [salario_valor] is in centavos; [None] is
    the null of the columns [salario_valor] and [contexto_salario]. *)
Record Opportunity := {
  o_doc_id : list Z;
  o_source_name : list Z;
  o_page_num : Z;
  instrumento : list Z;
  contexto_instrumento : list Z;
  tipo_vinculo : list Z;
  salario_valor : option Z;
  salario_score : Z;
  distancia_chars : Z;
  contexto_salario : option (list Z);
  match_type : MatchType;
  salario_formatado : list Z
}.

(** What a call leaves: the table [self.opportunities], or the [KeyError]
    of reading the column [salario_valor] of a table built from no row. *)
Inductive outcome :=
  | Done (opportunities : list Opportunity)
  | KeyError.

Definition BOND_KEYWORDS : list (list Z * list (list Z)) :=
  [ (utf8 "CLT", map utf8 ["clt"; "carteira assinada"; "regime celetista"]%string);
    (utf8 "Estatutário",
      map utf8 ["estatut[áa]rio"; "cargo p[úu]blico"; "concurso p[úu]blico";
                "efetivo"]%string);
    (utf8 "Temporário",
      map utf8 ["tempor[áa]rio"; "processo seletivo"; "pss"; "determinado"]%string);
    (utf8 "Bolsa", map utf8 ["bolsa"; "bolsista"; "est[áa]gio"; "ajuda de custo"]%string)
  ].

Definition nao_informado : list Z := utf8 "Não Informado".

(** The proximity test of the matchmaker is [dist < proximity_window]. *)
Definition proximity_window : Z := 3000.

(** Tuples of two integers compare lexicographically. *)
Definition tuple_le (a b : Z * Z) : bool :=
  (fst a <? fst b) || ((fst a =? fst b) && (snd a <=? snd b)).

(** [list.sort(key=key)]: ascending, and stable (an element goes before
    the elements of the same key that followed it). *)
Fixpoint sort_insert {A} (key : A -> Z * Z) (x : A) (l : list A) : list A :=
  match l with
  | [] => [x]
  | y :: l' =>
      if tuple_le (key x) (key y) then x :: l else y :: sort_insert key x l'
  end.

Definition list_sort {A} (key : A -> Z * Z) (l : list A) : list A :=
  foldr (sort_insert key) [] l.

(** [f"{n:,}"] backwards: the digits of [n], least significant first,
    with a comma after every third digit that another digit follows. *)
Fixpoint group_thousands (rev_digits : list Z) : list Z :=
  match rev_digits with
  | a :: b :: c :: ((_ :: _) as more) => a :: b :: c :: 44 :: group_thousands more
  | _ => rev_digits
  end.

Definition decimal_digits (n : Z) : list Z :=
  bytes_of (DecimalString.NilZero.string_of_uint (N.to_uint (Z.to_N n))).

Definition two_digits (n : Z) : list Z := [48 + n / 10; 48 + n mod 10].

(** [f"{val:,.2f}"] for an amount in centavos. *)
Definition format_amount (val : Z) : list Z :=
  (if val <? 0 then [45] else [])
  ++ rev (group_thousands (rev (decimal_digits (Z.abs val / 100))))
  ++ [46] ++ two_digits (Z.abs val mod 100).

(** [formatar_real] *)
Definition formatar_real (val : option Z) : list Z :=
  match val with
  | None => nao_informado
  | Some val =>
      replace_char 88 [46]
        (replace_char 46 [44]
           (replace_char 44 [88] (utf8 "R$ " ++ format_amount val)))
  end.

(** The key [(doc_id, page_num)] of [salaries_map]. *)
Abbreviation page_key := (list Z * Z)%type.

(** The pairs [(sal, dist)] of [valid_candidates] for a role at [inst_pos]. *)
Definition valid_candidates (inst_pos : Z) (possible_salaries : list SalaryRow)
  : list (SalaryRow * Z) :=
  omap (fun sal =>
          match s_match_start_idx sal with
          | None => None
          | Some idx =>
              let dist := Z.abs (inst_pos - idx) in
              if dist <? proximity_window then Some (sal, dist) else None
          end)
       possible_salaries.

(** The key of [valid_candidates.sort]: [(-x[0]['score'], x[1])]. *)
Definition rank (x : SalaryRow * Z) : Z * Z := (- s_score (fst x), snd x).

(** [best_salary] and [min_dist], when there is a valid candidate. *)
Definition best_of (valid : list (SalaryRow * Z)) : option (SalaryRow * Z) :=
  head (list_sort rank valid).

(** One step of the loop that fills [salaries_map].  A row whose
    [page_num] is NaN is passed over; [doc_id] is a string ([load_data]
    casts the column), so the guard on it never fires. *)
Definition salaries_map_add (m : gmap page_key (list SalaryRow)) (row : SalaryRow)
  : gmap page_key (list SalaryRow) :=
  match s_page_num row with
  | None => m
  | Some page_num =>
      let key := (s_doc_id row, page_num) in
      <[key := default [] (m !! key) ++ [row]]> m
  end.

Definition build_salaries_map (salaries : list SalaryRow)
  : gmap page_key (list SalaryRow) :=
  fold_left salaries_map_add salaries ∅.

Section Matchmaker.
Context {rt : Runtime}.

(** The first bond type one of whose patterns is found. *)
Definition detect_bond (combined_context : text) : list Z :=
  match List.find (fun entry : list Z * list (list Z) =>
                     existsb (fun pat => re_search pat combined_context)
                             (snd entry))
                  BOND_KEYWORDS with
  | Some entry => fst entry
  | None => nao_informado
  end.

(** One iteration of the loop over the role candidates: the row appended
    to [final_rows], with its formatted amount; [None] for [continue]
    (a NaN [match_start_idx] or [page_num]). *)
Definition opportunity_of (salaries_map : gmap page_key (list SalaryRow))
    (inst : RoleRow) : option Opportunity :=
  match i_match_start_idx inst, i_page_num inst with
  | Some inst_pos, Some page_num =>
    let doc_id := i_doc_id inst in
    let possible_salaries := default [] (salaries_map !! (doc_id, page_num)) in
    let best := best_of (valid_candidates inst_pos possible_salaries) in
    let inst_evidence := i_evidence_text inst in
    let sal_evidence :=
      match best with Some (best_salary, _) => s_evidence_text best_salary
                    | None => [] end in
    let combined_context :=
      _normalize_text (inst_evidence ++ [32] ++ sal_evidence) in
    let detected_bond := detect_bond combined_context in
    Some
      match best with
      | Some (best_salary, min_dist) =>
        {| o_doc_id := doc_id;
           o_source_name := i_source_name inst;
           o_page_num := page_num;
           instrumento := i_canonical_value inst;
           contexto_instrumento := i_evidence_text inst;
           tipo_vinculo := detected_bond;
           salario_valor := Some (s_canonical_value best_salary);
           salario_score := s_score best_salary;
           distancia_chars := min_dist;
           contexto_salario := Some (s_evidence_text best_salary);
           match_type := PAGE_PROXIMITY;
           salario_formatado := formatar_real (Some (s_canonical_value best_salary)) |}
      | None =>
        {| o_doc_id := doc_id;
           o_source_name := i_source_name inst;
           o_page_num := page_num;
           instrumento := i_canonical_value inst;
           contexto_instrumento := i_evidence_text inst;
           tipo_vinculo := detected_bond;
           salario_valor := None;
           salario_score := 0;
           distancia_chars := -1;
           contexto_salario := None;
           match_type := NO_MATCH;
           salario_formatado := formatar_real None |}
      end
  | _, _ => None
  end.

(** [match_opportunities] on the tables [self.candidates] and
    [self.salaries]. *)
Definition match_opportunities (candidates : list RoleRow)
    (salaries : list SalaryRow) : outcome :=
  match candidates with
  | [] => Done []
  | _ =>
    let salaries_map := build_salaries_map salaries in
    match omap (opportunity_of salaries_map) candidates with
    | [] => KeyError
    | final_rows => Done final_rows
    end
  end.

End Matchmaker.

(** ** A runtime for the examples

    The parameters of [Runtime] on the fragment the examples need: the
    characters of Portuguese text and patterns made of literal characters
    and character classes. *)

Module Example.

(** The decimal digits of ASCII. *)
Definition ex_decimal (c : Z) : option Z :=
  if (48 <=? c) && (c <=? 57) then Some (c - 48) else None.

(** The white space of Latin-1. *)
Definition ex_space (c : Z) : bool :=
  ((9 <=? c) && (c <=? 13)) || ((28 <=? c) && (c <=? 32))
  || (c =? 133) || (c =? 160).

(** The canonical decomposition of the accented letters of Portuguese
    (base letter, combining mark); other characters are left alone. *)
Definition decompose (c : Z) : list Z :=
  let mark (base m : Z) := [base; m] in
  let lower := if (224 <=? c) && (c <=? 252) then 32 else 0 in
  match c - lower with
  | 192 => mark (65 + lower) 768
  | 193 => mark (65 + lower) 769
  | 194 => mark (65 + lower) 770
  | 195 => mark (65 + lower) 771
  | 199 => mark (67 + lower) 807
  | 201 => mark (69 + lower) 769
  | 202 => mark (69 + lower) 770
  | 205 => mark (73 + lower) 769
  | 211 => mark (79 + lower) 769
  | 212 => mark (79 + lower) 770
  | 213 => mark (79 + lower) 771
  | 218 => mark (85 + lower) 769
  | 220 => mark (85 + lower) 776
  | _ => [c]
  end.

Definition ex_nfkd (t : text) : list Z := flat_map decompose t.

(** What compiling a pattern of the fragment leaves: one set of
    characters a position, or one of the two failures. *)
Inductive compiled :=
  | Classes (cs : list (list Z))
  | Refused
  | TooLarge.

(** The largest repetition count the engine holds ([MAXREPEAT]). *)
Definition MAXREPEAT : Z := 4294967295.

(** The characters of a set up to its closing bracket, and what follows. *)
Fixpoint class_end (cs : list Z) (p : text) : option (list Z * list Z) :=
  match p with
  | [] => None
  | c :: p' => if c =? 93 then Some (rev cs, p') else class_end (c :: cs) p'
  end.

(** The count of a repetition [{n}] whose opening brace was just read,
    and what follows it; [None] when the brace opens no such count. *)
Fixpoint count_end (n : option Z) (p : text) : option (Z * list Z) :=
  match p with
  | [] => None
  | c :: p' =>
      if c =? 125 then option_map (fun v => (v, p')) n
      else match ex_decimal c with
           | Some d => count_end (Some (10 * default 0 n + d)) p'
           | None => None
           end
  end.

(** The pattern is read from the left; [acc] holds the positions read,
    last first.  A set is closed by its bracket; a parenthesis or a
    backslash is outside the fragment and refused; a count repeats the
    position before it, is too large from [MAXREPEAT] on, and has
    nothing to repeat at the head of the pattern. *)
Fixpoint classes (fuel : nat) (acc : list (list Z)) (p : text) : compiled :=
  match fuel with
  | O => Classes (rev acc)
  | S fuel =>
    match p with
    | [] => Classes (rev acc)
    | c :: p' =>
      if c =? 91 then
        match class_end [] p' with
        | Some (cs, rest) => classes fuel (cs :: acc) rest
        | None => Refused
        end
      else if (c =? 40) || (c =? 41) || (c =? 92) then Refused
      else if c =? 123 then
        match count_end None p' with
        | Some (n, rest) =>
            if MAXREPEAT <=? n then TooLarge
            else match acc with
                 | [] => Refused
                 | item :: acc' =>
                     classes fuel (repeat item (Z.to_nat n) ++ acc') rest
                 end
        | None => classes fuel ([c] :: acc) p'
        end
      else classes fuel ([c] :: acc) p'
    end
  end.

(** The positions of a pattern and whether word boundaries enclose it. *)
Definition compile (pattern : text) : bool * compiled :=
  let b := utf8 "\b" in
  if starts_with b pattern
     && starts_with (rev b) (rev pattern) && (4 <=? len pattern)
  then
    let inner := take (length pattern - 4) (drop 2 pattern) in
    (true, classes (length inner) [] inner)
  else (false, classes (length pattern) [] pattern).

Definition fold_case (c : Z) : Z := ascii_lower c.

Fixpoint classes_here (cs : list (list Z)) (t : text) : bool :=
  match cs, t with
  | [], _ => true
  | _ :: _, [] => false
  | k :: cs', c :: t' =>
      existsb (fun a => fold_case a =? fold_case c) k && classes_here cs' t'
  end.

Definition here (bounded : bool) (cs : list (list Z)) (prev : option Z)
    (t : text) : bool :=
  classes_here cs t
  && (negb bounded
      || (boundary prev t
          && boundary (last (option_list prev ++ take (length cs) t))
                      (drop (length cs) t))).

Fixpoint spans (bounded : bool) (cs : list (list Z)) (pos : Z)
    (prev : option Z) (skip : nat) (t : text) : list span :=
  match t with
  | [] => []
  | c :: t' =>
    match skip with
    | S k => spans bounded cs (pos + 1) (Some c) k t'
    | O =>
        if here bounded cs prev t
        then (pos, pos + Z.of_nat (length cs))
               :: spans bounded cs (pos + 1) (Some c) (length cs - 1) t'
        else spans bounded cs (pos + 1) (Some c) 0 t'
    end
  end.

(** [re.finditer] on the fragment, without regard to case: [re.error]
    for a pattern that is refused, [OverflowError] for a repetition count
    that is too large. *)
Definition ex_re_finditer (pattern t : text) : engine_result :=
  match compile pattern with
  | (bounded, Classes cs) => Matches (spans bounded cs 0 None 0 t)
  | (_, Refused) => ReError
  | (_, TooLarge) => OtherError
  end.

Definition ex_re_search (pattern t : text) : bool :=
  match compile pattern with
  | (bounded, Classes cs) =>
      match spans bounded cs 0 None 0 t with [] => false | _ => true end
  | _ => false
  end.

(** A stable sort by descending key. *)
Fixpoint insert_desc {A} (key : A -> Z) (x : A) (l : list A) : list A :=
  match l with
  | [] => [x]
  | y :: l' => if key y <=? key x then x :: l else y :: insert_desc key x l'
  end.

Definition sort_desc (A : Type) (key : A -> Z) (l : list A) : list A :=
  foldr (insert_desc key) [] l.

(** *** A sort that is not stable

    [sort_values] sorts with [numpy.argsort] and its default [kind]
    (quicksort), which is not stable.  Where the processor has the vector
    instructions for it, a short array is sorted by a sorting network: the
    rows are laid out on lanes, eight or the next power of two that holds
    them, the free lanes filled with the largest key, and pairs of lanes
    are compared and exchanged in the order of a bitonic sort.  Two lanes
    of equal key are not exchanged, yet the network moves rows of equal
    key past one another.  For [ascending=False] the column is sorted in
    reverse and the result reversed. *)

(** Compare and exchange: the smaller key goes to the lower lane [x]. *)
Definition coex {A} (key : A -> Z) (x y : option A) : option A * option A :=
  match x, y with
  | Some a, Some b => if key b <? key a then (y, x) else (x, y)
  | None, Some _ => (y, x)
  | _, _ => (x, y)
  end.

(** Lane by lane on two registers: the lower and the upper results. *)
Fixpoint coex_all {A} (key : A -> Z) (l1 l2 : list (option A))
  : list (option A) * list (option A) :=
  match l1, l2 with
  | x :: l1', y :: l2' =>
      let '(lo, hi) := coex key x y in
      let '(los, his) := coex_all key l1' l2' in
      (lo :: los, hi :: his)
  | _, _ => ([], [])
  end.

(** The merge of a bitonic run of [2 ^ k] lanes. *)
Fixpoint half_clean {A} (key : A -> Z) (k : nat) (l : list (option A))
  : list (option A) :=
  match k with
  | O => l
  | S k' =>
      let h := (2 ^ k')%nat in
      let '(lo, hi) := coex_all key (take h l) (drop h l) in
      half_clean key k' lo ++ half_clean key k' hi
  end.

(** The network on [2 ^ k] lanes: the halves are sorted, the upper half
    is compared in reverse with the lower, and both are merged. *)
Fixpoint bitonic {A} (key : A -> Z) (k : nat) (l : list (option A))
  : list (option A) :=
  match k with
  | O => l
  | S k' =>
      let h := (2 ^ k')%nat in
      let a := bitonic key k' (take h l) in
      let b := bitonic key k' (drop h l) in
      let '(lo, hi) := coex_all key a (rev b) in
      half_clean key k' lo ++ half_clean key k' (rev hi)
  end.

(** The exponent of the lanes that hold [n] rows: eight lanes at least. *)
Fixpoint lanes_exp (fuel : nat) (k n : nat) : nat :=
  match fuel with
  | O => k
  | S fuel => if (n <=? 2 ^ k)%nat then k else lanes_exp fuel (S k) n
  end.

(** [argsort]: ascending. *)
Definition argsort_network {A} (key : A -> Z) (l : list A) : list A :=
  let n := length l in
  let k := lanes_exp n 3 n in
  omap id (bitonic key k (map Some l ++ replicate (2 ^ k - n) None)).

(** [sort_values(key, ascending=False)] over that [argsort]. *)
Definition sort_network (A : Type) (key : A -> Z) (l : list A) : list A :=
  rev (argsort_network key (rev l)).

Definition ex_numeric_of_text (s : text) : option Z :=
  match s with
  | [] => None
  | _ => fold_left (fun acc c =>
                      match acc, ex_decimal c with
                      | Some v, Some d => Some (10 * v + d)
                      | _, _ => None
                      end) s (Some 0)
  end.

Definition runtime : Runtime :=
  {| decimal := ex_decimal;
     space := ex_space;
     nfkd := ex_nfkd;
     re_finditer := ex_re_finditer;
     re_search := ex_re_search;
     sort_values_desc := sort_desc;
     numeric_of_text := ex_numeric_of_text |}.

(** The same runtime with the sort by network. *)
Definition runtime_network : Runtime :=
  {| decimal := ex_decimal;
     space := ex_space;
     nfkd := ex_nfkd;
     re_finditer := ex_re_finditer;
     re_search := ex_re_search;
     sort_values_desc := sort_network;
     numeric_of_text := ex_numeric_of_text |}.

End Example.

(** ** The vocabulary of the properties *)

(** The lexicographic order on the keys of [list.sort]. *)
Definition tuple_lt (a b : Z * Z) : Prop :=
  fst a < fst b \/ (fst a = fst b /\ snd a < snd b).

(** The salary row is on the page [key]. *)
Definition on_page (key : list Z * Z) (row : SalaryRow) : Prop :=
  s_doc_id row = fst key /\ s_page_num row = Some (snd key).

#[global] Instance on_page_dec key row : Decision (on_page key row).
Proof. unfold on_page. apply _. Defined.

(** The salary row [sal] is on the page [key] and starts [dist] characters
    from [inst_pos], inside the window the code tests. *)
Definition qualifies (inst_pos : Z) (key : list Z * Z) (sal : SalaryRow)
    (dist : Z) : Prop :=
  on_page key sal
  /\ exists idx, s_match_start_idx sal = Some idx
       /\ dist = Z.abs (inst_pos - idx) /\ dist < proximity_window.

(** ** Sample rows

    A role and salaries of page 1 of one document, for the worked cases. *)

Definition sample_role (pos : Z) : RoleRow :=
  {| i_doc_id := utf8 "edital-01";
     i_source_name := utf8 "orquestra";
     i_page_num := Some 1;
     i_entity_type := utf8 "INSTRUMENTO";
     i_canonical_value := utf8 "Fagote";
     i_raw_value := utf8 "fagote";
     i_evidence_text := utf8 "vaga de fagote";
     i_match_start_idx := Some pos;
     i_confidence := utf8 "HIGH" |}.

Definition sample_salary (pos score : Z) : SalaryRow :=
  {| s_doc_id := utf8 "edital-01";
     s_source_name := utf8 "orquestra";
     s_page_num := Some 1;
     s_entity_type := utf8 "SALARIO";
     s_canonical_value := 850000;
     s_raw_value := utf8 "R$ 8.500,00";
     s_evidence_text := utf8 "R$ 8.500,00";
     s_match_start_idx := Some pos;
     s_score := score |}.

Definition sample_key : list Z * Z := (utf8 "edital-01", 1).

(** The runtime reads the ASCII digits as their values. *)
Definition ascii_digits `{Runtime} : Prop :=
  forall c, 48 <= c <= 57 -> decimal c = Some (c - 48).

(** A page of the sample document. *)
Definition sample_page (s : string) : PageRow :=
  {| p_doc_id := utf8 "edital-01";
     p_source_name := utf8 "orquestra";
     p_page_num := Number 1;
     p_full_text := utf8 s |}.

(** What [DataFrame.sort_values] promises of the table sort: the rows it
    was given, by descending key. *)
Definition sorts_descending `{Runtime} : Prop :=
  forall (A : Type) (key : A -> Z) (l : list A),
    sort_values_desc A key l ≡ₚ l
    /\ StronglySorted (fun x y => key y <= key x) (sort_values_desc A key l).

(** The table sort is stable: rows of equal key keep their order.  The
    default [kind] of [sort_values] does not promise it. *)
Definition sorts_stably `{Runtime} : Prop :=
  forall (A : Type) (key : A -> Z) (l : list A) (k : Z),
    filter (fun x => key x = k) (sort_values_desc A key l)
    = filter (fun x => key x = k) l.

(** The rows of the two-keyword taxonomy on a page that names both. *)
Definition fagote_taxonomy : taxonomy :=
  [(utf8 "Fagote", map utf8 ["fagote"; "fagotista"]%string)].

(** A row of the page table whose [page_num] cell is [c]. *)
Definition sample_page_numbered (c : cell) (s : string) : PageRow :=
  {| p_doc_id := utf8 "edital-01";
     p_source_name := utf8 "orquestra";
     p_page_num := c;
     p_full_text := utf8 s |}.

(** A taxonomy with a pattern on which the engine raises [re.error] (an
    unclosed group). *)
Definition broken_taxonomy : taxonomy :=
  [(utf8 "Fagote", map utf8 ["fagote"; "fagot("; "fagotista"]%string)].

(** A taxonomy with a pattern on which the engine raises [OverflowError]
    (a repetition count of [2 ^ 32]). *)
Definition overflowing_taxonomy : taxonomy :=
  [(utf8 "Fagote",
    map utf8 ["fagote"; "fagote{4294967296}"; "fagotista"]%string)].

(** A page that names the role fourteen times: the evidence of the
    matches from the third to the twelfth is the whole page. *)
Definition fagotes_page : PageRow :=
  sample_page
    ("fagote fagote fagote fagote fagote fagote fagote "
     ++ "fagote fagote fagote fagote fagote fagote fagote")%string.

(** A page on which the second match has the longer evidence. *)
Definition audition_page : PageRow :=
  sample_page
    ("fagote e fagotista: que se apresentem ao maestro na sala de ensaios, "
     ++ "com o instrumento e as partituras da temporada")%string.

(** ** Further vocabulary *)

(** [dec_clean]: the fractional digits read for a match, "00" when the
    pattern captured none. *)
Definition dec_clean_of (dec_part_raw : option (list Z)) : list Z :=
  match dec_part_raw with
  | Some (c :: d) => c :: d
  | _ => [48; 48]
  end.

(** A keyword that starts and ends with a word character, as all the
    configured keywords do: the boundaries of its pattern then lie just
    before and just after it. *)
Definition wordy (kw : list Z) : Prop :=
  word_opt (head kw) = true /\ word_opt (last kw) = true.

#[global] Instance wordy_dec kw : Decision (wordy kw).
Proof. unfold wordy. apply _. Defined.

(** A text of ASCII characters, as [_normalize_text] returns and as the
    code hands to [_has_keyword_simple]. *)
Definition ascii_text (t : list Z) : Prop := Forall (fun c => 0 <= c < 128) t.

#[global] Instance ascii_text_dec t : Decision (ascii_text t).
Proof. unfold ascii_text. apply _. Defined.

(** The rows of the final table a call leaves, none when it raises. *)
Definition rows_of (r : outcome) : list Opportunity :=
  match r with
  | Done opportunities => opportunities
  | KeyError => []
  end.

(** The role candidates the matchmaker does not skip. *)
Definition kept (inst : RoleRow) : Prop :=
  is_Some (i_match_start_idx inst) /\ is_Some (i_page_num inst).

#[global] Instance kept_dec inst : Decision (kept inst).
Proof. unfold kept. apply _. Defined.

(** The fields a row of the final table takes from its role. *)
Definition role_part (o : Opportunity) : list Z * list Z * option Z * list Z * list Z :=
  (o_doc_id o, o_source_name o, Some (o_page_num o), instrumento o,
   contexto_instrumento o).

Definition role_fields (inst : RoleRow) : list Z * list Z * option Z * list Z * list Z :=
  (i_doc_id inst, i_source_name inst, i_page_num inst, i_canonical_value inst,
   i_evidence_text inst).

(** The text a match of the numeric pattern covers, from its groups: the
    currency marker, the integer run, and the comma with the fractional
    digits. *)
Definition groups_text (g1 : option (list Z)) (g2 : list Z)
    (g3 : option (list Z)) : list Z :=
  default [] g1 ++ g2 ++ match g3 with Some d => 44 :: d | None => [] end.

(** The shapes of the groups: the marker is "R$" and white space, the
    integer run has at least three characters, all digits or grouping
    dots, and the fractional part is two digits. *)
Definition groups_shaped `{Runtime} (g1 : option (list Z)) (g2 : list Z)
    (g3 : option (list Z)) : Prop :=
  match g1 with
  | Some g => exists ws, g = 82 :: 36 :: ws /\ Forall (fun c => space c = true) ws
  | None => True
  end
  /\ (3 <= length g2)%nat
  /\ Forall (fun c => is_digit c = true \/ c = 46) g2
  /\ match g3 with
     | Some d => length d = 2%nat /\ Forall (fun c => is_digit c = true) d
     | None => True
     end.

(** A match is not next to a digit of the text [t]: neither the character
    before its start nor the one at its end is a digit. *)
Definition no_digit_around `{Runtime} (t : list Z) (m : NumMatch) : Prop :=
  (forall c, 0 < m_start m ->
             t !! Z.to_nat (m_start m - 1) = Some c -> is_digit c = false)
  /\ (forall c, t !! Z.to_nat (m_end m) = Some c -> is_digit c = false).

(** What [finditer] says of a match, in terms of the whole text [t]. *)
Definition match_ok `{Runtime} (t : list Z) (m : NumMatch) : Prop :=
  0 <= m_start m /\ m_start m + 3 <= m_end m /\ m_end m <= len t
  /\ slice t (m_start m) (m_end m)
     = groups_text (m_group1 m) (m_group2 m) (m_group3 m)
  /\ groups_shaped (m_group1 m) (m_group2 m) (m_group3 m)
  /\ no_digit_around t m.


(** ** load_data

    The two files are given as read by [pd.read_parquet], [None] when the
    path does not exist.  Of the columns only those [load_data] or the
    extractors read are kept: the other columns the merge carries along
    ([file_path], [sha256], whatever else Silver holds) are never read. *)

Module Load.

Inductive error := FileNotFoundError | ValueError | KeyError.

(** A row of the Silver file.  [sv_source_name] is the cell of a column
    [source_name] of the Silver file itself, read only when the file has
    such a column; [None] is NaN. *)
Record SilverRow := {
  sv_doc_id : list Z;
  sv_page_num : cell;
  sv_full_text : list Z;
  sv_source_name : option (list Z)
}.

Record SilverFile := {
  sv_columns : list (list Z);
  sv_rows : list SilverRow
}.

(** A row of the manifest.  [mf_downloaded_at] is the cell after
    [pd.to_datetime(_, errors='coerce')], [None] for NaT, read only when
    the file has the column; [mf_source_name] likewise, [None] for NaN. *)
Record ManifestRow := {
  mf_doc_id : list Z;
  mf_downloaded_at : option Z;
  mf_source_name : option (list Z)
}.

Record ManifestFile := {
  mf_columns : list (list Z);
  mf_rows : list ManifestRow
}.

(** [c in df.columns] *)
Definition has_column (c : string) (columns : list (list Z)) : bool :=
  bool_decide (utf8 c ∈ columns).

Definition required_silver_cols : list (list Z) :=
  map utf8 ["doc_id"; "full_text"; "page_num"]%string.

(** [drop_duplicates(subset=key, keep='last')] *)
Definition drop_duplicates_last {A K} `{EqDecision K} (key : A -> K)
    (l : list A) : list A :=
  rev (drop_duplicates key (rev l)).

Section WithSort.

(** [sort_values(['doc_id', 'downloaded_at'], ascending=[True, False])] *)
Variable sort_manifest : list ManifestRow -> list ManifestRow.

(** The manifest with one row a document: untouched when no [doc_id] is
    repeated; else the first row of each document after the sort, or the
    last one in file order when there is no column [downloaded_at]. *)
Definition deduplicate_manifest (mf : ManifestFile) : list ManifestRow :=
  let rows := mf_rows mf in
  if bool_decide (NoDup (map mf_doc_id rows)) then rows
  else if has_column "downloaded_at" (mf_columns mf)
       then drop_duplicates mf_doc_id (sort_manifest rows)
       else drop_duplicates_last mf_doc_id rows.

(** [silver.merge(manifest[cols_available], on='doc_id', how='left')]: the
    Silver rows in their order, each with the manifest rows of its
    [doc_id], or alone when there is none. *)
Definition merge_left (silver : list SilverRow) (manifest : list ManifestRow)
  : list (SilverRow * option ManifestRow) :=
  flat_map (fun s =>
              match filter (fun m => mf_doc_id m = sv_doc_id s) manifest with
              | [] => [(s, None)]
              | ms => map (fun m => (s, Some m)) ms
              end)
           silver.

(** A row of [self.silver_data] as the extractors read it.  When both
    files have a column [source_name] the merge renames them apart and
    [row.get('source_name', 'unknown')] finds none. *)
Definition page_of (silver_has_source manifest_has_source : bool)
    (p : SilverRow * option ManifestRow) : PageRow :=
  let s := fst p in
  {| p_doc_id := sv_doc_id s;
     p_source_name :=
       if manifest_has_source then
         if silver_has_source then utf8 "unknown"
         else default (utf8 "unknown_source")
                      (match snd p with Some m => mf_source_name m | None => None end)
       else
         if silver_has_source
         then default (utf8 "unknown_source") (sv_source_name s)
         else utf8 "unknown";
     p_page_num := sv_page_num s;
     p_full_text := sv_full_text s |}.

Definition load_data (silver : option SilverFile) (manifest : option ManifestFile)
  : error + list PageRow :=
  match silver with
  | None => inl FileNotFoundError
  | Some sf =>
    if negb (forallb (fun c => bool_decide (c ∈ sv_columns sf)) required_silver_cols)
    then inl ValueError
    else
      match manifest with
      | None => inl FileNotFoundError
      | Some mf =>
        if negb (has_column "doc_id" (mf_columns mf)) then inl KeyError
        else
          let manifest_data := deduplicate_manifest mf in
          inr (map (page_of (has_column "source_name" (sv_columns sf))
                            (has_column "source_name" (mf_columns mf)))
                   (merge_left (sv_rows sf) manifest_data))
      end
  end.

End WithSort.

(** [a] does not come after [b] in a descending sort that puts NaT last. *)
Definition date_after (a b : option Z) : Prop :=
  match a, b with
  | Some x, Some y => y <= x
  | Some _, None => True
  | None, Some _ => False
  | None, None => True
  end.

(** What [sort_values] promises of the manifest sort: the rows it was
    given, those of one document by descending date, NaT last. *)
Definition sorts_manifest (sort : list ManifestRow -> list ManifestRow) : Prop :=
  forall l,
    sort l ≡ₚ l
    /\ StronglySorted
         (fun x y => mf_doc_id x = mf_doc_id y
                     -> date_after (mf_downloaded_at x) (mf_downloaded_at y))
         (sort l).

(** The Silver fields a page row must keep. *)
Definition silver_part (s : SilverRow) : list Z * cell * list Z :=
  (sv_doc_id s, sv_page_num s, sv_full_text s).

Definition page_part (p : PageRow) : list Z * cell * list Z :=
  (p_doc_id p, p_page_num p, p_full_text p).

End Load.

(** A manifest sort for the examples: by [doc_id] in the order of strings,
    then by descending date with NaT last, rows that agree on both in
    their order. *)
Module LoadExample.
Import Load.

Fixpoint text_compare (a b : list Z) : comparison :=
  match a, b with
  | [], [] => Eq
  | [], _ :: _ => Lt
  | _ :: _, [] => Gt
  | x :: a', y :: b' =>
      match x ?= y with
      | Eq => text_compare a' b'
      | c => c
      end
  end.

Definition date_afterb (a b : option Z) : bool :=
  match a, b with
  | Some x, Some y => y <=? x
  | Some _, None => true
  | None, Some _ => false
  | None, None => true
  end.

Definition row_le (x y : ManifestRow) : bool :=
  match text_compare (mf_doc_id x) (mf_doc_id y) with
  | Lt => true
  | Gt => false
  | Eq => date_afterb (mf_downloaded_at x) (mf_downloaded_at y)
  end.

Fixpoint insert_row (x : ManifestRow) (l : list ManifestRow) : list ManifestRow :=
  match l with
  | [] => [x]
  | y :: l' => if row_le x y then x :: l else y :: insert_row x l'
  end.

Definition sort_manifest (l : list ManifestRow) : list ManifestRow :=
  foldr insert_row [] l.

(** A Silver file of two documents and a manifest that lists the first
    document twice and the second not at all. *)
Definition silver : SilverFile :=
  {| sv_columns := map utf8 ["doc_id"; "page_num"; "full_text"; "char_count"]%string;
     sv_rows :=
       [ {| sv_doc_id := utf8 "a1"; sv_page_num := Number 1;
            sv_full_text := utf8 "fagote"; sv_source_name := None |};
         {| sv_doc_id := utf8 "a1"; sv_page_num := Number 2;
            sv_full_text := utf8 "R$ 5.000,00"; sv_source_name := None |};
         {| sv_doc_id := utf8 "b2"; sv_page_num := Number 1;
            sv_full_text := utf8 "flauta"; sv_source_name := None |} ] |}.

Definition manifest : ManifestFile :=
  {| mf_columns := map utf8 ["doc_id"; "source_name"; "downloaded_at"]%string;
     mf_rows :=
       [ {| mf_doc_id := utf8 "a1"; mf_downloaded_at := Some 10;
            mf_source_name := Some (utf8 "OSB") |};
         {| mf_doc_id := utf8 "a1"; mf_downloaded_at := Some 20;
            mf_source_name := Some (utf8 "OSB 2026") |} ] |}.

End LoadExample.

(** The source a page row gets from the manifest [mf]: the placeholder
    when the manifest has no row of its document; else the source of one
    of those rows, the latest downloaded (NaT counting as oldest) when the
    manifest has the column [downloaded_at], the last in file order when
    it has not. *)
Definition source_resolved (mf : Load.ManifestFile) (s : Load.SilverRow)
    (p : PageRow) : Prop :=
  match filter (fun m => Load.mf_doc_id m = Load.sv_doc_id s) (Load.mf_rows mf) with
  | [] => p_source_name p = utf8 "unknown_source"
  | ms =>
      exists m,
        m ∈ ms
        /\ p_source_name p = default (utf8 "unknown_source") (Load.mf_source_name m)
        /\ (utf8 "downloaded_at" ∈ Load.mf_columns mf ->
            forall m', m' ∈ ms ->
                       Load.date_after (Load.mf_downloaded_at m)
                                       (Load.mf_downloaded_at m'))
        /\ (utf8 "downloaded_at" ∉ Load.mf_columns mf -> last ms = Some m)
  end.

(** A salary row of another page of the sample document. *)
Definition other_page_salary : SalaryRow :=
  {| s_doc_id := utf8 "edital-01";
     s_source_name := utf8 "orquestra";
     s_page_num := Some 2;
     s_entity_type := utf8 "SALARIO";
     s_canonical_value := 990000;
     s_raw_value := utf8 "R$ 9.900,00";
     s_evidence_text := utf8 "R$ 9.900,00";
     s_match_start_idx := Some 100;
     s_score := 5 |}.

(** A salary row of the sample page with the amount [val]. *)
Definition sample_salary_of (val pos score : Z) : SalaryRow :=
  {| s_doc_id := utf8 "edital-01";
     s_source_name := utf8 "orquestra";
     s_page_num := Some 1;
     s_entity_type := utf8 "SALARIO";
     s_canonical_value := val;
     s_raw_value := utf8 "R$";
     s_evidence_text := utf8 "R$";
     s_match_start_idx := Some pos;
     s_score := score |}.

(** ** Reading a formatted amount back *)

(** A runtime whose digits and white space are the usual ones on the
    ASCII characters an amount is written with. *)
Definition ascii_classes `{Runtime} : Prop :=
  (forall c, 48 <= c <= 57 -> decimal c = Some (c - 48))
  /\ decimal 44 = None /\ decimal 46 = None
  /\ space 32 = true /\ (forall c, 48 <= c <= 57 -> space c = false).

Definition ascii_digit (c : Z) : bool := (48 <=? c) && (c <=? 57).

(** The three replacements of [formatar_real], which swap the comma and
    the full stop. *)
Definition swap_marks (t : list Z) : list Z :=
  replace_char 88 [46] (replace_char 46 [44] (replace_char 44 [88] t)).

(** The integer part of a formatted amount. *)
Definition integer_text (n : Z) : list Z :=
  swap_marks (rev (group_thousands (rev (decimal_digits n)))).

(** The integer parts of the amounts between 700 and 45000: "ddd",
    "d.ddd" or "dd.ddd", whose digits read [n]. *)
Definition integer_shape (n : Z) (g : list Z) : bool :=
  match g with
  | [a; b; c] =>
      forallb ascii_digit [a; b; c]
      && (n =? 100 * (a - 48) + 10 * (b - 48) + (c - 48))
  | [a; p; b; c; d] =>
      (p =? 46) && forallb ascii_digit [a; b; c; d]
      && (n =? 1000 * (a - 48) + 100 * (b - 48) + 10 * (c - 48) + (d - 48))
  | [a; b; p; c; d; e] =>
      (p =? 46) && forallb ascii_digit [a; b; c; d; e]
      && (n =? 10000 * (a - 48) + 1000 * (b - 48) + 100 * (c - 48)
               + 10 * (d - 48) + (e - 48))
  | _ => false
  end.

(** [lo, lo + 1, ...], [count] numbers. *)
Fixpoint count_from (lo : Z) (count : nat) : list Z :=
  match count with
  | O => []
  | S k => lo :: count_from (lo + 1) k
  end.

(** * Properties *)

(** ** Lists, the stable sort and the map of salaries *)

Lemma head_filter_split {A} (P : A -> Prop) `{!forall x, Decision (P x)}
    (l : list A) (x : A) :
  head (filter P l) = Some x ->
  exists l1 l2, l = l1 ++ x :: l2 /\ Forall (fun y => ~ P y) l1 /\ P x.
Proof.
  induction l as [|a l IH]; [discriminate|].
  rewrite filter_cons. destruct (decide (P a)) as [Ha|Ha]; simpl.
  - intros [= ->]. exists [], l. auto.
  - intros Hx. destruct (IH Hx) as (l1 & l2 & -> & Hl1 & HP).
    exists (a :: l1), l2. auto.
Qed.

Lemma omap_split {A B} (f : A -> option B) (l : list A) (k1 k2 : list B) (y : B) :
  omap f l = k1 ++ y :: k2 ->
  exists l1 x l2, l = l1 ++ x :: l2 /\ f x = Some y
                  /\ omap f l1 = k1 /\ omap f l2 = k2.
Proof.
  revert k1. induction l as [|a l IH]; intros k1.
  - destruct k1; discriminate.
  - change (omap f (a :: l)) with
      (match f a with Some b => b :: omap f l | None => omap f l end).
    destruct (f a) as [b|] eqn:Hfa.
    + destruct k1 as [|b' k1]; simpl.
      * intros [= -> <-]. exists [], a, l. auto.
      * intros [= -> Hk]. destruct (IH _ Hk) as (l1 & x & l2 & -> & Hx & <- & <-).
        exists (a :: l1), x, l2. repeat split; try done.
        change (omap f (a :: l1)) with
          (match f a with Some b => b :: omap f l1 | None => omap f l1 end).
        by rewrite Hfa.
    + intros Hk. destruct (IH _ Hk) as (l1 & x & l2 & -> & Hx & <- & <-).
      exists (a :: l1), x, l2. repeat split; try done.
      change (omap f (a :: l1)) with
        (match f a with Some b => b :: omap f l1 | None => omap f l1 end).
      by rewrite Hfa.
Qed.


Lemma tuple_le_true (a b : Z * Z) :
  tuple_le a b = true <-> fst a < fst b \/ (fst a = fst b /\ snd a <= snd b).
Proof. unfold tuple_le. lia. Qed.

Lemma tuple_le_false (a b : Z * Z) : tuple_le a b = false <-> tuple_lt b a.
Proof. unfold tuple_le, tuple_lt. lia. Qed.

Lemma tuple_le_trans (a b c : Z * Z) :
  tuple_le a b = true -> tuple_le b c = true -> tuple_le a c = true.
Proof. rewrite !tuple_le_true. lia. Qed.

Lemma tuple_le_lt_trans (a b c : Z * Z) :
  tuple_le a b = true -> tuple_lt b c -> tuple_lt a c.
Proof. rewrite tuple_le_true. unfold tuple_lt. lia. Qed.

Lemma tuple_lt_le (a b : Z * Z) : tuple_lt a b -> tuple_le a b = true.
Proof. rewrite tuple_le_true. unfold tuple_lt. lia. Qed.

Lemma head_sort_insert {A} (key : A -> Z * Z) (x : A) (l : list A) :
  head (sort_insert key x l) =
  match head l with
  | Some y => if tuple_le (key x) (key y) then Some x else Some y
  | None => Some x
  end.
Proof. destruct l as [|y l]; simpl; [done|]. by destruct (tuple_le _ _). Qed.

Lemma head_list_sort_nil {A} (key : A -> Z * Z) (l : list A) :
  head (list_sort key l) = None -> l = [].
Proof.
  destruct l as [|a l]; [done|]. simpl. rewrite head_sort_insert.
  destruct (head _); [destruct (tuple_le _ _)|]; discriminate.
Qed.

(** The head of the sorted list is the first element of least key: what
    precedes it has a greater key, what follows it has no lesser key. *)
Lemma head_list_sort {A} (key : A -> Z * Z) (l : list A) (x : A) :
  head (list_sort key l) = Some x ->
  exists l1 l2, l = l1 ++ x :: l2
    /\ Forall (fun y => tuple_lt (key x) (key y)) l1
    /\ Forall (fun y => tuple_le (key x) (key y) = true) l2.
Proof.
  revert x. induction l as [|a l IH]; intros x; [discriminate|].
  simpl. rewrite head_sort_insert.
  destruct (head (list_sort key l)) as [y|] eqn:Hy.
  - destruct (IH y eq_refl) as (l1 & l2 & -> & H1 & H2).
    destruct (tuple_le (key a) (key y)) eqn:Hle; intros [= <-].
    + exists [], (l1 ++ y :: l2). split; [done|]. split; [constructor|].
      apply Forall_app. split; [|constructor].
      * eapply Forall_impl; [exact H1|]. intros z Hz. simpl in Hz.
        apply tuple_lt_le. eapply tuple_le_lt_trans; eauto.
      * done.
      * eapply Forall_impl; [exact H2|]. intros z Hz. simpl in Hz.
        eapply tuple_le_trans; eauto.
    + exists (a :: l1), l2. split; [done|]. split; [|done].
      constructor; [|done]. by apply tuple_le_false.
  - apply head_list_sort_nil in Hy as ->. intros [= <-].
    exists [], []. auto.
Qed.

Lemma head_list_sort_is_Some {A} (key : A -> Z * Z) (l : list A) :
  l <> [] -> is_Some (head (list_sort key l)).
Proof.
  intros Hl. destruct (head (list_sort key l)) eqn:H; [eauto|].
  by apply head_list_sort_nil in H.
Qed.


(** [salaries_map[key]] holds the rows of that key, in the order of the
    table. *)
Lemma salaries_map_fold (salaries : list SalaryRow)
    (m : gmap (list Z * Z) (list SalaryRow)) (key : list Z * Z) :
  default [] (fold_left salaries_map_add salaries m !! key)
  = default [] (m !! key) ++ filter (on_page key) salaries.
Proof.
  revert m. induction salaries as [|row l IH]; intros m; simpl.
  - by rewrite app_nil_r.
  - rewrite IH, filter_cons. unfold salaries_map_add.
    destruct (s_page_num row) as [p|] eqn:Hp.
    + destruct (decide (on_page key row)) as [[Hd Hq]|Hn].
      * assert (key = (s_doc_id row, p)) as -> by (destruct key; simpl in *; congruence).
        rewrite lookup_insert_eq. simpl. by rewrite <- app_assoc.
      * rewrite lookup_insert_ne; [done|].
        intros <-. apply Hn. by split.
    + destruct (decide (on_page key row)) as [[Hd Hq]|Hn]; [congruence|done].
Qed.

Lemma salaries_map_lookup (salaries : list SalaryRow) (key : list Z * Z) :
  default [] (build_salaries_map salaries !! key) = filter (on_page key) salaries.
Proof. unfold build_salaries_map. by rewrite salaries_map_fold, lookup_empty. Qed.

(** ** The matchmaker *)


Lemma elem_of_valid_candidates (inst_pos : Z) (l : list SalaryRow)
    (sal : SalaryRow) (dist : Z) :
  (sal, dist) ∈ valid_candidates inst_pos l <->
  sal ∈ l /\ exists idx, s_match_start_idx sal = Some idx
               /\ dist = Z.abs (inst_pos - idx) /\ dist < proximity_window.
Proof.
  unfold valid_candidates. rewrite list_elem_of_omap. split.
  - intros (x & Hx & Hf). destruct (s_match_start_idx x) as [idx|] eqn:Hi; [|done].
    destruct (Z.ltb_spec (Z.abs (inst_pos - idx)) proximity_window); [|done].
    injection Hf as <- <-. eauto.
  - intros (Hx & idx & Hi & -> & Hd). exists sal. split; [done|].
    rewrite Hi. destruct (Z.ltb_spec (Z.abs (inst_pos - idx)) proximity_window); [done|lia].
Qed.

Lemma valid_candidates_of_map (salaries : list SalaryRow) (inst_pos : Z)
    (key : list Z * Z) (sal : SalaryRow) (dist : Z) :
  (sal, dist) ∈ valid_candidates inst_pos
                  (default [] (build_salaries_map salaries !! key))
  <-> sal ∈ salaries /\ qualifies inst_pos key sal dist.
Proof.
  rewrite salaries_map_lookup, elem_of_valid_candidates, list_elem_of_filter.
  unfold qualifies. tauto.
Qed.

Section MatchmakerFacts.
Context {rt : Runtime}.

(** What a row of the final table says of the role it was built from. *)
Lemma opportunity_of_inv (m : gmap (list Z * Z) (list SalaryRow))
    (inst : RoleRow) (o : Opportunity) :
  opportunity_of m inst = Some o ->
  exists inst_pos page_num,
    i_match_start_idx inst = Some inst_pos
    /\ i_page_num inst = Some page_num
    /\ o_doc_id o = i_doc_id inst /\ o_page_num o = page_num
    /\ match best_of (valid_candidates inst_pos
                        (default [] (m !! (i_doc_id inst, page_num)))) with
       | Some (sal, dist) =>
           match_type o = PAGE_PROXIMITY
           /\ salario_valor o = Some (s_canonical_value sal)
           /\ salario_score o = s_score sal
           /\ distancia_chars o = dist
           /\ contexto_salario o = Some (s_evidence_text sal)
       | None =>
           match_type o = NO_MATCH
           /\ salario_valor o = None /\ salario_score o = 0
           /\ distancia_chars o = -1 /\ contexto_salario o = None
           /\ salario_formatado o = nao_informado
       end.
Proof.
  unfold opportunity_of.
  destruct (i_match_start_idx inst) as [inst_pos|]; [|done].
  destruct (i_page_num inst) as [page_num|]; [|done].
  intros [= <-]. exists inst_pos, page_num.
  destruct (best_of _) as [[sal dist]|]; simpl; auto 10.
Qed.

Lemma match_opportunities_inv (candidates : list RoleRow)
    (salaries : list SalaryRow) (opps : list Opportunity) (o : Opportunity) :
  match_opportunities candidates salaries = Done opps -> o ∈ opps ->
  exists inst, inst ∈ candidates
               /\ opportunity_of (build_salaries_map salaries) inst = Some o.
Proof.
  unfold match_opportunities. destruct candidates as [|c cs].
  - intros [= <-] Ho. by apply elem_of_nil in Ho.
  - destruct (omap _ (c :: cs)) as [|r rs] eqn:Hrows; [done|].
    intros [= <-] Ho. rewrite <- Hrows in Ho.
    apply list_elem_of_omap in Ho as (inst & Hin & Hopp). eauto.
Qed.

(** A role the loop does not skip puts its row in the table. *)
Lemma match_opportunities_emits (candidates : list RoleRow)
    (salaries : list SalaryRow) (inst : RoleRow) (o : Opportunity) :
  inst ∈ candidates ->
  opportunity_of (build_salaries_map salaries) inst = Some o ->
  exists opps, match_opportunities candidates salaries = Done opps /\ o ∈ opps.
Proof.
  intros Hin Hopp. unfold match_opportunities.
  assert (o ∈ omap (opportunity_of (build_salaries_map salaries)) candidates) as Ho
    by (apply list_elem_of_omap; eauto).
  destruct candidates as [|c cs]; [by apply elem_of_nil in Hin|].
  destruct (omap _ (c :: cs)) as [|r rs] eqn:Hrows; [by apply elem_of_nil in Ho|].
  eauto.
Qed.

Lemma best_of_elem (valid : list (SalaryRow * Z)) (x : SalaryRow * Z) :
  best_of valid = Some x -> x ∈ valid.
Proof.
  intros Hx. apply head_list_sort in Hx as (l1 & l2 & -> & _).
  apply elem_of_app. right. apply elem_of_cons. by left.
Qed.

End MatchmakerFacts.

Section MatchmakerProperties.
Context {rt : Runtime}.

(** C1.  Every row of the final table with [match_type = PAGE_PROXIMITY]
    carries a salary value, taken from a salary row of the same
    [(doc_id, page_num)] as the role it was built from, and its
    [distancia_chars] is the distance between the two match offsets, at
    most the proximity window of 3000 characters; every row with
    [match_type = NO_MATCH] has no salary value. *)
Theorem matchmaker_invariant (candidates : list RoleRow)
    (salaries : list SalaryRow) (opps : list Opportunity) (o : Opportunity) :
  match_opportunities candidates salaries = Done opps ->
  o ∈ opps ->
  (match_type o = PAGE_PROXIMITY ->
     exists inst sal inst_pos idx,
       inst ∈ candidates /\ sal ∈ salaries
       /\ o_doc_id o = i_doc_id inst
       /\ i_page_num inst = Some (o_page_num o)
       /\ s_doc_id sal = i_doc_id inst
       /\ s_page_num sal = i_page_num inst
       /\ salario_valor o = Some (s_canonical_value sal)
       /\ i_match_start_idx inst = Some inst_pos
       /\ s_match_start_idx sal = Some idx
       /\ distancia_chars o = Z.abs (inst_pos - idx)
       /\ distancia_chars o <= 3000)
  /\ (match_type o = NO_MATCH -> salario_valor o = None).
Proof.
  intros Hrun Ho.
  destruct (match_opportunities_inv _ _ _ _ Hrun Ho) as (inst & Hinst & Hopp).
  apply opportunity_of_inv in Hopp
    as (inst_pos & page_num & Hpos & Hpage & Hdoc & Hpn & Hbest).
  destruct (best_of _) as [[sal dist]|] eqn:Hsel.
  - destruct Hbest as (Hty & Hval & _ & Hdist & _). split; [|congruence].
    intros _. apply best_of_elem, valid_candidates_of_map in Hsel
      as (Hsal & [Hd Hp] & idx & Hidx & -> & Hwin).
    simpl in Hd, Hp. unfold proximity_window in Hwin.
    exists inst, sal, inst_pos, idx.
    repeat split; try done; try congruence; lia.
  - destruct Hbest as (Hty & Hval & _). split; [congruence|done].
Qed.

(** C9.  A row of the final table with [match_type = NO_MATCH] carries
    sentinel values: the salary value and the salary evidence are null,
    the salary score is 0, [distancia_chars] is -1 and the formatted
    amount is the placeholder "Não Informado"; and a role that no salary
    row of its page qualifies for gets such a row. *)
Theorem no_match_sentinels :
  (forall candidates salaries opps o,
      match_opportunities candidates salaries = Done opps ->
      o ∈ opps ->
      match_type o = NO_MATCH ->
      salario_valor o = None /\ contexto_salario o = None
      /\ salario_score o = 0 /\ distancia_chars o = -1
      /\ salario_formatado o = utf8 "Não Informado")
  /\ (forall candidates salaries inst inst_pos page_num,
         inst ∈ candidates ->
         i_match_start_idx inst = Some inst_pos ->
         i_page_num inst = Some page_num ->
         (forall sal dist, sal ∈ salaries ->
                           ~ qualifies inst_pos (i_doc_id inst, page_num) sal dist) ->
         exists opps o,
           match_opportunities candidates salaries = Done opps
           /\ o ∈ opps
           /\ o_doc_id o = i_doc_id inst /\ o_page_num o = page_num
           /\ instrumento o = i_canonical_value inst
           /\ match_type o = NO_MATCH
           /\ salario_valor o = None /\ contexto_salario o = None
           /\ salario_score o = 0 /\ distancia_chars o = -1
           /\ salario_formatado o = utf8 "Não Informado").
Proof.
  split.
  - intros candidates salaries opps o Hrun Ho Hty.
    destruct (match_opportunities_inv _ _ _ _ Hrun Ho) as (inst & Hinst & Hopp).
    apply opportunity_of_inv in Hopp as (inst_pos & page_num & _ & _ & _ & _ & Hbest).
    destruct (best_of _) as [[sal dist]|].
    + destruct Hbest as (Hpp & _). congruence.
    + destruct Hbest as (_ & ? & ? & ? & ? & ?). auto.
  - intros candidates salaries inst inst_pos page_num Hin Hpos Hpage Hnone.
    assert (valid_candidates inst_pos
              (default [] (build_salaries_map salaries !! (i_doc_id inst, page_num)))
            = []) as Hvalid.
    { destruct (valid_candidates _ _) as [|[sal dist] l] eqn:Hv; [done|].
      exfalso. apply (Hnone sal dist).
      - eapply valid_candidates_of_map. rewrite Hv. apply elem_of_cons. by left.
      - eapply valid_candidates_of_map. rewrite Hv. apply elem_of_cons. by left. }
    destruct (opportunity_of (build_salaries_map salaries) inst) as [o|] eqn:Hopp.
    + destruct (match_opportunities_emits _ _ _ _ Hin Hopp) as (opps & Hrun & Ho).
      exists opps, o. split; [done|]. split; [done|].
      unfold opportunity_of in Hopp. rewrite Hpos, Hpage, Hvalid in Hopp.
      injection Hopp as <-. simpl. auto 10.
    + unfold opportunity_of in Hopp. by rewrite Hpos, Hpage in Hopp.
Qed.

End MatchmakerProperties.

(** C2 (amended).  For a role at [inst_pos] on the page [key], the salary
    rows paired with it in [valid_candidates] are exactly the rows of the
    salary table on the same [(doc_id, page_num)] whose match offset is
    less than 3000 characters away; a row of the page at distance 2999
    qualifies and a row at distance exactly 3000 does not. *)
Theorem proximity_window_strict :
  (forall salaries inst_pos key sal dist,
      (sal, dist) ∈ valid_candidates inst_pos
                      (default [] (build_salaries_map salaries !! key))
      <-> sal ∈ salaries
          /\ s_doc_id sal = fst key /\ s_page_num sal = Some (snd key)
          /\ exists idx, s_match_start_idx sal = Some idx
               /\ dist = Z.abs (inst_pos - idx) /\ dist < 3000)
  /\ valid_candidates 0
       (default [] (build_salaries_map [sample_salary 2999 5] !! sample_key))
     = [(sample_salary 2999 5, 2999)]
  /\ valid_candidates 0
       (default [] (build_salaries_map [sample_salary 3000 5] !! sample_key))
     = [].
Proof.
  split; [|split; vm_compute; reflexivity].
  intros. rewrite valid_candidates_of_map. unfold qualifies, on_page, proximity_window.
  tauto.
Qed.

(** C2, as stated, fails: a salary row on the page of the role, exactly
    3000 characters from it, is within the window as stated
    ([3000 <= 3000]), yet it is not among the valid candidates and the
    role is left with [NO_MATCH]. *)
Lemma window_boundary_not_linked :
  s_doc_id (sample_salary 3000 5) = i_doc_id (sample_role 0)
  /\ s_page_num (sample_salary 3000 5) = i_page_num (sample_role 0)
  /\ Z.abs (0 - 3000) <= 3000
  /\ valid_candidates 0
       (default [] (build_salaries_map [sample_salary 3000 5] !! sample_key))
     = []
  /\ match match_opportunities (rt := Example.runtime)
             [sample_role 0] [sample_salary 3000 5] with
     | Done opps => map match_type opps = [NO_MATCH]
     | KeyError => False
     end.
Proof. vm_compute. repeat split; try reflexivity. discriminate. Qed.

Section Selection.
Context {rt : Runtime}.

(** C3.  A role with a qualifying salary row of its page is linked to
    the qualifying row of highest score; among those of that score, to
    the nearest; among those also at that distance, to the one that comes
    first in the salary table.  (Every qualifying row before the selected
    one is strictly worse, every one after it is no better.)  With the
    role at offset 100 and salary rows at offsets 200 (score 5) and 2900
    (score 8), the row at offset 2900 is selected. *)
Theorem best_salary_selected :
  (forall candidates salaries inst inst_pos page_num,
      inst ∈ candidates ->
      i_match_start_idx inst = Some inst_pos ->
      i_page_num inst = Some page_num ->
      (exists sal dist, sal ∈ salaries
                        /\ qualifies inst_pos (i_doc_id inst, page_num) sal dist) ->
      exists opps o best dist before after,
        match_opportunities candidates salaries = Done opps
        /\ o ∈ opps
        /\ o_doc_id o = i_doc_id inst /\ o_page_num o = page_num
        /\ instrumento o = i_canonical_value inst
        /\ match_type o = PAGE_PROXIMITY
        /\ salario_valor o = Some (s_canonical_value best)
        /\ salario_score o = s_score best
        /\ distancia_chars o = dist
        /\ contexto_salario o = Some (s_evidence_text best)
        /\ salaries = before ++ best :: after
        /\ qualifies inst_pos (i_doc_id inst, page_num) best dist
        /\ (forall x dx, x ∈ before ->
              qualifies inst_pos (i_doc_id inst, page_num) x dx ->
              s_score x < s_score best
              \/ (s_score x = s_score best /\ dist < dx))
        /\ (forall x dx, x ∈ after ->
              qualifies inst_pos (i_doc_id inst, page_num) x dx ->
              s_score x < s_score best
              \/ (s_score x = s_score best /\ dist <= dx)))
  /\ (exists o,
         match_opportunities [sample_role 100]
           [sample_salary 200 5; sample_salary 2900 8] = Done [o]
         /\ match_type o = PAGE_PROXIMITY
         /\ salario_score o = 8
         /\ distancia_chars o = 2800
         /\ salario_valor o = Some (s_canonical_value (sample_salary 2900 8))).
Proof.
  split.
  - intros candidates salaries inst inst_pos page_num Hin Hpos Hpage
      (sal0 & dist0 & Hsal0 & Hq0).
    set (key := (i_doc_id inst, page_num)) in *.
    set (pair_of := fun sal : SalaryRow =>
           if decide (on_page key sal) then
             match s_match_start_idx sal with
             | Some idx =>
                 let dist := Z.abs (inst_pos - idx) in
                 if dist <? proximity_window then Some (sal, dist) else None
             | None => None
             end
           else None).
    assert (forall l, valid_candidates inst_pos (filter (on_page key) l)
                      = omap pair_of l) as Hvalid.
    { induction l as [|a l IH]; [done|]. rewrite filter_cons.
      change (omap pair_of (a :: l)) with
        (match pair_of a with Some b => b :: omap pair_of l | None => omap pair_of l end).
      unfold pair_of at 1. destruct (decide (on_page key a)); [|done].
      unfold valid_candidates in *.
      change (omap ?f (a :: ?k)) with
        (match f a with Some b => b :: omap f k | None => omap f k end).
      rewrite IH. by destruct (s_match_start_idx a). }
    assert (forall x y, pair_of x = Some y
                        -> fst y = x /\ qualifies inst_pos key x (snd y)) as Hpair.
    { intros x y. unfold pair_of. destruct (decide (on_page key x)) as [Hon|]; [|done].
      destruct (s_match_start_idx x) as [idx|] eqn:Hidx; [|done]. simpl.
      destruct (Z.ltb_spec (Z.abs (inst_pos - idx)) proximity_window); [|done].
      intros [= <-]. simpl. split; [done|]. split; [done|]. eauto. }
    assert (forall x dx, qualifies inst_pos key x dx -> pair_of x = Some (x, dx)) as Hqual.
    { intros x dx (Hon & idx & Hidx & -> & Hwin). unfold pair_of.
      rewrite decide_True by done. rewrite Hidx. simpl.
      destruct (Z.ltb_spec (Z.abs (inst_pos - idx)) proximity_window); [done|lia]. }
    destruct (best_of (valid_candidates inst_pos
                (default [] (build_salaries_map salaries !! key))))
      as [[best dist]|] eqn:Hsel.
    + pose proof Hsel as Hsplit. unfold best_of in Hsplit.
      apply head_list_sort in Hsplit as (k1 & k2 & Hk & Hk1 & Hk2).
      rewrite salaries_map_lookup, Hvalid in Hk.
      apply omap_split in Hk as (before & b & after & Hs & Hb & <- & <-).
      destruct (Hpair _ _ Hb) as [Hfst Hqb]. simpl in Hfst, Hqb. subst b.
      assert (exists o, opportunity_of (build_salaries_map salaries) inst = Some o)
        as [o Hopp].
      { unfold opportunity_of. rewrite Hpos, Hpage. eauto. }
      destruct (match_opportunities_emits _ _ _ _ Hin Hopp) as (opps & Hrun & Ho).
      unfold opportunity_of in Hopp. rewrite Hpos, Hpage in Hopp.
      fold key in Hopp. rewrite Hsel in Hopp. injection Hopp as Heq.
      exists opps, o, best, dist, before, after.
      split; [done|]. split; [done|]. rewrite <- Heq. simpl.
      split_and!; try done.
      * intros x dx Hx Hqx.
        assert ((x, dx) ∈ omap pair_of before) as Hmem
          by (apply list_elem_of_omap; eauto).
        rewrite Forall_forall in Hk1. specialize (Hk1 _ Hmem).
        unfold tuple_lt, rank in Hk1. simpl in Hk1. lia.
      * intros x dx Hx Hqx.
        assert ((x, dx) ∈ omap pair_of after) as Hmem
          by (apply list_elem_of_omap; eauto).
        rewrite Forall_forall in Hk2. specialize (Hk2 _ Hmem).
        apply tuple_le_true in Hk2. unfold rank in Hk2. simpl in Hk2. lia.
    + exfalso. unfold best_of in Hsel. apply head_list_sort_nil in Hsel.
      assert ((sal0, dist0) ∈ valid_candidates inst_pos
                (default [] (build_salaries_map salaries !! key))) as Hmem
        by (by apply valid_candidates_of_map).
      rewrite Hsel in Hmem. by apply elem_of_nil in Hmem.
  - eexists. split; [vm_compute; reflexivity|]. vm_compute. auto.
Qed.

End Selection.

(** ** The salary extractor *)

Section SalaryProperties.
Context {rt : Runtime}.

Lemma salary_of_match_inv (row : PageRow) (page_num : Z) (m : NumMatch)
    (r : SalaryRow) :
  salary_of_match row page_num m = Some r ->
  judge (symbol_found m) (m_group2 m) (m_group3 m)
        (has_positive (p_full_text row) m) (has_negative (p_full_text row) m)
  = Some (s_canonical_value r, s_score r)
  /\ s_match_start_idx r = Some (m_start m)
  /\ s_page_num r = Some page_num /\ s_doc_id r = p_doc_id row.
Proof.
  unfold salary_of_match. destruct (m_group2 m) as [|c g]; [done|].
  destruct (judge _ _ _ _ _) as [[v s]|]; [|done].
  by intros [= <-].
Qed.

Lemma judge_score (sym : bool) (int_part_raw : list Z)
    (dec_part_raw : option (list Z)) (pos neg : bool) (v s : Z) :
  judge sym int_part_raw dec_part_raw pos neg = Some (v, s) ->
  s = score_of sym pos neg /\ 0 <= s /\ min_val <= v <= max_val
  /\ (sym = true \/ pos = true).
Proof.
  unfold judge.
  destruct (negb sym && (negb _ && negb pos)); [done|].
  destruct (parse_amount _ _) as [val|]; [|done].
  destruct (Z.leb_spec min_val val), (Z.leb_spec val max_val); simpl; try done.
  destruct (_ && _ && negb sym && negb pos); [done|].
  destruct (negb sym && negb pos) eqn:Hgate; [done|].
  destruct (Z.ltb_spec (score_of sym pos neg) 0); [done|].
  intros [= <- <-]. split_and!; try done.
  destruct sym, pos; simpl in Hgate; auto; discriminate.
Qed.


Lemma judge_no_marker (int_part_raw : list Z) (dec_part_raw : option (list Z))
    (neg : bool) :
  judge false int_part_raw dec_part_raw false neg = None.
Proof.
  destruct (judge _ _ _ _ _) as [[v s]|] eqn:Hj; [|done].
  apply judge_score in Hj as (_ & _ & _ & [?|?]); discriminate.
Qed.

Lemma salary_of_match_rejected (row : PageRow) (page_num : Z) (m : NumMatch) :
  judge (symbol_found m) (m_group2 m) (m_group3 m)
        (has_positive (p_full_text row) m) (has_negative (p_full_text row) m)
  = None ->
  salary_of_match row page_num m = None.
Proof.
  intros Hj. unfold salary_of_match. rewrite Hj. by destruct (m_group2 m).
Qed.



(** C6.  A numeric match whose amount lies in [1900, 2100], whose raw
    digits carry no grouping mark and no fractional suffix, without a
    currency marker and without a positive keyword in its context, is
    rejected; so is the bare token "2025" without marker and without
    positive keyword around it. *)
Theorem calendar_year_rejected (row : PageRow) (page_num : Z) (m : NumMatch) :
  let t := p_full_text row in
  (forall amount,
      parse_amount (replace_char 46 [] (m_group2 m)) [48; 48] = Some amount ->
      190000 <= amount <= 210000 ->
      contains [46] (m_group2 m) = false ->
      m_group3 m = None ->
      symbol_found m = false ->
      has_positive t m = false ->
      salary_of_match row page_num m = None)
  /\ (m_group2 m = utf8 "2025" ->
      m_group3 m = None ->
      symbol_found m = false ->
      has_positive t m = false ->
      salary_of_match row page_num m = None).
Proof.
  intros t. split.
  - intros amount _ _ _ _ Hsym Hpos.
    apply salary_of_match_rejected. fold t. rewrite Hsym, Hpos.
    apply judge_no_marker.
  - intros _ _ Hsym Hpos.
    apply salary_of_match_rejected. fold t. rewrite Hsym, Hpos.
    apply judge_no_marker.
Qed.

(** C7.  A numeric match without a currency marker is accepted only if
    its raw digits show a grouping mark or a fractional suffix, or a
    positive keyword occurs in its normalised context.  The bare token
    "3500" with a positive keyword around it (and no negative one) is
    accepted, with the amount 3500.00. *)
Theorem no_marker_needs_support (row : PageRow) (page_num : Z) (m : NumMatch) :
  let t := p_full_text row in
  (forall r,
      symbol_found m = false ->
      salary_of_match row page_num m = Some r ->
      contains [46] (m_group2 m) = true \/ is_Some (m_group3 m)
      \/ has_positive t m = true)
  /\ (ascii_digits ->
      m_group2 m = utf8 "3500" ->
      m_group3 m = None ->
      symbol_found m = false ->
      has_positive t m = true ->
      has_negative t m = false ->
      exists r, salary_of_match row page_num m = Some r
                /\ s_canonical_value r = 350000
                /\ s_score r = 3
                /\ s_match_start_idx r = Some (m_start m)).
Proof.
  intros t. split.
  - intros r Hsym Hr. apply salary_of_match_inv in Hr as (Hj & _).
    apply judge_score in Hj as (_ & _ & _ & [Hs|Hp]); [congruence|auto].
  - intros Hdigits Hint Hdec Hsym Hpos Hneg.
    unfold salary_of_match. fold t. rewrite Hint, Hdec, Hsym, Hpos, Hneg.
    assert (judge false (utf8 "3500") None true false = Some (350000, 3)) as ->.
    { change (utf8 "3500") with [51; 53; 48; 48].
      unfold judge, parse_amount, digits_value. simpl.
      rewrite !Hdigits by lia. reflexivity. }
    eexists. simpl. split_and!; reflexivity.
Qed.

End SalaryProperties.

(** ** The role extractor *)

Lemma extend_rows_app {A B} (body : A -> option (list B)) (l1 l2 : list A) :
  extend_rows body (l1 ++ l2)
  = match extend_rows body l1 with
    | Some rows => option_map (app rows) (extend_rows body l2)
    | None => None
    end.
Proof.
  induction l1 as [|x l1 IH]; simpl; [by destruct (extend_rows body l2)|].
  destruct (body x) as [rows|]; [|done]. rewrite IH.
  destruct (extend_rows body l1) as [rows1|]; [|done].
  destruct (extend_rows body l2) as [rows2|]; [|done].
  simpl. by rewrite app_assoc.
Qed.

Lemma extend_rows_agree {A B} (f g : A -> option (list B)) (l : list A) :
  Forall (fun x => f x = g x) l -> extend_rows f l = extend_rows g l.
Proof. induction 1 as [|x l Hx _ IH]; simpl; [done|]. by rewrite Hx, IH. Qed.

(** A pass that appends nothing leaves the rows of the other passes. *)
Lemma extend_rows_skip {A B} (body : A -> option (list B)) (l1 l2 : list A)
    (x : A) :
  body x = Some [] ->
  extend_rows body (l1 ++ x :: l2) = extend_rows body (l1 ++ l2).
Proof.
  intros Hx. rewrite !extend_rows_app. simpl. rewrite Hx.
  destruct (extend_rows body l1) as [rows1|]; [|done].
  by destruct (extend_rows body l2).
Qed.

Section RoleProperties.
Context {rt : Runtime}.

Lemma roles_of_pattern_refused (row : PageRow) (page_num : Z)
    (canonical pattern : list Z) :
  re_finditer (regex_pattern pattern) (p_full_text row) = ReError ->
  roles_of_pattern row page_num canonical pattern = Some [].
Proof. intros Hre. unfold roles_of_pattern. by rewrite Hre. Qed.

(** C8 (amended).  When the engine raises [re.error] on one pattern of
    the taxonomy, the rows of a page, of the whole table, and the
    candidates left after the deduplication are those the taxonomy
    without that pattern gives: the other patterns of the role, the other
    roles and the other pages are scanned as usual. *)
Theorem refused_pattern_skipped (tax1 tax2 : taxonomy) (canonical : list Z)
    (ps1 ps2 : list (list Z)) (p : list Z) :
  let tax := tax1 ++ (canonical, ps1 ++ p :: ps2) :: tax2 in
  let tax' := tax1 ++ (canonical, ps1 ++ ps2) :: tax2 in
  (forall row,
      re_finditer (regex_pattern p) (p_full_text row) = ReError ->
      roles_of_page tax row = roles_of_page tax' row)
  /\ (forall silver_data,
         Forall (fun row => re_finditer (regex_pattern p) (p_full_text row) = ReError)
                silver_data ->
         role_rows tax silver_data = role_rows tax' silver_data
         /\ extract_instruments tax silver_data
            = extract_instruments tax' silver_data).
Proof.
  intros tax tax'.
  assert (forall row,
             re_finditer (regex_pattern p) (p_full_text row) = ReError ->
             roles_of_page tax row = roles_of_page tax' row) as Hpage.
  { intros row Hre. unfold roles_of_page, tax, tax'.
    destruct (to_numeric (p_page_num row)) as [page_num|]; [|done].
    rewrite !(extend_rows_app _ tax1). simpl.
    by rewrite (extend_rows_skip _ _ _ _ (roles_of_pattern_refused _ _ _ _ Hre)). }
  split; [done|]. intros silver_data Hall.
  assert (role_rows tax silver_data = role_rows tax' silver_data) as Hrows.
  { unfold role_rows. apply extend_rows_agree.
    eapply Forall_impl; [exact Hall|]. intros row Hre. by apply Hpage. }
  split; [done|]. unfold extract_instruments. by rewrite Hrows.
Qed.

(** C10.  A row of the page table whose [page_num] is missing or is not
    a number is skipped by both extractors: it contributes no role row
    and no salary row, and the tables are those of the page table without
    it. *)
Theorem unnumbered_page_skipped (tax : taxonomy)
    (before after : list PageRow) (bad : PageRow) :
  p_page_num bad = Missing
  \/ (exists s, p_page_num bad = Written s /\ numeric_of_text s = None) ->
  roles_of_page tax bad = Some []
  /\ salaries_of_page bad = []
  /\ role_rows tax (before ++ bad :: after) = role_rows tax (before ++ after)
  /\ salary_rows (before ++ bad :: after) = salary_rows (before ++ after)
  /\ extract_instruments tax (before ++ bad :: after)
     = extract_instruments tax (before ++ after)
  /\ extract_salaries (before ++ bad :: after)
     = extract_salaries (before ++ after).
Proof.
  intros Hbad.
  assert (to_numeric (p_page_num bad) = None) as Hnan.
  { destruct Hbad as [->|(s & -> & Hs)]; [done|exact Hs]. }
  assert (roles_of_page tax bad = Some []) as Hroles
    by (unfold roles_of_page; by rewrite Hnan).
  assert (salaries_of_page bad = []) as Hsalaries
    by (unfold salaries_of_page; by rewrite Hnan).
  assert (role_rows tax (before ++ bad :: after) = role_rows tax (before ++ after))
    as Hr.
  { unfold role_rows. by apply extend_rows_skip. }
  assert (salary_rows (before ++ bad :: after) = salary_rows (before ++ after))
    as Hs.
  { unfold salary_rows. rewrite !flat_map_app. simpl. by rewrite Hsalaries. }
  split_and!; try done.
  - unfold extract_instruments. by rewrite Hr.
  - unfold extract_salaries. by rewrite Hs.
Qed.

End RoleProperties.

(** ** Deduplication *)

Lemma filter_drop_duplicates_from {A K} `{EqDecision K} (key : A -> K)
    (seen : list K) (l : list A) (k : K) :
  filter (fun x => key x = k) (drop_duplicates_from key seen l)
  = if decide (k ∈ seen) then []
    else option_list (head (filter (fun x => key x = k) l)).
Proof.
  revert seen. induction l as [|x l IH]; intros seen; simpl.
  - by destruct (decide (k ∈ seen)).
  - destruct (decide (key x ∈ seen)) as [Hseen|Hseen].
    + rewrite IH, (filter_cons _ x l).
      destruct (decide (k ∈ seen)) as [|Hk]; [done|].
      destruct (decide (key x = k)) as [<-|]; [done|done].
    + rewrite !filter_cons. destruct (decide (key x = k)) as [<-|Hne].
      * rewrite IH, decide_True by (apply elem_of_cons; auto).
        by rewrite decide_False.
      * rewrite IH. destruct (decide (k ∈ seen)) as [Hk|Hk].
        -- by rewrite decide_True by (apply elem_of_cons; auto).
        -- rewrite decide_False; [done|].
           intros [?|?]%elem_of_cons; congruence.
Qed.

Lemma filter_none {A} (P : A -> Prop) `{!forall x, Decision (P x)} (l : list A) :
  Forall (fun x => ~ P x) l -> filter P l = [].
Proof.
  induction 1 as [|x l Hx _ IH]; [done|]. by rewrite filter_cons_False.
Qed.

(** Of each key the first row survives, and only that one. *)
Lemma filter_drop_duplicates {A K} `{EqDecision K} (key : A -> K)
    (l : list A) (k : K) :
  filter (fun x => key x = k) (drop_duplicates key l)
  = option_list (head (filter (fun x => key x = k) l)).
Proof.
  unfold drop_duplicates. rewrite filter_drop_duplicates_from.
  apply decide_False, not_elem_of_nil.
Qed.

Section Deduplication.
Context {rt : Runtime}.

(** C4 (amended).  Of the raw role matches with the same (doc_id,
    page_num, canonical role), deduplication keeps exactly one, and none
    of the group has a longer evidence text.  Among the longest of the
    group, it keeps the one the table sort puts first: the first in scan
    order when that sort is stable, which the code does not ask for. *)
Theorem deduplicate_keeps_longest (rows : list RoleRow)
    (k : list Z * option Z * list Z) :
  sorts_descending ->
  (exists r, r ∈ rows /\ role_key r = k) ->
  exists c,
    filter (fun r => role_key r = k) (deduplicate rows) = [c]
    /\ c ∈ rows /\ role_key c = k
    /\ (forall r, r ∈ rows -> role_key r = k ->
                  evidence_len r <= evidence_len c)
    /\ (sorts_stably ->
        exists before after,
          rows = before ++ c :: after
          /\ forall r, r ∈ before -> role_key r = k ->
                       evidence_len r < evidence_len c).
Proof.
  intros Hsort (r0 & Hr0 & Hk0).
  destruct (Hsort RoleRow evidence_len rows) as [Hperm Hsorted].
  set (sorted := sort_values_desc RoleRow evidence_len rows) in *.
  assert (deduplicate rows = drop_duplicates role_key sorted) as ->.
  { unfold deduplicate. destruct rows; [by apply elem_of_nil in Hr0|done]. }
  rewrite filter_drop_duplicates.
  destruct (head (filter (fun r => role_key r = k) sorted)) as [c|] eqn:Hhead.
  - exists c. apply head_filter_split in Hhead as (l1 & l2 & Hs & Hl1 & Hc).
    assert (forall r, r ∈ rows -> role_key r = k ->
                      evidence_len r <= evidence_len c) as Hlongest.
    { intros r Hr Hk. rewrite <- Hperm, Hs in Hr. rewrite Hs in Hsorted.
      apply elem_of_app in Hr as [Hr|Hr].
      - rewrite Forall_forall in Hl1. by destruct (Hl1 r Hr).
      - apply elem_of_cons in Hr as [->|Hr]; [lia|].
        apply StronglySorted_app_1_r, StronglySorted_cons in Hsorted as [Hall _].
        rewrite Forall_forall in Hall. by apply Hall. }
    split_and!; try done.
    + rewrite <- Hperm, Hs. apply elem_of_app. right. apply elem_of_cons. by left.
    + intros Hstable.
      set (top := fun r : RoleRow =>
             role_key r = k /\ evidence_len r = evidence_len c).
      assert (head (filter top rows) = Some c) as Hfirst.
      { unfold top. rewrite <- list_filter_filter.
        rewrite <- (Hstable RoleRow evidence_len rows (evidence_len c)).
        fold sorted. rewrite list_filter_filter, Hs, filter_app.
        rewrite (filter_none _ l1).
        - simpl. rewrite filter_cons, decide_True by done. done.
        - eapply Forall_impl; [exact Hl1|]. intros r Hr [Hrk _]. by apply Hr. }
      apply head_filter_split in Hfirst as (before & after & -> & Hbefore & _).
      exists before, after. split; [done|]. intros r Hr Hk.
      rewrite Forall_forall in Hbefore.
      assert (evidence_len r <= evidence_len c) as Hle.
      { apply Hlongest; [|done]. apply elem_of_app. by left. }
      assert (evidence_len r <> evidence_len c) as Hne.
      { intros Heq. apply (Hbefore r Hr). by split. }
      lia.
  - exfalso. assert (r0 ∈ filter (fun r => role_key r = k) sorted) as Hmem.
    { apply list_elem_of_filter. split; [done|]. by rewrite Hperm. }
    destruct (filter _ sorted); [by apply elem_of_nil in Hmem|done].
Qed.

End Deduplication.

(** ** The example runtime *)

Section ExampleSort.
Context {A : Type} (key : A -> Z).

Let desc (x y : A) : Prop := key y <= key x.

Lemma insert_desc_perm (x : A) (l : list A) :
  Example.insert_desc key x l ≡ₚ x :: l.
Proof.
  induction l as [|y l IH]; simpl; [done|].
  destruct (key y <=? key x); [done|]. by rewrite IH, Permutation_swap.
Qed.

Lemma sort_desc_perm (l : list A) : Example.sort_desc A key l ≡ₚ l.
Proof.
  induction l as [|x l IH]; simpl; [done|].
  unfold Example.sort_desc in *. simpl. by rewrite insert_desc_perm, IH.
Qed.

Lemma insert_desc_sorted (x : A) (l : list A) :
  StronglySorted desc l -> StronglySorted desc (Example.insert_desc key x l).
Proof.
  induction 1 as [|y l Hl IH Hy]; simpl; [repeat constructor|].
  destruct (Z.leb_spec (key y) (key x)) as [Hle|Hgt].
  - constructor; [by constructor|]. constructor; [done|].
    eapply Forall_impl; [exact Hy|]. unfold desc. intros; lia.
  - constructor; [done|].
    rewrite Forall_forall. intros z Hz. rewrite insert_desc_perm in Hz.
    apply elem_of_cons in Hz as [->|Hz]; [unfold desc; lia|].
    rewrite Forall_forall in Hy. by apply Hy.
Qed.

Lemma sort_desc_sorted (l : list A) :
  StronglySorted desc (Example.sort_desc A key l).
Proof.
  induction l as [|x l IH]; [constructor|].
  unfold Example.sort_desc in *. simpl. by apply insert_desc_sorted.
Qed.

Lemma insert_desc_stable (x : A) (l : list A) (k : Z) :
  filter (fun y => key y = k) (Example.insert_desc key x l)
  = filter (fun y => key y = k) (x :: l).
Proof.
  induction l as [|y l IH]; simpl; [done|].
  destruct (Z.leb_spec (key y) (key x)) as [Hle|Hgt]; [done|].
  rewrite (filter_cons _ y), IH, !filter_cons.
  destruct (decide (key y = k)), (decide (key x = k)); try done. lia.
Qed.

Lemma sort_desc_stable (l : list A) (k : Z) :
  filter (fun y => key y = k) (Example.sort_desc A key l)
  = filter (fun y => key y = k) l.
Proof.
  induction l as [|x l IH]; [done|].
  unfold Example.sort_desc in *. simpl.
  by rewrite insert_desc_stable, !filter_cons, IH.
Qed.

End ExampleSort.

Lemma example_sorts_descending : sorts_descending (H := Example.runtime).
Proof. intros A key l. split; [apply sort_desc_perm|apply sort_desc_sorted]. Qed.

Lemma example_sorts_stably : sorts_stably (H := Example.runtime).
Proof. intros A key l k. apply sort_desc_stable. Qed.

Lemma example_ascii_digits : ascii_digits (H := Example.runtime).
Proof.
  intros c Hc. simpl. unfold Example.ex_decimal.
  destruct (Z.leb_spec 48 c), (Z.leb_spec c 57); simpl; try done; lia.
Qed.

(** C4, as stated, fails on a page that names the role fourteen times,
    seven characters apart.  The ten matches from offset 14 to offset 77
    have the whole page as evidence, the longest; the sort by network
    returns the rows by descending length of evidence with the match at
    offset 21 first, and that match, the second of the longest in scan
    order, is the candidate kept. *)
Lemma tie_not_first_scanned :
  map role_key
    <$> role_rows (rt := Example.runtime_network) fagote_taxonomy [fagotes_page]
  = Some (replicate 14 (utf8 "edital-01", Some 1, utf8 "Fagote"))
  /\ map (fun r => (i_match_start_idx r, evidence_len r))
       <$> role_rows (rt := Example.runtime_network) fagote_taxonomy [fagotes_page]
     = Some [ (Some 0, 86); (Some 7, 93); (Some 14, 97); (Some 21, 97);
              (Some 28, 97); (Some 35, 97); (Some 42, 97); (Some 49, 97);
              (Some 56, 97); (Some 63, 97); (Some 70, 97); (Some 77, 97);
              (Some 84, 93); (Some 91, 86) ]
  /\ map evidence_len
       <$> (sort_values_desc (Runtime := Example.runtime_network)
              RoleRow evidence_len
              <$> role_rows (rt := Example.runtime_network) fagote_taxonomy
                    [fagotes_page])
     = Some [97; 97; 97; 97; 97; 97; 97; 97; 97; 97; 93; 93; 86; 86]
  /\ map i_match_start_idx
       <$> extract_instruments (rt := Example.runtime_network) fagote_taxonomy
             [fagotes_page]
     = Some [Some 21].
Proof. split_and!; vm_compute; reflexivity. Qed.

(** C8, as stated, fails for a pattern that fails to compile with an
    exception other than [re.error]: on the repetition count of
    "fagote{4294967296}" the engine raises [OverflowError], which
    [except re.error] does not catch, and the extraction ends without
    candidates, while the taxonomy without that pattern gives one. *)
Lemma overflowing_pattern_aborts :
  re_finditer (Runtime := Example.runtime)
    (regex_pattern (utf8 "fagote{4294967296}")) (utf8 "fagote fagotista")
  = OtherError
  /\ extract_instruments (rt := Example.runtime) overflowing_taxonomy
       [sample_page "fagote fagotista"]
     = None
  /\ map i_match_start_idx
       <$> extract_instruments (rt := Example.runtime) fagote_taxonomy
             [sample_page "fagote fagotista"]
     = Some [Some 0].
Proof. split_and!; vm_compute; reflexivity. Qed.

(** ** The properties at work on the sample tables *)

Lemma matchmaker_invariant_witness :
  exists o inst sal,
    match_opportunities (rt := Example.runtime) [sample_role 100]
      [sample_salary 200 5; sample_salary 2900 8] = Done [o]
    /\ match_type o = PAGE_PROXIMITY
    /\ s_doc_id sal = i_doc_id inst
    /\ s_page_num sal = i_page_num inst
    /\ salario_valor o = Some (s_canonical_value sal)
    /\ distancia_chars o <= 3000.
Proof.
  assert (exists o,
             match_opportunities (rt := Example.runtime) [sample_role 100]
               [sample_salary 200 5; sample_salary 2900 8] = Done [o]
             /\ match_type o = PAGE_PROXIMITY) as (o & Hrun & Hty).
  { eexists. split; vm_compute; reflexivity. }
  destruct (matchmaker_invariant (rt := Example.runtime) _ _ _ o Hrun
              (list_elem_of_here o [])) as [Hlinked _].
  destruct (Hlinked Hty)
    as (inst & sal & inst_pos & idx & _ & _ & _ & _ & Hdoc & Hpage & Hval & _ & _ & _ & Hwin).
  exists o, inst, sal. auto 10.
Defined.

Lemma best_salary_selected_witness :
  exists opps o best dist,
    match_opportunities (rt := Example.runtime) [sample_role 100]
      [sample_salary 200 5; sample_salary 2900 8] = Done opps
    /\ o ∈ opps
    /\ match_type o = PAGE_PROXIMITY
    /\ salario_score o = s_score best
    /\ distancia_chars o = dist
    /\ qualifies 100 sample_key best dist.
Proof.
  destruct (proj1 (best_salary_selected (rt := Example.runtime))
              [sample_role 100] [sample_salary 200 5; sample_salary 2900 8]
              (sample_role 100) 100 1
              (list_elem_of_here _ _) eq_refl eq_refl)
    as (opps & o & best & dist & before & after & Hrun & Ho & _ & _ & _ & Hty
        & _ & Hscore & Hdist & _ & _ & Hq & _).
  { exists (sample_salary 200 5), 100. split; [apply list_elem_of_here|].
    split; [by split|]. exists 200. by split_and!. }
  exists opps, o, best, dist. auto 10.
Defined.

Lemma deduplicate_keeps_longest_witness :
  exists rows c,
    role_rows (rt := Example.runtime) fagote_taxonomy [audition_page] = Some rows
    /\ map (fun r => (i_match_start_idx r, evidence_len r)) rows
       = [(Some 0, 86); (Some 9, 98)]
    /\ filter (fun r => role_key r = (utf8 "edital-01", Some 1, utf8 "Fagote"))
         (deduplicate (rt := Example.runtime) rows) = [c]
    /\ i_match_start_idx c = Some 9
    /\ forall r,
         r ∈ rows -> role_key r = (utf8 "edital-01", Some 1, utf8 "Fagote") ->
         evidence_len r <= evidence_len c.
Proof.
  exists (default [] (role_rows (rt := Example.runtime) fagote_taxonomy
                        [audition_page])).
  destruct (deduplicate_keeps_longest (rt := Example.runtime)
              (default [] (role_rows (rt := Example.runtime) fagote_taxonomy
                             [audition_page]))
              (utf8 "edital-01", Some 1, utf8 "Fagote")
              example_sorts_descending)
    as (c & Hkept & _ & _ & Hlongest & _).
  { assert (exists r l,
               default [] (role_rows (rt := Example.runtime) fagote_taxonomy
                             [audition_page]) = r :: l
               /\ role_key r = (utf8 "edital-01", Some 1, utf8 "Fagote"))
      as (r & l & Hrows & Hk).
    { eexists _, _. split; vm_compute; reflexivity. }
    exists r. split; [rewrite Hrows; apply list_elem_of_here|exact Hk]. }
  exists c. split; [vm_compute; reflexivity|].
  split; [vm_compute; reflexivity|]. split; [exact Hkept|].
  split; [|exact Hlongest].
  vm_compute in Hkept. by injection Hkept as <-.
Defined.


Lemma calendar_year_rejected_witness :
  exists m,
    salary_finditer (rt := Example.runtime) (utf8 "Edital 2025") = [m]
    /\ m_group2 m = utf8 "2025"
    /\ salary_of_match (rt := Example.runtime) (sample_page "Edital 2025") 1 m = None.
Proof.
  eexists. split; [vm_compute; reflexivity|]. split; [vm_compute; reflexivity|].
  apply (proj1 (calendar_year_rejected (rt := Example.runtime)
                  (sample_page "Edital 2025") 1 _) 202500);
    vm_compute; try reflexivity. split; discriminate.
Defined.

Lemma no_marker_needs_support_witness :
  exists m r,
    salary_finditer (rt := Example.runtime) (utf8 "salário mensal 3500") = [m]
    /\ salary_of_match (rt := Example.runtime)
         (sample_page "salário mensal 3500") 1 m = Some r
    /\ s_canonical_value r = 350000
    /\ s_score r = 3.
Proof.
  assert (exists m, salary_finditer (rt := Example.runtime)
                      (utf8 "salário mensal 3500") = [m]
                    /\ m_group2 m = utf8 "3500" /\ m_group3 m = None
                    /\ symbol_found m = false
                    /\ has_positive (rt := Example.runtime)
                         (p_full_text (sample_page "salário mensal 3500")) m = true
                    /\ has_negative (rt := Example.runtime)
                         (p_full_text (sample_page "salário mensal 3500")) m = false)
    as (m & Hm & Hint & Hdec & Hsym & Hpos & Hneg).
  { eexists. split_and!; vm_compute; reflexivity. }
  destruct (proj2 (no_marker_needs_support (rt := Example.runtime)
                     (sample_page "salário mensal 3500") 1 m)
              example_ascii_digits Hint Hdec Hsym Hpos Hneg)
    as (r & Hr & Hval & Hscore & _).
  exists m, r. auto.
Defined.

Lemma refused_pattern_skipped_witness :
  re_finditer (Runtime := Example.runtime) (regex_pattern (utf8 "fagot("))
    (utf8 "fagote fagotista") = ReError
  /\ role_rows (rt := Example.runtime) broken_taxonomy
       [sample_page "fagote fagotista"]
     = role_rows (rt := Example.runtime) fagote_taxonomy
         [sample_page "fagote fagotista"]
  /\ extract_instruments (rt := Example.runtime) broken_taxonomy
       [sample_page "fagote fagotista"]
     = extract_instruments (rt := Example.runtime) fagote_taxonomy
         [sample_page "fagote fagotista"]
  /\ map i_match_start_idx
       <$> extract_instruments (rt := Example.runtime) broken_taxonomy
             [sample_page "fagote fagotista"]
     = Some [Some 0].
Proof.
  split; [vm_compute; reflexivity|].
  destruct (proj2 (refused_pattern_skipped (rt := Example.runtime)
                     [] [] (utf8 "Fagote") [utf8 "fagote"] [utf8 "fagotista"]
                     (utf8 "fagot("))
              [sample_page "fagote fagotista"]) as [Hrows Hcandidates].
  { constructor; [vm_compute; reflexivity|constructor]. }
  split; [exact Hrows|]. split; [exact Hcandidates|vm_compute; reflexivity].
Defined.

Lemma no_match_sentinels_witness :
  exists o,
    match_opportunities (rt := Example.runtime) [sample_role 0]
      [sample_salary 3000 5] = Done [o]
    /\ match_type o = NO_MATCH
    /\ salario_valor o = None /\ contexto_salario o = None
    /\ salario_score o = 0 /\ distancia_chars o = -1
    /\ salario_formatado o = utf8 "Não Informado".
Proof.
  assert (exists o,
             match_opportunities (rt := Example.runtime) [sample_role 0]
               [sample_salary 3000 5] = Done [o]
             /\ match_type o = NO_MATCH) as (o & Hrun & Hty).
  { eexists. split; vm_compute; reflexivity. }
  exists o. split; [done|]. split; [done|].
  exact (proj1 (no_match_sentinels (rt := Example.runtime)) _ _ _ o Hrun
           (list_elem_of_here o []) Hty).
Defined.

Lemma unnumbered_page_skipped_witness :
  role_rows (rt := Example.runtime) fagote_taxonomy
    [sample_page "fagote"; sample_page_numbered (Written (utf8 "iv")) "fagotista";
     sample_page "R$ 5.000,00"]
  = role_rows (rt := Example.runtime) fagote_taxonomy
      [sample_page "fagote"; sample_page "R$ 5.000,00"]
  /\ salary_rows (rt := Example.runtime)
       [sample_page "fagote"; sample_page_numbered Missing "R$ 9.000,00";
        sample_page "R$ 5.000,00"]
     = salary_rows (rt := Example.runtime)
         [sample_page "fagote"; sample_page "R$ 5.000,00"].
Proof.
  split.
  - apply (unnumbered_page_skipped (rt := Example.runtime) fagote_taxonomy
             [sample_page "fagote"] [sample_page "R$ 5.000,00"]
             (sample_page_numbered (Written (utf8 "iv")) "fagotista")).
    right. exists (utf8 "iv"). split; vm_compute; reflexivity.
  - apply (unnumbered_page_skipped (rt := Example.runtime) fagote_taxonomy
             [sample_page "fagote"] [sample_page "R$ 5.000,00"]
             (sample_page_numbered Missing "R$ 9.000,00")).
    by left.
Defined.

(** ** Worked cases of the specification *)

(** "R$ 5.000,00" gives one salary row, of amount 5000.00 and score 2. *)
Example five_thousand_reais :
  map (fun r => (s_canonical_value r, s_score r, s_match_start_idx r))
      (extract_salaries (rt := Example.runtime) [sample_page "R$ 5.000,00"])
  = [(500000, 2, Some 0)].
Proof. vm_compute. reflexivity. Qed.

(** The numeric pattern gives back groups and digits as the engine does:
    "1.234.5678" matches as "1.234" then "5678", and a run of seven digits
    does not match. *)
Example numeric_pattern_backtracks :
  map (fun m => (m_start m, m_end m))
      (salary_finditer (rt := Example.runtime) (utf8 "1.234.5678 e 1234567"))
  = [(0, 5); (6, 10)].
Proof. vm_compute. reflexivity. Qed.

(** One page naming a role, a salary and a bond gives one opportunity. *)
Example one_page_end_to_end :
  let page := sample_page "Fagote: salário mensal de R$ 8.500,00, regime CLT." in
  match option_map
          (fun candidates =>
             match_opportunities (rt := Example.runtime) candidates
               (extract_salaries (rt := Example.runtime) [page]))
          (extract_instruments (rt := Example.runtime) fagote_taxonomy [page]) with
  | Some (Done [o]) =>
      instrumento o = utf8 "Fagote"
      /\ salario_valor o = Some 850000
      /\ tipo_vinculo o = utf8 "CLT"
      /\ match_type o = PAGE_PROXIMITY
      /\ salario_formatado o = utf8 "R$ 8.500,00"
  | _ => False
  end.
Proof. vm_compute. repeat split; reflexivity. Qed.

(** * Further properties of the code *)

(** ** The salary filters as one criterion *)

Section SalaryCriterion.
Context {rt : Runtime}.

Lemma judge_iff (sym : bool) (int_part_raw : list Z)
    (dec_part_raw : option (list Z)) (pos neg : bool) (v s : Z) :
  judge sym int_part_raw dec_part_raw pos neg = Some (v, s) <->
  (sym = true \/ pos = true) /\ neg = false
  /\ parse_amount (replace_char 46 [] int_part_raw) (dec_clean_of dec_part_raw) = Some v
  /\ 70000 <= v <= 4500000
  /\ s = (if sym then 2 else 0) + (if pos then 3 else 0).
Proof.
  unfold judge, dec_clean_of, min_val, max_val, score_of.
  destruct (parse_amount _ _) as [val|];
    [|destruct sym, pos, (contains [46] int_part_raw), dec_part_raw as [[|??]|];
      simpl; split; try done; intros (_ & _ & ? & _); done].
  destruct (Z.leb_spec 70000 val), (Z.leb_spec val 4500000),
    (Z.leb_spec 190000 val), (Z.leb_spec val 210000);
    destruct sym, pos, neg, (contains [46] int_part_raw), dec_part_raw as [[|??]|];
    simpl; split;
    first [ done
          | intros [= <- <-]; split_and!; auto; lia
          | intros ([?|?] & ? & [= ->] & ? & ->); first [done | lia | reflexivity] ].
Qed.

(** X1.  The filters of [extract_salaries] (the guard on matches without
    currency marker, the range, the calendar-year guard, the final gate
    and the score) accept a match exactly when it has a currency marker or
    a positive keyword in its window, no negative keyword there, and an
    amount between 700.00 and 45000.00; the row then carries that amount,
    and the score 2 for the marker plus 3 for the keyword. *)
Theorem salary_accepted_iff (row : PageRow) (page_num : Z) (m : NumMatch) :
  let t := p_full_text row in
  (is_Some (salary_of_match row page_num m) <->
   m_group2 m <> []
   /\ (symbol_found m = true \/ has_positive t m = true)
   /\ has_negative t m = false
   /\ exists v,
        parse_amount (replace_char 46 [] (m_group2 m)) (dec_clean_of (m_group3 m))
        = Some v
        /\ 70000 <= v <= 4500000)
  /\ (forall r,
         salary_of_match row page_num m = Some r ->
         parse_amount (replace_char 46 [] (m_group2 m)) (dec_clean_of (m_group3 m))
         = Some (s_canonical_value r)
         /\ s_score r
            = (if symbol_found m then 2 else 0) + (if has_positive t m then 3 else 0)
         /\ (s_score r = 2 \/ s_score r = 3 \/ s_score r = 5)).
Proof.
  intros t. split.
  - split.
    + intros [r Hr]. pose proof Hr as Hinv.
      apply salary_of_match_inv in Hinv as (Hj & _).
      apply judge_iff in Hj as (Hgate & Hneg & Hparse & Hrange & _).
      split_and!; try done; eauto.
      intros Hnil. unfold salary_of_match in Hr. by rewrite Hnil in Hr.
    + intros (Hg2 & Hgate & Hneg & v & Hparse & Hrange).
      assert (judge (symbol_found m) (m_group2 m) (m_group3 m)
                (has_positive t m) (has_negative t m)
              = Some (v, (if symbol_found m then 2 else 0)
                         + (if has_positive t m then 3 else 0))) as Hj
        by (apply judge_iff; split_and!; try done; lia).
      unfold salary_of_match. fold t. rewrite Hj.
      destruct (m_group2 m) eqn:Hg; [congruence|eauto].
  - intros r Hr. apply salary_of_match_inv in Hr as (Hj & _).
    apply judge_iff in Hj as (Hgate & _ & Hparse & _ & Hscore).
    fold t in Hgate, Hscore. split_and!; try done.
    rewrite Hscore. destruct (symbol_found m), (has_positive t m), Hgate; auto; done.
Qed.

End SalaryCriterion.

(** ** Normalisation and keywords *)

Section NormalisationFacts.
Context {rt : Runtime}.

(** X2.  Whatever the text, [_normalize_text] returns ASCII characters only,
    none of them an upper-case letter, and no more characters than the
    NFKD form has. *)
Theorem normalize_text_ascii_lower (t : list Z) :
  Forall (fun c => 0 <= c < 128 /\ ~ 65 <= c <= 90) (_normalize_text t)
  /\ (length (_normalize_text t) <= length (nfkd t))%nat.
Proof.
  unfold _normalize_text. split.
  - rewrite Forall_forall. intros c Hc.
    apply list_elem_of_fmap in Hc as (c0 & -> & Hc0).
    apply list_elem_of_In, filter_In in Hc0 as [_ Hc0].
    unfold ascii_lower.
    destruct (Z.leb_spec 65 c0), (Z.leb_spec c0 90); simpl; lia.
  - rewrite length_map. apply List.filter_length_le.
Qed.

End NormalisationFacts.

Lemma starts_with_spec (kw t : list Z) :
  starts_with kw t = true <-> exists post, t = kw ++ post.
Proof.
  revert t. induction kw as [|a kw IH]; intros [|b t]; simpl.
  - split; eauto.
  - split; eauto.
  - split; [done|]. intros [post Hpost]. discriminate.
  - rewrite andb_true_iff, IH, Z.eqb_eq. split.
    + intros [-> [post ->]]. eauto.
    + intros [post [= -> ->]]. eauto.
Qed.

Lemma last_app_cons' {A} (l1 l2 : list A) (x : A) :
  last (l1 ++ x :: l2) = last (x :: l2).
Proof. induction l1 as [|y [|z l1] IH]; simpl in *; auto. Qed.

Lemma word_here_spec (kw : list Z) (prev : option Z) (t : list Z) :
  wordy kw ->
  word_here kw prev t = true <->
  exists post, t = kw ++ post /\ word_opt prev = false
               /\ word_opt (head post) = false.
Proof.
  intros [Hhead Hlast]. unfold word_here, boundary.
  rewrite !andb_true_iff, starts_with_spec. split.
  - intros [[Hb (post & ->)] He]. exists post.
    rewrite drop_app_length in He.
    destruct kw as [|a kw]; [done|]. simpl in Hb, Hhead.
    destruct (last (a :: kw)) as [z|]; [|done]. simpl in Hlast, He.
    rewrite Hhead in Hb. rewrite Hlast in He.
    destruct (word_opt prev), (word_opt (head post)); done.
  - intros (post & -> & Hp & Hn). rewrite drop_app_length.
    destruct kw as [|a kw]; [done|]. simpl in Hhead |- *.
    destruct (last (a :: kw)) as [z|]; [|done]. simpl in Hlast.
    rewrite Hhead, Hp. simpl. rewrite Hlast, Hn. eauto.
Qed.

Lemma search_word_spec (kw : list Z) (prev : option Z) (t : list Z) :
  wordy kw ->
  search_word kw prev t = true <->
  exists pre post, t = pre ++ kw ++ post
                   /\ word_opt (last (option_list prev ++ pre)) = false
                   /\ word_opt (head post) = false.
Proof.
  intros Hkw. revert prev. induction t as [|c t IH]; intros prev.
  - simpl. rewrite orb_false_r, (word_here_spec _ _ _ Hkw). split.
    + intros (post & Ht & Hp & Hn). exists [], post.
      rewrite app_nil_r. by destruct prev.
    + intros (pre & post & Ht & Hp & Hn).
      destruct pre as [|? ?]; [|done]. rewrite app_nil_r in Hp.
      exists post. by destruct prev.
  - simpl. rewrite orb_true_iff, (word_here_spec _ _ _ Hkw), IH. split.
    + intros [(post & Ht & Hp & Hn)|(pre & post & -> & Hp & Hn)].
      * exists [], post. rewrite app_nil_r. by destruct prev.
      * exists (c :: pre), post. split; [done|]. split; [|done].
        simpl in Hp. by rewrite last_app_cons'.
    + intros (pre & post & Ht & Hp & Hn). destruct pre as [|c' pre].
      * left. exists post. rewrite app_nil_r in Hp. by destruct prev.
      * right. injection Ht as <- ->. exists pre, post.
        split; [done|]. split; [|done]. simpl.
        by rewrite last_app_cons' in Hp.
Qed.

(** X3.  On ASCII text, which is what the code searches (the context
    [_normalize_text] returns), [_has_keyword_simple] finds whole words
    only: for keywords that start and end with an ASCII letter, digit or
    underscore, as the positive and negative keywords of [SALARY_CONFIG]
    all do, it answers [True] exactly when one of them occurs in the text
    with no such character just before it and none just after it. *)
Theorem has_keyword_whole_word (t : list Z) (keywords : list (list Z)) :
  ascii_text t ->
  Forall wordy keywords ->
  (_has_keyword_simple t keywords = true <->
   exists kw pre post,
     kw ∈ keywords /\ t = pre ++ kw ++ post
     /\ word_opt (last pre) = false /\ word_opt (head post) = false)
  /\ Forall wordy positive_keywords /\ Forall wordy negative_keywords.
Proof.
  intros _ Hall. split; [|split; apply Forall_fold_right; vm_compute; tauto].
  unfold _has_keyword_simple. rewrite existsb_exists. split.
  - intros (kw & Hin & Hs). apply list_elem_of_In in Hin.
    rewrite Forall_forall in Hall.
    apply (search_word_spec _ _ _ (Hall _ Hin)) in Hs as (pre & post & ? & ? & ?).
    exists kw, pre, post. auto.
  - intros (kw & pre & post & Hin & Ht & Hp & Hn).
    exists kw. split; [by apply list_elem_of_In|].
    rewrite Forall_forall in Hall.
    apply (search_word_spec _ _ _ (Hall _ Hin)). exists pre, post. auto.
Qed.

Lemma has_keyword_whole_word_witness :
  ascii_text (utf8 "taxa de inscricao")
  /\ _has_keyword_simple (utf8 "taxa de inscricao") negative_keywords = true
  /\ _has_keyword_simple (utf8 "taxas e custos") negative_keywords = false
  /\ exists kw pre post,
       kw ∈ negative_keywords /\ utf8 "taxa de inscricao" = pre ++ kw ++ post
       /\ word_opt (last pre) = false /\ word_opt (head post) = false.
Proof.
  assert (ascii_text (utf8 "taxa de inscricao")) as Hascii
    by (apply (bool_decide_unpack _); vm_compute; reflexivity).
  split; [exact Hascii|].
  split; [vm_compute; reflexivity|]. split; [vm_compute; reflexivity|].
  apply (proj1 (has_keyword_whole_word (utf8 "taxa de inscricao") negative_keywords
                  Hascii ltac:(apply Forall_fold_right; vm_compute; tauto))).
  vm_compute. reflexivity.
Defined.

(** ** The evidence window *)

Lemma drop_while_suffix {A} (p : A -> bool) (l : list A) :
  exists k, l = k ++ drop_while p l.
Proof.
  induction l as [|x l [k IH]]; simpl; [by exists []|].
  destruct (p x); [|by exists []]. exists (x :: k). simpl. by rewrite <- IH.
Qed.

Lemma drop_while_head {A} (p : A -> bool) (l : list A) (x : A) :
  head (drop_while p l) = Some x -> p x = false.
Proof.
  induction l as [|y l IH]; simpl; [done|].
  destruct (p y) eqn:Hy; [done|]. by intros [= <-].
Qed.

Lemma last_rev_head {A} (l : list A) : last (rev l) = head l.
Proof. destruct l as [|x l]; [done|]. simpl. by rewrite last_app_cons'. Qed.

Lemma replace_char_length (old new : Z) (t : list Z) :
  length (replace_char old [new] t) = length t.
Proof.
  unfold replace_char. induction t as [|c t IH]; [done|]. simpl.
  rewrite length_app, IH. by destruct (c =? old).
Qed.

Lemma replace_char_gone (old new : Z) (t : list Z) :
  new <> old -> old ∉ replace_char old [new] t.
Proof.
  intros Hne Hin. unfold replace_char in Hin.
  apply list_elem_of_In, in_flat_map in Hin as (c & _ & Hc).
  revert Hc. destruct (Z.eqb_spec c old); simpl; intros [?|[]]; congruence.
Qed.

Section EvidenceFacts.
Context {rt : Runtime}.

Lemma strip_spec (t : list Z) :
  (exists a b, t = a ++ strip t ++ b)
  /\ (forall c, head (strip t) = Some c -> space c = false)
  /\ (forall c, last (strip t) = Some c -> space c = false).
Proof.
  unfold strip.
  set (inner := drop_while space t).
  set (back := drop_while space (rev inner)).
  destruct (drop_while_suffix space t) as [a Ha].
  destruct (drop_while_suffix space (rev inner)) as [b Hb]. fold back in Hb.
  assert (inner = rev back ++ rev b) as Hinner.
  { rewrite <- (rev_involutive inner), Hb, rev_app_distr. done. }
  split_and!.
  - exists a, (rev b). fold inner in Ha. by rewrite <- Hinner.
  - intros c Hc. destruct back as [|z back'] eqn:Hback; [done|].
    assert (head inner = Some c) as Hh.
    { rewrite Hinner. destruct (rev (z :: back')) eqn:Hr; [done|].
      simpl in Hc |- *. done. }
    by apply (drop_while_head space t).
  - intros c Hc. rewrite last_rev_head in Hc.
    by apply (drop_while_head space (rev inner)).
Qed.

Lemma evidence_of_piece (t : list Z) :
  exists a b, replace_char 10 [32] t = a ++ evidence_of t ++ b.
Proof.
  unfold evidence_of.
  destruct (strip_spec (replace_char 10 [32] t)) as ((a & b & Hab) & _). eauto.
Qed.

Lemma evidence_of_length (t : list Z) : (length (evidence_of t) <= length t)%nat.
Proof.
  destruct (evidence_of_piece t) as (a & b & Hab).
  pose proof (f_equal length Hab) as HL.
  rewrite replace_char_length, !length_app in HL. lia.
Qed.

(** X4.  The evidence text kept for a match is a piece of its window with
    every line feed (the character "\n" that [replace] looks for; other
    line breaks, such as a carriage return, are left as they are) turned
    into a blank: it contains no line feed, it neither starts nor ends
    with white space, and it is no longer than the window. *)
Theorem evidence_window_clean (t : list Z) :
  (10 ∉ evidence_of t)
  /\ (forall c, head (evidence_of t) = Some c -> space c = false)
  /\ (forall c, last (evidence_of t) = Some c -> space c = false)
  /\ (length (evidence_of t) <= length t)%nat
  /\ exists a b, replace_char 10 [32] t = a ++ evidence_of t ++ b.
Proof.
  destruct (evidence_of_piece t) as (a & b & Hab).
  destruct (strip_spec (replace_char 10 [32] t)) as (_ & Hh & Hl).
  assert (10 ∉ replace_char 10 [32] t) as Hnl by (by apply replace_char_gone).
  split_and!; [|exact Hh|exact Hl|apply evidence_of_length|eauto].
  intros Hin. apply Hnl. rewrite Hab. rewrite !elem_of_app. auto.
Qed.

(** X5.  The evidence of a role match spans at most 80 characters either side
    of the match, and that of a salary match at most 120. *)
Theorem evidence_length_bounded (row : PageRow) (page_num : Z) :
  (forall canonical start end_,
      len (i_evidence_text (role_of_match row page_num canonical (start, end_)))
      <= Z.max 0 (end_ - start + 160))
  /\ (forall m,
         match salary_of_match row page_num m with
         | Some r => len (s_evidence_text r) <= Z.max 0 (m_end m - m_start m + 240)
         | None => True
         end).
Proof.
  assert (forall t a b, len (evidence_of (slice t a b)) <= Z.max 0 (b - a)) as Hslice.
  { intros t a b. pose proof (evidence_of_length (slice t a b)) as Hlen.
    unfold len, slice in *. rewrite length_take in Hlen. lia. }
  split.
  - intros canonical start end_. simpl.
    etransitivity; [apply Hslice|]. lia.
  - intros m. unfold salary_of_match.
    destruct (m_group2 m); [done|]. destruct (judge _ _ _ _ _) as [[v s]|]; [|done].
    simpl. unfold salary_window.
    etransitivity; [apply Hslice|]. lia.
Qed.

End EvidenceFacts.

(** ** The matchmaker: rows, pages and order *)

(** X6.  [salaries_map] has an entry exactly for the pages with a salary row,
    and the entry holds the rows of the page in the order of the table;
    rows whose [page_num] is NaN are in no entry. *)
Theorem salaries_map_entries (salaries : list SalaryRow) (key : list Z * Z) :
  build_salaries_map salaries !! key
  = match filter (on_page key) salaries with
    | [] => None
    | rows => Some rows
    end.
Proof.
  unfold build_salaries_map.
  assert (forall l (m : gmap (list Z * Z) (list SalaryRow)),
             (forall k rows, m !! k = Some rows -> rows <> []) ->
             fold_left salaries_map_add l m !! key
             = match default [] (m !! key) ++ filter (on_page key) l with
               | [] => None
               | rows => Some rows
               end) as Hfold.
  { induction l as [|row l IH]; intros m Hm; simpl.
    - rewrite app_nil_r. destruct (m !! key) as [rows|] eqn:Hk; [|done].
      simpl. specialize (Hm _ _ Hk). by destruct rows.
    - rewrite IH.
      + rewrite filter_cons. unfold salaries_map_add.
        destruct (s_page_num row) as [p|] eqn:Hp.
        * destruct (decide (on_page key row)) as [[Hd Hq]|Hn].
          -- assert (key = (s_doc_id row, p)) as ->
               by (destruct key; simpl in *; congruence).
             rewrite lookup_insert_eq. simpl. by rewrite <- app_assoc.
          -- rewrite lookup_insert_ne; [done|]. intros <-. apply Hn. by split.
        * destruct (decide (on_page key row)) as [[Hd Hq]|Hn]; [congruence|done].
      + intros k rows. unfold salaries_map_add.
        destruct (s_page_num row) as [p|]; [|apply Hm].
        destruct (decide ((s_doc_id row, p) = k)) as [<-|Hne].
        * rewrite lookup_insert_eq. intros [= <-]. by destruct (default _ _).
        * rewrite lookup_insert_ne by done. apply Hm. }
  rewrite Hfold; [by rewrite lookup_empty|].
  intros k rows. by rewrite lookup_empty.
Qed.

Section MatchmakerRows.
Context {rt : Runtime}.

Lemma opportunity_of_kept (m : gmap (list Z * Z) (list SalaryRow)) (inst : RoleRow) :
  match opportunity_of m inst with
  | Some o => kept inst /\ role_part o = role_fields inst
  | None => ~ kept inst
  end.
Proof.
  unfold opportunity_of, kept, role_part, role_fields.
  destruct (i_match_start_idx inst) as [inst_pos|];
    [|intros [[? [=]] _]].
  destruct (i_page_num inst) as [page_num|]; [|intros [_ [? [=]]]].
  split; [split; eauto|]. by destruct (best_of _) as [[??]|].
Qed.

Lemma final_rows_role_part (m : gmap (list Z * Z) (list SalaryRow))
    (candidates : list RoleRow) :
  map role_part (omap (opportunity_of m) candidates)
  = map role_fields (filter kept candidates).
Proof.
  induction candidates as [|inst l IH]; [done|].
  change (omap (opportunity_of m) (inst :: l)) with
    (match opportunity_of m inst with
     | Some o => o :: omap (opportunity_of m) l
     | None => omap (opportunity_of m) l
     end).
  rewrite filter_cons. pose proof (opportunity_of_kept m inst) as Hk.
  destruct (opportunity_of m inst) as [o|].
  - destruct Hk as [Hk Hpart]. rewrite decide_True by done. simpl.
    by rewrite IH, Hpart.
  - by rewrite decide_False.
Qed.

(** X7.  The final table has one row for each role candidate that is not
    skipped (a NaN offset or page number), in the order of the candidates
    and with their document, source, page, role and evidence; the call
    raises [KeyError] exactly when there are candidates and all of them are
    skipped. *)
Theorem one_opportunity_per_candidate (candidates : list RoleRow)
    (salaries : list SalaryRow) :
  map role_part (rows_of (match_opportunities candidates salaries))
  = map role_fields (filter kept candidates)
  /\ (match_opportunities candidates salaries = KeyError <->
      candidates <> [] /\ Forall (fun inst => ~ kept inst) candidates).
Proof.
  unfold match_opportunities.
  pose proof (final_rows_role_part (build_salaries_map salaries) candidates) as Hrows.
  destruct candidates as [|c cs].
  - split; [done|]. split; [done|]. intros [? _]. done.
  - set (final_rows := omap _ (c :: cs)) in *.
    assert (final_rows = [] <-> Forall (fun inst => ~ kept inst) (c :: cs)) as Hnil.
    { split.
      - intros Hf. rewrite Hf in Hrows. simpl in Hrows.
        symmetry in Hrows. apply map_eq_nil in Hrows.
        rewrite Forall_forall. intros inst Hin Hk.
        assert (inst ∈ filter kept (c :: cs)) as Hmem
          by (by apply list_elem_of_filter).
        rewrite Hrows in Hmem. by apply elem_of_nil in Hmem.
      - intros Hall. destruct final_rows as [|o l]; [done|].
        rewrite (filter_none _ _ Hall) in Hrows. discriminate. }
    destruct final_rows as [|o l] eqn:Hf.
    + split; [by rewrite <- Hrows|]. split; [|done].
      intros _. split; [done|]. by apply Hnil.
    + split; [done|]. split; [done|]. intros [_ Hall].
      apply Hnil in Hall. discriminate.
Qed.

(** X8.  No linkage across pages: the row built for a role depends on the
    salary table only through its rows of the role's own
    [(doc_id, page_num)], so salary rows of other pages or documents can be
    added, removed or changed without any effect on it. *)
Theorem other_pages_do_not_matter (salaries1 salaries2 : list SalaryRow)
    (inst : RoleRow) :
  (forall page_num,
      i_page_num inst = Some page_num ->
      filter (on_page (i_doc_id inst, page_num)) salaries1
      = filter (on_page (i_doc_id inst, page_num)) salaries2) ->
  opportunity_of (build_salaries_map salaries1) inst
  = opportunity_of (build_salaries_map salaries2) inst.
Proof.
  intros Hsame. unfold opportunity_of.
  destruct (i_match_start_idx inst) as [inst_pos|]; [|done].
  destruct (i_page_num inst) as [page_num|]; [|done].
  by rewrite !salaries_map_lookup, (Hsame page_num eq_refl).
Qed.

End MatchmakerRows.

Section MatchmakerOrder.
Context {rt : Runtime}.

Lemma best_of_least (valid : list (SalaryRow * Z)) (x y : SalaryRow * Z) :
  best_of valid = Some x -> y ∈ valid -> tuple_le (rank x) (rank y) = true.
Proof.
  intros Hx Hy. apply head_list_sort in Hx as (l1 & l2 & -> & H1 & H2).
  rewrite Forall_forall in H1, H2.
  apply elem_of_app in Hy as [Hy|Hy]; [by apply tuple_lt_le, H1|].
  apply elem_of_cons in Hy as [->|Hy]; [|by apply H2].
  apply tuple_le_true. lia.
Qed.

Lemma best_of_permutation (v1 v2 : list (SalaryRow * Z)) :
  v1 ≡ₚ v2 ->
  match best_of v1, best_of v2 with
  | Some x1, Some x2 => rank x1 = rank x2
  | None, None => True
  | _, _ => False
  end.
Proof.
  intros Hperm.
  destruct (best_of v1) as [x1|] eqn:H1, (best_of v2) as [x2|] eqn:H2.
  - pose proof (best_of_elem _ _ H1) as Hin1.
    pose proof (best_of_elem _ _ H2) as Hin2.
    rewrite Hperm in Hin1. rewrite <- Hperm in Hin2.
    pose proof (best_of_least _ _ _ H1 Hin2) as Hle1.
    pose proof (best_of_least _ _ _ H2 Hin1) as Hle2.
    apply tuple_le_true in Hle1, Hle2.
    destruct (rank x1) as [a1 b1], (rank x2) as [a2 b2]. simpl in *.
    f_equal; lia.
  - apply head_list_sort_nil in H2. subst v2.
    apply Permutation_nil_r in Hperm. subst v1. discriminate.
  - apply head_list_sort_nil in H1. subst v1.
    apply Permutation_nil_l in Hperm. subst v2. discriminate.
  - done.
Qed.

(** X9.  The order of the salary table cannot change whether a role is linked,
    nor the score and the distance of its link: two tables with the same
    rows give a role rows with the same role fields, [match_type],
    [salario_score] and [distancia_chars].  (Which of several salary rows
    of equal score and distance supplies the amount does depend on the
    order.) *)
Theorem link_rank_order_independent (salaries1 salaries2 : list SalaryRow)
    (inst : RoleRow) :
  salaries1 ≡ₚ salaries2 ->
  match opportunity_of (build_salaries_map salaries1) inst,
        opportunity_of (build_salaries_map salaries2) inst with
  | Some o1, Some o2 =>
      role_part o1 = role_part o2
      /\ match_type o1 = match_type o2
      /\ salario_score o1 = salario_score o2
      /\ distancia_chars o1 = distancia_chars o2
  | None, None => True
  | _, _ => False
  end.
Proof.
  intros Hperm. unfold opportunity_of.
  destruct (i_match_start_idx inst) as [inst_pos|]; [|done].
  destruct (i_page_num inst) as [page_num|]; [|done].
  rewrite !salaries_map_lookup.
  assert (valid_candidates inst_pos
            (filter (on_page (i_doc_id inst, page_num)) salaries1)
          ≡ₚ valid_candidates inst_pos
               (filter (on_page (i_doc_id inst, page_num)) salaries2)) as Hvalid.
  { unfold valid_candidates. by rewrite Hperm. }
  apply best_of_permutation in Hvalid.
  destruct (best_of _) as [[s1 d1]|], (best_of _) as [[s2 d2]|]; try done.
  unfold rank in Hvalid. simpl in *. injection Hvalid as Hs Hd.
  split_and!; try done. lia.
Qed.

End MatchmakerOrder.

Section BondFacts.
Context {rt : Runtime}.

(** X10.  The bond type of a row is the first of CLT, Estatutário, Temporário
    and Bolsa one of whose patterns is found in the combined context, and
    "Não Informado" exactly when none is found at all. *)
Theorem detect_bond_priority (combined_context : list Z) :
  let found (entry : list Z * list (list Z)) :=
    existsb (fun pat => re_search pat combined_context) (snd entry) in
  (forall earlier entry later,
      BOND_KEYWORDS = earlier ++ entry :: later ->
      found entry = true ->
      Forall (fun e => found e = false) earlier ->
      detect_bond combined_context = fst entry)
  /\ (detect_bond combined_context = utf8 "Não Informado" <->
      Forall (fun e => found e = false) BOND_KEYWORDS)
  /\ detect_bond combined_context
     ∈ map utf8 ["CLT"; "Estatutário"; "Temporário"; "Bolsa"; "Não Informado"]%string.
Proof.
  intros found.
  assert (forall l earlier entry later,
             l = earlier ++ entry :: later ->
             found entry = true ->
             Forall (fun e => found e = false) earlier ->
             List.find found l = Some entry) as Hfirst.
  { intros l earlier. revert l.
    induction earlier as [|e earlier IH]; intros l entry later -> Hf Hall; simpl.
    - by rewrite Hf.
    - inversion Hall as [|?? He Hrest]; subst. rewrite He. by eapply IH. }
  assert (forall l, List.find found l = None <-> Forall (fun e => found e = false) l)
    as Hnone.
  { induction l as [|e l IH]; simpl; [by split|].
    destruct (found e) eqn:He.
    - split; [done|]. intros Hall. inversion Hall; congruence.
    - rewrite IH. split; [by constructor|]. by inversion 1. }
  split_and!.
  - intros earlier entry later Hsplit Hf Hall. unfold detect_bond.
    fold found. by rewrite (Hfirst _ _ _ _ Hsplit Hf Hall).
  - unfold detect_bond. fold found. rewrite <- Hnone.
    destruct (List.find found BOND_KEYWORDS) as [entry|] eqn:Hfind; [|done].
    split; [|done]. intros Heq. exfalso.
    apply find_some in Hfind as [Hin _].
    assert (Forall (fun e : list Z * list (list Z) => fst e <> utf8 "Não Informado")
              BOND_KEYWORDS) as Hlabels
      by (apply Forall_fold_right; vm_compute; repeat split; discriminate).
    rewrite Forall_forall in Hlabels.
    by apply (Hlabels entry); [apply list_elem_of_In|].
  - unfold detect_bond. fold found.
    destruct (List.find found BOND_KEYWORDS) as [entry|] eqn:Hfind.
    + apply find_some in Hfind as [Hin _].
      assert (Forall (fun e : list Z * list (list Z) =>
                        fst e ∈ map utf8 ["CLT"; "Estatutário"; "Temporário"; "Bolsa";
                                          "Não Informado"]%string)
                BOND_KEYWORDS) as Hlabels.
      { repeat constructor; simpl; rewrite !elem_of_cons; auto 10. }
      rewrite Forall_forall in Hlabels. by apply Hlabels, list_elem_of_In.
    + simpl. rewrite !elem_of_cons. auto 10.
Qed.

End BondFacts.

(** ** What the extractors put in their tables *)

Lemma drop_duplicates_from_subset {A K} `{EqDecision K} (key : A -> K)
    (seen : list K) (l : list A) (x : A) :
  x ∈ drop_duplicates_from key seen l -> x ∈ l.
Proof.
  revert seen. induction l as [|y l IH]; intros seen; simpl; [done|].
  destruct (decide (key y ∈ seen)).
  - intros Hx. apply elem_of_cons. right. by eapply IH.
  - intros [->|Hx]%elem_of_cons; apply elem_of_cons; [by left|].
    right. by eapply IH.
Qed.

Lemma filter_all {A} (P : A -> Prop) `{!forall x, Decision (P x)} (l : list A) :
  Forall P l -> filter P l = l.
Proof.
  induction 1 as [|x l Hx _ IH]; [done|]. by rewrite filter_cons_True, IH.
Qed.

Lemma extend_rows_inv {A B} (body : A -> option (list B)) (l : list A)
    (rows : list B) (r : B) :
  extend_rows body l = Some rows -> r ∈ rows ->
  exists x rs, x ∈ l /\ body x = Some rs /\ r ∈ rs.
Proof.
  revert rows. induction l as [|x l IH]; intros rows; simpl.
  - intros [= <-] Hr. by apply elem_of_nil in Hr.
  - destruct (body x) as [rs|] eqn:Hx; [|done].
    destruct (extend_rows body l) as [rows'|]; [|done]. simpl.
    intros [= <-] [Hr|Hr]%elem_of_app.
    + exists x, rs. split; [apply elem_of_cons; by left|done].
    + destruct (IH rows' eq_refl Hr) as (x' & rs' & Hin & Hx' & Hr').
      exists x', rs'. split; [apply elem_of_cons; by right|done].
Qed.

Section ExtractorTables.
Context {rt : Runtime}.

Lemma role_rows_inv (tax : taxonomy) (silver_data : list PageRow)
    (rows : list RoleRow) (r : RoleRow) :
  role_rows tax silver_data = Some rows -> r ∈ rows ->
  exists row page_num canonical patterns pattern spans start end_,
    row ∈ silver_data
    /\ to_numeric (p_page_num row) = Some page_num
    /\ (canonical, patterns) ∈ tax /\ pattern ∈ patterns
    /\ re_finditer (regex_pattern pattern) (p_full_text row) = Matches spans
    /\ (start, end_) ∈ spans
    /\ r = role_of_match row page_num canonical (start, end_).
Proof.
  unfold role_rows. intros Hrows Hr.
  destruct (extend_rows_inv _ _ _ _ Hrows Hr) as (row & rs & Hrow & Hpage & Hr1).
  unfold roles_of_page in Hpage.
  destruct (to_numeric (p_page_num row)) as [page_num|] eqn:Hpn;
    [|injection Hpage as <-; by apply elem_of_nil in Hr1].
  destruct (extend_rows_inv _ _ _ _ Hpage Hr1)
    as ([canonical patterns] & rs2 & Hentry & Hrole & Hr2).
  simpl in Hrole.
  destruct (extend_rows_inv _ _ _ _ Hrole Hr2) as (pattern & rs3 & Hpat & Hp & Hr3).
  unfold roles_of_pattern in Hp.
  destruct (re_finditer _ _) as [spans| |] eqn:Hre;
    [|injection Hp as <-; by apply elem_of_nil in Hr3|done].
  injection Hp as <-.
  apply list_elem_of_fmap in Hr3 as ([start end_] & -> & Hspan).
  exists row, page_num, canonical, patterns, pattern, spans, start, end_.
  auto 10.
Qed.

Lemma deduplicate_subset (rows : list RoleRow) (r : RoleRow) :
  sorts_descending -> r ∈ deduplicate rows -> r ∈ rows.
Proof.
  intros Hsort. unfold deduplicate. destruct rows as [|r0 rows]; [done|].
  intros Hr. apply drop_duplicates_from_subset in Hr.
  by rewrite (proj1 (Hsort RoleRow evidence_len (r0 :: rows))) in Hr.
Qed.

Lemma extract_instruments_inv (tax : taxonomy) (silver_data : list PageRow)
    (candidates : list RoleRow) (r : RoleRow) :
  sorts_descending ->
  extract_instruments tax silver_data = Some candidates -> r ∈ candidates ->
  exists row page_num canonical patterns pattern spans start end_,
    row ∈ silver_data
    /\ to_numeric (p_page_num row) = Some page_num
    /\ (canonical, patterns) ∈ tax /\ pattern ∈ patterns
    /\ re_finditer (regex_pattern pattern) (p_full_text row) = Matches spans
    /\ (start, end_) ∈ spans
    /\ r = role_of_match row page_num canonical (start, end_).
Proof.
  intros Hsort. unfold extract_instruments.
  destruct (role_rows tax silver_data) as [rows|] eqn:Hrows; [|done].
  simpl. intros [= <-] Hr.
  apply (deduplicate_subset _ _ Hsort) in Hr. by eapply role_rows_inv.
Qed.

(** X11.  Every role candidate is backed by a match: when
    [extract_instruments] returns, each candidate it leaves was built from
    a span the engine returned for a pattern of the taxonomy on a page
    whose number is known, and carries the document and page of that
    page, the canonical name of the pattern's role and the offset of the
    match. *)
Theorem role_candidates_sound (tax : taxonomy) (silver_data : list PageRow)
    (candidates : list RoleRow) :
  sorts_descending ->
  extract_instruments tax silver_data = Some candidates ->
  Forall (fun r =>
            exists row page_num canonical patterns pattern spans start end_,
              row ∈ silver_data
              /\ to_numeric (p_page_num row) = Some page_num
              /\ (canonical, patterns) ∈ tax /\ pattern ∈ patterns
              /\ re_finditer (regex_pattern pattern) (p_full_text row)
                 = Matches spans
              /\ (start, end_) ∈ spans
              /\ i_doc_id r = p_doc_id row
              /\ i_page_num r = Some page_num
              /\ i_canonical_value r = canonical
              /\ i_match_start_idx r = Some start
              /\ i_raw_value r = slice (p_full_text row) start end_)
         candidates.
Proof.
  intros Hsort Hrun. rewrite Forall_forall. intros r Hr.
  destruct (extract_instruments_inv _ _ _ _ Hsort Hrun Hr)
    as (row & page_num & canonical & patterns & pattern & spans & start & end_
        & ? & ? & ? & ? & ? & ? & ->).
  exists row, page_num, canonical, patterns, pattern, spans, start, end_.
  simpl. auto 15.
Qed.

(** X12.  The extractor and the matchmaker compose: on the candidates
    [extract_instruments] leaves when it returns, [match_opportunities]
    never raises, and its table has exactly one row for each candidate, in
    their order, whatever the salary table. *)
Theorem extraction_then_matching (tax : taxonomy) (silver_data : list PageRow)
    (candidates : list RoleRow) (salaries : list SalaryRow) :
  sorts_descending ->
  extract_instruments tax silver_data = Some candidates ->
  exists opps,
    match_opportunities candidates salaries = Done opps
    /\ map role_part opps = map role_fields candidates
    /\ length opps = length candidates.
Proof.
  intros Hsort Hrun.
  assert (Forall kept candidates) as Hkept.
  { rewrite Forall_forall. intros r Hr.
    destruct (extract_instruments_inv _ _ _ _ Hsort Hrun Hr)
      as (row & page_num & canonical & patterns & pattern & spans & start & end_
          & _ & _ & _ & _ & _ & _ & ->).
    split; simpl; eauto. }
  clear Hrun.
  pose proof (final_rows_role_part (build_salaries_map salaries) candidates) as Hrows.
  rewrite (filter_all kept candidates Hkept) in Hrows.
  unfold match_opportunities. destruct candidates as [|c cs] eqn:Hc.
  - exists []. done.
  - destruct (omap _ (c :: cs)) as [|o l] eqn:Hf; [discriminate|].
    exists (o :: l). split; [done|]. split; [done|].
    by rewrite <- (length_map role_part), Hrows, length_map.
Qed.

(** X13.  Every row of the salary table comes from a match of the numeric
    pattern on a page whose number is known; its amount lies between 700.00
    and 45000.00, its score is 2, 3 or 5, and no negative keyword stands in
    its window.  The table holds the rows by descending score. *)
Theorem salary_table_sound (silver_data : list PageRow) :
  sorts_descending ->
  Forall (fun r =>
            exists row page_num m,
              row ∈ silver_data
              /\ to_numeric (p_page_num row) = Some page_num
              /\ m ∈ salary_finditer (p_full_text row)
              /\ s_doc_id r = p_doc_id row
              /\ s_page_num r = Some page_num
              /\ s_match_start_idx r = Some (m_start m)
              /\ s_raw_value r = slice (p_full_text row) (m_start m) (m_end m)
              /\ has_negative (p_full_text row) m = false
              /\ 70000 <= s_canonical_value r <= 4500000
              /\ (s_score r = 2 \/ s_score r = 3 \/ s_score r = 5))
         (extract_salaries silver_data)
  /\ StronglySorted (fun a b => s_score b <= s_score a) (extract_salaries silver_data)
  /\ extract_salaries silver_data ≡ₚ salary_rows silver_data.
Proof.
  intros Hsort.
  assert (extract_salaries silver_data
          = sort_values_desc SalaryRow s_score (salary_rows silver_data)
          \/ (extract_salaries silver_data = [] /\ salary_rows silver_data = []))
    as Hcase.
  { unfold extract_salaries. destruct (salary_rows silver_data); auto. }
  destruct (Hsort SalaryRow s_score (salary_rows silver_data)) as [Hperm Hsorted].
  assert (extract_salaries silver_data ≡ₚ salary_rows silver_data) as Hp.
  { destruct Hcase as [->|[-> ->]]; done. }
  split_and!; [|destruct Hcase as [->|[-> _]]; [done|constructor]|done].
  rewrite Forall_forall. intros r Hr. rewrite Hp in Hr.
  unfold salary_rows in Hr.
  apply list_elem_of_In, in_flat_map in Hr as (row & Hrow & Hr).
  unfold salaries_of_page in Hr.
  destruct (to_numeric (p_page_num row)) as [page_num|] eqn:Hpn; [|done].
  apply list_elem_of_In, list_elem_of_omap in Hr as (m & Hm & Hr).
  pose proof Hr as Hrow_eq. unfold salary_of_match in Hrow_eq.
  destruct (m_group2 m); [done|].
  destruct (judge _ _ _ _ _) as [[v s]|] eqn:Hj; [|done].
  injection Hrow_eq as <-. simpl.
  apply judge_iff in Hj as (Hgate & Hneg & _ & Hrange & Hscore).
  exists row, page_num, m. rewrite list_elem_of_In. split_and!; try done; try lia.
  rewrite Hscore.
  destruct (symbol_found m), (has_positive (p_full_text row) m), Hgate; auto; done.
Qed.

End ExtractorTables.

(** ** The numeric pattern *)

Lemma first_some_Some {A B} (f : A -> option B) (l : list A) (y : B) :
  first_some f l = Some y -> exists x, x ∈ l /\ f x = Some y.
Proof.
  induction l as [|x l IH]; simpl; [done|].
  destruct (f x) as [z|] eqn:Hx.
  - intros [= ->]. exists x. split; [apply elem_of_cons; by left|done].
  - intros Hy. destruct (IH Hy) as (x' & Hin & Hx'). exists x'.
    split; [apply elem_of_cons; by right|done].
Qed.

Lemma elem_of_down_from (hi lo x : nat) :
  x ∈ down_from hi lo -> (lo <= x <= hi)%nat.
Proof.
  unfold down_from. rewrite list_elem_of_In, <- in_rev, in_seq. lia.
Qed.

Lemma take_while_prefix {A} (p : A -> bool) (l : list A) (n : nat) :
  (n <= length (take_while p l))%nat ->
  (n <= length l)%nat /\ Forall (fun x => p x = true) (take n l).
Proof.
  revert n. induction l as [|x l IH]; intros n; simpl.
  - intros Hn. assert (n = 0)%nat as -> by lia. split; [lia|constructor].
  - destruct (p x) eqn:Hx; simpl; intros Hn.
    + destruct n as [|n]; [split; [lia|constructor]|].
      destruct (IH n ltac:(lia)) as [Hl Hall]. split; [lia|]. simpl. by constructor.
    + assert (n = 0)%nat as -> by lia. split; [lia|constructor].
Qed.

Section NumericPatternFacts.
Context {rt : Runtime}.

Lemma match_suffix_eq (t : list Z) :
  match_suffix t =
  let without := if lookahead_ok t then Some (0%nat, None) else None in
  match t with
  | c :: d1 :: d2 :: t' =>
      if (c =? 44) && (is_digit d1 && is_digit d2 && lookahead_ok t')
      then Some (3%nat, Some [d1; d2])
      else without
  | _ => without
  end.
Proof.
  unfold match_suffix. destruct t as [|c t]; [done|].
  destruct c as [|p|p]; [by destruct t as [|? [|? ?]]| |by destruct t as [|? [|? ?]]].
  do 6 (destruct p as [p|p|]; try by destruct t as [|? [|? ?]]).
Qed.

Lemma match_suffix_inv (t : list Z) (k : nat) (g3 : option (list Z)) :
  match_suffix t = Some (k, g3) ->
  (k <= length t)%nat
  /\ take k t = match g3 with Some d => 44 :: d | None => [] end
  /\ lookahead_ok (drop k t) = true
  /\ match g3 with
     | Some d => length d = 2%nat /\ Forall (fun c => is_digit c = true) d
     | None => True
     end.
Proof.
  rewrite match_suffix_eq.
  assert ((if lookahead_ok t then Some (0%nat, @None (list Z)) else None)
          = Some (k, g3) ->
          (k <= length t)%nat
          /\ take k t = match g3 with Some d => 44 :: d | None => [] end
          /\ lookahead_ok (drop k t) = true
          /\ match g3 with
             | Some d => length d = 2%nat /\ Forall (fun c => is_digit c = true) d
             | None => True
             end) as Hwithout.
  { destruct (lookahead_ok t) eqn:Hl; [|done]. intros [= <- <-].
    rewrite take_0. simpl. split_and!; try done; lia. }
  destruct t as [|c [|d1 [|d2 t']]]; try exact Hwithout.
  cbv zeta.
  destruct ((c =? 44) && (is_digit d1 && is_digit d2 && lookahead_ok t')) eqn:Hd;
    [|exact Hwithout].
  apply andb_true_iff in Hd as [Hc Hd]. apply Z.eqb_eq in Hc as ->.
  apply andb_true_iff in Hd as [Hd Hl]. apply andb_true_iff in Hd as [Hd1 Hd2].
  intros [= <- <-]. simpl. split_and!; try done; [lia|by repeat constructor].
Qed.

Lemma after_integer_inv (g1 : option (list Z)) (t : list Z) (n : nat)
    (r : RawMatch) :
  after_integer g1 t n = Some r ->
  (n <= length t)%nat ->
  rm_group1 r = g1 /\ rm_group2 r = take n t
  /\ (rm_len r <= length t)%nat
  /\ take (rm_len r) t
     = take n t ++ match rm_group3 r with Some d => 44 :: d | None => [] end
  /\ lookahead_ok (drop (rm_len r) t) = true
  /\ match rm_group3 r with
     | Some d => length d = 2%nat /\ Forall (fun c => is_digit c = true) d
     | None => True
     end.
Proof.
  unfold after_integer. intros Hr Hn.
  destruct (match_suffix (drop n t)) as [[k g3]|] eqn:Hs; [|done].
  injection Hr as <-. simpl.
  apply match_suffix_inv in Hs as (Hk & Htake & Hlook & Hshape).
  rewrite length_drop in Hk. rewrite drop_drop in Hlook.
  split_and!; try done; [lia|].
  by rewrite <- take_take_drop, Htake.
Qed.

Lemma group_run_eq (t : list Z) :
  group_run t =
  match t with
  | c :: d1 :: d2 :: d3 :: t' =>
      if (c =? 46) && (is_digit d1 && is_digit d2 && is_digit d3)
      then S (group_run t') else O
  | _ => O
  end.
Proof.
  destruct t as [|c t]; [done|].
  destruct c as [|p|p];
    [by destruct t as [|? [|? [|? ?]]]| |by destruct t as [|? [|? [|? ?]]]].
  do 6 (destruct p as [p|p|]; try by destruct t as [|? [|? [|? ?]]]).
Qed.

Lemma group_run_prefix (t : list Z) (n : nat) :
  (n <= group_run t)%nat ->
  (4 * n <= length t)%nat
  /\ Forall (fun c => is_digit c = true \/ c = 46) (take (4 * n) t).
Proof.
  revert t. induction n as [|n IH]; intros t Hn.
  - simpl. split; [lia|constructor].
  - rewrite group_run_eq in Hn.
    destruct t as [|c [|d1 [|d2 [|d3 t']]]]; try lia.
    destruct ((c =? 46) && (is_digit d1 && is_digit d2 && is_digit d3)) eqn:Hd;
      [|lia].
    apply andb_true_iff in Hd as [Hc Hd]. apply Z.eqb_eq in Hc as ->.
    apply andb_true_iff in Hd as [Hd Hd3]. apply andb_true_iff in Hd as [Hd1 Hd2].
    destruct (IH t' ltac:(lia)) as [Hlen Hall].
    replace (4 * S n)%nat with (4 + 4 * n)%nat by lia.
    split; [simpl in *; lia|].
    change (take (4 + 4 * n) (46 :: d1 :: d2 :: d3 :: t'))
      with (46 :: d1 :: d2 :: d3 :: take (4 * n) t').
    constructor; [by right|]. do 3 (constructor; [by left|]). done.
Qed.

Lemma match_number_inv (g1 : option (list Z)) (t : list Z) (r : RawMatch) :
  match_number g1 t = Some r ->
  rm_group1 r = g1
  /\ (rm_len r <= length t)%nat
  /\ take (rm_len r) t
     = rm_group2 r ++ match rm_group3 r with Some d => 44 :: d | None => [] end
  /\ lookahead_ok (drop (rm_len r) t) = true
  /\ (3 <= length (rm_group2 r))%nat
  /\ Forall (fun c => is_digit c = true \/ c = 46) (rm_group2 r)
  /\ match rm_group3 r with
     | Some d => length d = 2%nat /\ Forall (fun c => is_digit c = true) d
     | None => True
     end.
Proof.
  unfold match_number. destruct (grouped g1 t) as [r'|] eqn:Hg.
  - intros [= ->]. unfold grouped in Hg.
    apply first_some_Some in Hg as (k & Hk & Hg).
    apply first_some_Some in Hg as (n & Hn & Hr).
    apply elem_of_down_from in Hk, Hn.
    destruct (take_while_prefix is_digit t k) as [Hkl Hkd];
      [unfold digit_run in Hk; lia|].
    destruct (group_run_prefix (drop k t) n) as [Hnl Hnd]; [lia|].
    rewrite length_drop in Hnl.
    apply after_integer_inv in Hr as (H1 & H2 & Hlen & Htake & Hlook & Hshape);
      [|lia].
    rewrite H2 in *. split_and!; try done.
    + rewrite length_take. lia.
    + rewrite <- take_take_drop. apply Forall_app. split; [|done].
      eapply Forall_impl; [exact Hkd|]. auto.
  - intros Hb. unfold bare in Hb.
    apply first_some_Some in Hb as (n & Hn & Hr).
    apply elem_of_down_from in Hn.
    destruct (take_while_prefix is_digit t n) as [Hnl Hnd];
      [unfold digit_run in Hn; lia|].
    apply after_integer_inv in Hr as (H1 & H2 & Hlen & Htake & Hlook & Hshape);
      [|lia].
    rewrite H2 in *. split_and!; try done.
    + rewrite length_take. lia.
    + eapply Forall_impl; [exact Hnd|]. auto.
Qed.

Lemma match_here_inv (prev : option Z) (t : list Z) (r : RawMatch) :
  match_here prev t = Some r ->
  lookbehind_ok prev = true
  /\ (rm_len r <= length t)%nat
  /\ take (rm_len r) t = groups_text (rm_group1 r) (rm_group2 r) (rm_group3 r)
  /\ lookahead_ok (drop (rm_len r) t) = true
  /\ groups_shaped (rm_group1 r) (rm_group2 r) (rm_group3 r).
Proof.
  unfold match_here. destruct (lookbehind_ok prev) eqn:Hprev; [|done]. cbn [negb].
  assert (match_number None t = Some r ->
          true = true
          /\ (rm_len r <= length t)%nat
          /\ take (rm_len r) t = groups_text (rm_group1 r) (rm_group2 r) (rm_group3 r)
          /\ lookahead_ok (drop (rm_len r) t) = true
          /\ groups_shaped (rm_group1 r) (rm_group2 r) (rm_group3 r)) as Hplain.
  { intros Hnum. apply match_number_inv in Hnum
      as (Hg1 & Hlen & Htake & Hlook & H3 & Hdigits & Hshape).
    unfold groups_text, groups_shaped. rewrite Hg1. simpl. by split_and!. }
  destruct (starts_with [82; 36] t) eqn:Hstart; [|exact Hplain].
  destruct (first_some _ _) as [r'|] eqn:Hmarked; [|exact Hplain].
  intros [= ->]. clear Hplain.
  apply starts_with_spec in Hstart as [post ->].
  apply first_some_Some in Hmarked as (w & Hw & Hr).
  apply elem_of_down_from in Hw. simpl in Hw.
  change (drop 0 post) with post in Hw.
  destruct (take_while_prefix space post w) as [Hwl Hws]; [lia|].
  unfold after_prefix in Hr. revert Hr.
  destruct (match_number _ _) as [r0|] eqn:Hnum; [|done]. intros [= <-].
  apply match_number_inv in Hnum
    as (Hg1 & Hlen & Htake & Hlook & H3 & Hdigits & Hshape).
  simpl in *. rewrite length_drop in Hlen. rewrite drop_drop in Hlook.
  split_and!; try done.
  - lia.
  - unfold groups_text. rewrite Hg1. simpl. do 2 f_equal.
    rewrite <- take_take_drop, Htake. done.
  - unfold groups_shaped. rewrite Hg1. split_and!; try done. eauto.
Qed.

Lemma scan_spec (seen t : list Z) (skip : nat) :
  Forall (fun m => len seen + Z.of_nat skip <= m_start m /\ match_ok (seen ++ t) m)
         (scan (len seen) (last seen) skip t)
  /\ StronglySorted (fun a b => m_end a <= m_start b)
                    (scan (len seen) (last seen) skip t).
Proof.
  revert seen skip. induction t as [|c t IH]; intros seen skip.
  - simpl. split; constructor.
  - assert (len (seen ++ [c]) = len seen + 1) as Hlen
      by (unfold len; rewrite length_app; simpl; lia).
    assert (last (seen ++ [c]) = Some c) as Hlast by (by rewrite last_app_cons').
    assert ((seen ++ [c]) ++ t = seen ++ c :: t) as Happ
      by (by rewrite <- app_assoc).
    simpl. destruct skip as [|k].
    + destruct (match_here (last seen) (c :: t)) as [r|] eqn:Hhere.
      * apply match_here_inv in Hhere as (Hprev & Hl & Htake & Hlook & Hshape).
        destruct (IH (seen ++ [c]) (rm_len r - 1)%nat) as [Hall Hsorted].
        rewrite Hlen, Hlast in Hall, Hsorted. rewrite Happ in Hall.
        assert (3 <= rm_len r)%nat as H3.
        { pose proof (f_equal length Htake) as Hlt.
          rewrite length_take in Hlt. unfold groups_text in Hlt.
          rewrite !length_app in Hlt. destruct Hshape as (_ & Hg2 & _). lia. }
        split.
        -- constructor.
           ++ simpl. split; [lia|]. unfold match_ok, no_digit_around. simpl.
              split; [unfold len; lia|]. split; [lia|].
              split; [unfold len; rewrite length_app; simpl in *; lia|].
              split.
              { unfold slice, len.
                replace (Z.to_nat (Z.of_nat (length seen) + Z.of_nat (rm_len r)
                                   - Z.of_nat (length seen))) with (rm_len r) by lia.
                rewrite Nat2Z.id, drop_app_length. done. }
              split; [done|]. split.
              { intros d Hpos Hd. unfold len in Hd, Hpos.
                replace (Z.to_nat (Z.of_nat (length seen) - 1))
                  with (pred (length seen)) in Hd by lia.
                rewrite lookup_app_l in Hd by lia.
                rewrite <- last_lookup in Hd. rewrite Hd in Hprev.
                simpl in Hprev. by destruct (is_digit d). }
              { intros d Hd. unfold len in Hd.
                replace (Z.to_nat (Z.of_nat (length seen) + Z.of_nat (rm_len r)))
                  with (length seen + rm_len r)%nat in Hd by lia.
                rewrite lookup_app_r in Hd by lia.
                replace (length seen + rm_len r - length seen)%nat
                  with (rm_len r + 0)%nat in Hd by lia.
                rewrite <- lookup_drop in Hd.
                destruct (drop (rm_len r) (c :: t)) as [|e l]; [done|].
                simpl in Hd, Hlook. injection Hd as ->. by destruct (is_digit d). }
           ++ eapply Forall_impl; [exact Hall|]. simpl. intros m [Hm Hok].
              split; [lia|done].
        -- constructor; [done|]. simpl.
           eapply Forall_impl; [exact Hall|]. simpl. intros m [Hm _]. lia.
      * destruct (IH (seen ++ [c]) 0%nat) as [Hall Hsorted].
        rewrite Hlen, Hlast in Hall, Hsorted. rewrite Happ in Hall. split; [|done].
        eapply Forall_impl; [exact Hall|]. simpl. intros m [Hm Hok].
        split; [lia|done].
    + destruct (IH (seen ++ [c]) k) as [Hall Hsorted].
      rewrite Hlen, Hlast in Hall, Hsorted. rewrite Happ in Hall. split; [|done].
      eapply Forall_impl; [exact Hall|]. simpl. intros m [Hm Hok].
      split; [lia|done].
Qed.

(** X14.  The matches of the numeric pattern lie inside the text, each at least
    three characters long, one after the other without overlap, and none
    is next to a digit on either side. *)
Theorem numeric_matches_apart (t : list Z) :
  Forall (fun m => 0 <= m_start m /\ m_start m + 3 <= m_end m /\ m_end m <= len t
                   /\ no_digit_around t m)
         (salary_finditer t)
  /\ StronglySorted (fun a b => m_end a <= m_start b) (salary_finditer t).
Proof.
  destruct (scan_spec [] t 0) as [Hall Hsorted]. split; [|exact Hsorted].
  eapply Forall_impl; [exact Hall|]. simpl.
  intros m (_ & ? & ? & ? & _ & _ & ?). auto.
Qed.

(** X15.  The text a match covers is its groups set side by side: the currency
    marker "R$" with the white space after it, when present; the integer
    run, of three characters or more, all digits or grouping dots; and,
    when present, a comma and two fractional digits. *)
Theorem numeric_match_groups (t : list Z) :
  Forall (fun m =>
            slice t (m_start m) (m_end m)
            = groups_text (m_group1 m) (m_group2 m) (m_group3 m)
            /\ groups_shaped (m_group1 m) (m_group2 m) (m_group3 m))
         (salary_finditer t).
Proof.
  destruct (scan_spec [] t 0) as [Hall _].
  eapply Forall_impl; [exact Hall|]. simpl.
  intros m (_ & _ & _ & _ & ? & ? & _). auto.
Qed.

End NumericPatternFacts.

(** ** load_data *)

Lemma StronglySorted_weaken {A} (R1 R2 : A -> A -> Prop) (l : list A) :
  (forall x y, R1 x y -> R2 x y) -> StronglySorted R1 l -> StronglySorted R2 l.
Proof.
  intros Himpl. induction 1 as [|x l Hl IH Hx]; constructor; [done|].
  eapply Forall_impl; [exact Hx|]. auto.
Qed.

Section ManifestExampleSort.
Import Load LoadExample.

Lemma text_compare_eq (a b : list Z) : text_compare a b = Eq <-> a = b.
Proof.
  revert b. induction a as [|x a IH]; intros [|y b]; simpl; try done.
  destruct (Z.compare_spec x y) as [->|?|?].
  - rewrite IH. split; [by intros ->|by intros [= ->]].
  - split; [done|]. intros [= -> _]. lia.
  - split; [done|]. intros [= -> _]. lia.
Qed.

Lemma text_compare_opp (a b : list Z) :
  text_compare b a = CompOpp (text_compare a b).
Proof.
  revert b. induction a as [|x a IH]; intros [|y b]; simpl; try done.
  rewrite (Z.compare_antisym x y). destruct (x ?= y); simpl; auto.
Qed.

Lemma text_compare_lt_trans (a b c : list Z) :
  text_compare a b = Lt -> text_compare b c = Lt -> text_compare a c = Lt.
Proof.
  revert b c. induction a as [|x a IH]; intros [|y b] [|z c]; simpl; try done.
  destruct (Z.compare_spec x y) as [->|Hxy|Hxy]; try done.
  - destruct (Z.compare_spec y z) as [->|Hyz|Hyz]; try done. apply IH.
  - destruct (Z.compare_spec y z) as [->|Hyz|Hyz]; try done; intros _ _.
    + destruct (Z.compare_spec x z); try done; lia.
    + destruct (Z.compare_spec x z); try done; lia.
Qed.

Lemma date_afterb_spec (a b : option Z) :
  date_afterb a b = true <-> date_after a b.
Proof. destruct a, b; simpl; try done. apply Z.leb_le. Qed.

Lemma row_le_total (x y : ManifestRow) : row_le x y = false -> row_le y x = true.
Proof.
  unfold row_le. rewrite (text_compare_opp (mf_doc_id x) (mf_doc_id y)).
  destruct (text_compare (mf_doc_id x) (mf_doc_id y)); simpl; try done.
  destruct (mf_downloaded_at x), (mf_downloaded_at y); simpl; try done.
  rewrite Z.leb_gt, Z.leb_le. lia.
Qed.

Lemma row_le_trans (x y z : ManifestRow) :
  row_le x y = true -> row_le y z = true -> row_le x z = true.
Proof.
  unfold row_le.
  destruct (text_compare (mf_doc_id x) (mf_doc_id y)) eqn:Hxy; try done;
    destruct (text_compare (mf_doc_id y) (mf_doc_id z)) eqn:Hyz; try done.
  - apply text_compare_eq in Hxy, Hyz. rewrite Hxy, Hyz.
    rewrite (proj2 (text_compare_eq _ _) eq_refl).
    destruct (mf_downloaded_at x), (mf_downloaded_at y), (mf_downloaded_at z);
      simpl; try done. rewrite !Z.leb_le. lia.
  - apply text_compare_eq in Hxy. by rewrite Hxy, Hyz.
  - apply text_compare_eq in Hyz. by rewrite <- Hyz, Hxy.
  - by rewrite (text_compare_lt_trans _ _ _ Hxy Hyz).
Qed.

Lemma insert_row_perm (x : ManifestRow) (l : list ManifestRow) :
  insert_row x l ≡ₚ x :: l.
Proof.
  induction l as [|y l IH]; simpl; [done|].
  destruct (row_le x y); [done|]. by rewrite IH, Permutation_swap.
Qed.

Lemma insert_row_sorted (x : ManifestRow) (l : list ManifestRow) :
  StronglySorted (fun a b => row_le a b = true) l ->
  StronglySorted (fun a b => row_le a b = true) (insert_row x l).
Proof.
  induction 1 as [|y l Hl IH Hy]; simpl; [repeat constructor|].
  destruct (row_le x y) eqn:Hxy.
  - constructor; [by constructor|]. constructor; [done|].
    eapply Forall_impl; [exact Hy|]. intros z Hz. by eapply row_le_trans.
  - constructor; [done|]. rewrite Forall_forall. intros z Hz.
    rewrite insert_row_perm in Hz.
    apply elem_of_cons in Hz as [->|Hz]; [by apply row_le_total|].
    rewrite Forall_forall in Hy. by apply Hy.
Qed.

Lemma example_sorts_manifest : sorts_manifest sort_manifest.
Proof.
  intros l. split.
  - induction l as [|x l IH]; [done|]. simpl. by rewrite insert_row_perm, IH.
  - assert (StronglySorted (fun a b => row_le a b = true) (sort_manifest l)) as Hs.
    { induction l as [|x l IH]; [constructor|]. simpl. by apply insert_row_sorted. }
    eapply StronglySorted_weaken; [|exact Hs].
    intros x y Hle Hdoc. unfold row_le in Hle. rewrite Hdoc in Hle.
    rewrite (proj2 (text_compare_eq _ _) eq_refl) in Hle.
    by apply date_afterb_spec.
Qed.

End ManifestExampleSort.

Lemma drop_duplicates_from_nodup {A K} `{EqDecision K} (key : A -> K)
    (seen : list K) (l : list A) :
  NoDup (map key (drop_duplicates_from key seen l))
  /\ Forall (fun x => key x ∉ seen) (drop_duplicates_from key seen l).
Proof.
  revert seen. induction l as [|x l IH]; intros seen; simpl.
  - split; constructor.
  - destruct (decide (key x ∈ seen)) as [Hin|Hnot]; [apply IH|].
    destruct (IH (key x :: seen)) as [Hnd Hall]. split.
    + simpl. constructor; [|done]. intros Hx.
      apply list_elem_of_fmap in Hx as (y & Hy & Hin).
      rewrite Forall_forall in Hall. apply (Hall y Hin).
      rewrite <- Hy. apply elem_of_cons. by left.
    + constructor; [done|]. eapply Forall_impl; [exact Hall|].
      intros y Hy Hin. apply Hy. apply elem_of_cons. by right.
Qed.

Lemma filter_rev {A} (P : A -> Prop) `{!forall x, Decision (P x)} (l : list A) :
  filter P (rev l) = rev (filter P l).
Proof.
  induction l as [|x l IH]; [done|]. simpl.
  rewrite filter_app, IH, (filter_cons _ x l), (filter_cons _ x []), filter_nil.
  destruct (decide (P x)); simpl; [done|]. by rewrite app_nil_r.
Qed.

Lemma head_rev_last {A} (l : list A) : head (rev l) = last l.
Proof. by rewrite <- last_rev_head, rev_involutive. Qed.

Lemma filter_key_nodup {A K} `{EqDecision K} (key : A -> K) (l : list A) (k : K) :
  NoDup (map key l) ->
  filter (fun x => key x = k) l = option_list (head (filter (fun x => key x = k) l)).
Proof.
  induction l as [|x l IH]; [done|]. simpl. intros Hnd.
  apply NoDup_cons in Hnd as [Hx Hnd]. rewrite filter_cons.
  destruct (decide (key x = k)) as [<-|Hne]; [|by apply IH].
  simpl. f_equal. apply filter_none. rewrite Forall_forall. intros y Hy Heq.
  apply Hx. rewrite <- Heq. apply list_elem_of_fmap. eauto.
Qed.

Lemma flat_map_singletons {A B} (f : A -> list B) (g : A -> B) (l : list A) :
  (forall x, f x = [g x]) -> flat_map f l = map g l.
Proof.
  intros Hfg. induction l as [|x l IH]; [done|]. simpl. by rewrite Hfg, IH.
Qed.

Section LoadFacts.
Import Load.
Variable sort : list ManifestRow -> list ManifestRow.

Lemma deduplicate_manifest_nodup (mf : ManifestFile) :
  NoDup (map mf_doc_id (deduplicate_manifest sort mf)).
Proof.
  unfold deduplicate_manifest.
  destruct (bool_decide (NoDup (map mf_doc_id (mf_rows mf)))) eqn:Hnd.
  - by apply bool_decide_eq_true in Hnd.
  - destruct (has_column "downloaded_at" (mf_columns mf)).
    + apply drop_duplicates_from_nodup.
    + unfold drop_duplicates_last. rewrite map_rev, <- Permutation_rev.
      apply drop_duplicates_from_nodup.
Qed.

Lemma merge_left_nodup (silver : list SilverRow) (manifest : list ManifestRow) :
  NoDup (map mf_doc_id manifest) ->
  merge_left silver manifest
  = map (fun s => (s, head (filter (fun m => mf_doc_id m = sv_doc_id s) manifest)))
        silver.
Proof.
  intros Hnd. unfold merge_left. apply flat_map_singletons. intros s.
  rewrite (filter_key_nodup mf_doc_id manifest (sv_doc_id s) Hnd).
  by destruct (head _).
Qed.

(** X16.  Given a Silver file with the three required columns and a manifest
    with a [doc_id] column, [load_data] returns, and the page table has the
    rows of Silver, each once and in their order, however often the
    manifest lists a document. *)
Theorem load_data_keeps_pages (sf : SilverFile) (mf : ManifestFile) :
  Forall (fun c => c ∈ sv_columns sf) required_silver_cols ->
  utf8 "doc_id" ∈ mf_columns mf ->
  exists pages,
    load_data sort (Some sf) (Some mf) = inr pages
    /\ map page_part pages = map silver_part (sv_rows sf).
Proof.
  intros Hcols Hdoc. unfold load_data.
  assert (forallb (fun c => bool_decide (c ∈ sv_columns sf)) required_silver_cols
          = true) as ->.
  { apply forallb_forall. intros c Hc. apply bool_decide_eq_true.
    rewrite Forall_forall in Hcols. by apply Hcols, list_elem_of_In. }
  unfold has_column at 1. rewrite (bool_decide_eq_true_2 _ Hdoc). simpl.
  eexists. split; [done|].
  rewrite (merge_left_nodup _ _ (deduplicate_manifest_nodup mf)).
  rewrite !map_map. done.
Qed.

Lemma date_after_refl (a : option Z) : date_after a a.
Proof. destruct a; simpl; [lia|done]. Qed.

Lemma chosen_row (mf : ManifestFile) (d : list Z) :
  sorts_manifest sort ->
  let ms := filter (fun m => mf_doc_id m = d) (mf_rows mf) in
  match head (filter (fun m => mf_doc_id m = d) (deduplicate_manifest sort mf)) with
  | None => ms = []
  | Some m =>
      m ∈ ms
      /\ (utf8 "downloaded_at" ∈ mf_columns mf ->
          forall m', m' ∈ ms -> date_after (mf_downloaded_at m) (mf_downloaded_at m'))
      /\ (utf8 "downloaded_at" ∉ mf_columns mf -> last ms = Some m)
  end.
Proof.
  intros Hsort ms. unfold deduplicate_manifest.
  destruct (bool_decide (NoDup (map mf_doc_id (mf_rows mf)))) eqn:Hnd.
  - apply bool_decide_eq_true in Hnd. fold ms.
    pose proof (filter_key_nodup mf_doc_id (mf_rows mf) d Hnd) as Hone. fold ms in Hone.
    destruct (head ms) as [m|]; [|done]. simpl in Hone. rewrite Hone.
    split_and!; [apply elem_of_cons; by left| |done].
    intros _ m' [->|[]%elem_of_nil]%elem_of_cons. apply date_after_refl.
  - destruct (has_column "downloaded_at" (mf_columns mf)) eqn:Hcol.
    + apply bool_decide_eq_true in Hcol.
      rewrite filter_drop_duplicates.
      destruct (Hsort (mf_rows mf)) as [Hperm Hsorted].
      destruct (head (filter (fun m => mf_doc_id m = d) (sort (mf_rows mf))))
        as [m|] eqn:Hhead; simpl.
      * apply head_filter_split in Hhead as (l1 & l2 & Hs & Hl1 & Hm).
        assert (m ∈ ms) as Hin.
        { apply list_elem_of_filter. split; [done|].
          rewrite <- Hperm, Hs. apply elem_of_app. right. apply elem_of_cons. by left. }
        split_and!; [done| |done].
        intros _ m' [Hd' Hin']%list_elem_of_filter.
        rewrite <- Hperm, Hs in Hin'. rewrite Hs in Hsorted.
        apply elem_of_app in Hin' as [Hin'|Hin'].
        -- rewrite Forall_forall in Hl1. by destruct (Hl1 m' Hin').
        -- apply elem_of_cons in Hin' as [->|Hin']; [apply date_after_refl|].
           apply StronglySorted_app_1_r, StronglySorted_cons in Hsorted as [Hall _].
           rewrite Forall_forall in Hall. apply Hall; [done|congruence].
      * destruct ms as [|m0 ms'] eqn:Hms; [done|]. exfalso.
        assert (m0 ∈ filter (fun m => mf_doc_id m = d) (sort (mf_rows mf))) as Hin.
        { rewrite Hperm. fold ms. rewrite Hms. apply elem_of_cons. by left. }
        destruct (filter _ (sort (mf_rows mf))); [by apply elem_of_nil in Hin|done].
    + apply bool_decide_eq_false in Hcol.
      unfold drop_duplicates_last.
      rewrite filter_rev, filter_drop_duplicates, filter_rev. fold ms.
      rewrite !head_rev_last.
      destruct (last ms) as [m|] eqn:Hlast; simpl.
      * split_and!; [|done|done].
        rewrite last_lookup in Hlast. by eapply list_elem_of_lookup_2.
      * by destruct ms using rev_ind; [|rewrite last_app_cons' in Hlast].
Qed.

(** X17.  When the manifest has a column [source_name] and Silver has none, each
    page row gets the source of the manifest row of its document: the
    latest downloaded one when the manifest lists the document several
    times with a download date, the last in file order when it has no
    dates, and "unknown_source" when the manifest does not list the
    document or gives no source. *)
Theorem load_data_resolves_source (sf : SilverFile) (mf : ManifestFile) :
  sorts_manifest sort ->
  Forall (fun c => c ∈ sv_columns sf) required_silver_cols ->
  utf8 "doc_id" ∈ mf_columns mf ->
  utf8 "source_name" ∈ mf_columns mf ->
  utf8 "source_name" ∉ sv_columns sf ->
  exists pages,
    load_data sort (Some sf) (Some mf) = inr pages
    /\ Forall2 (source_resolved mf) (sv_rows sf) pages.
Proof.
  intros Hsort Hcols Hdoc Hsrc Hnosrc. unfold load_data.
  assert (forallb (fun c => bool_decide (c ∈ sv_columns sf)) required_silver_cols
          = true) as ->.
  { apply forallb_forall. intros c Hc. apply bool_decide_eq_true.
    rewrite Forall_forall in Hcols. by apply Hcols, list_elem_of_In. }
  unfold has_column.
  rewrite (bool_decide_eq_true_2 _ Hdoc), (bool_decide_eq_true_2 _ Hsrc),
    (bool_decide_eq_false_2 _ Hnosrc). simpl.
  eexists. split; [done|].
  rewrite (merge_left_nodup _ _ (deduplicate_manifest_nodup mf)), map_map.
  induction (sv_rows sf) as [|s l IH]; [constructor|].
  simpl. constructor; [|exact IH].
  unfold source_resolved, page_of. simpl.
  pose proof (chosen_row mf (sv_doc_id s) Hsort) as Hchosen. cbv zeta in Hchosen.
  destruct (head (filter _ (deduplicate_manifest sort mf))) as [m|].
  - destruct Hchosen as (Hin & Hdate & Hlast).
    destruct (filter _ (mf_rows mf)) as [|m0 ms] eqn:Hms;
      [by apply elem_of_nil in Hin|].
    exists m. auto.
  - by rewrite Hchosen.
Qed.

End LoadFacts.

(** ** The further properties at work on the sample tables *)

Lemma other_pages_do_not_matter_witness :
  opportunity_of (rt := Example.runtime)
    (build_salaries_map [sample_salary 200 5]) (sample_role 100)
  = opportunity_of (rt := Example.runtime)
      (build_salaries_map [other_page_salary; sample_salary 200 5; other_page_salary])
      (sample_role 100).
Proof.
  apply (other_pages_do_not_matter (rt := Example.runtime)).
  intros page_num [= <-]. vm_compute. reflexivity.
Defined.

Lemma link_rank_order_independent_witness :
  exists o1 o2,
    opportunity_of (rt := Example.runtime)
      (build_salaries_map [sample_salary_of 500000 200 5; sample_salary_of 800000 0 5])
      (sample_role 100) = Some o1
    /\ opportunity_of (rt := Example.runtime)
         (build_salaries_map [sample_salary_of 800000 0 5; sample_salary_of 500000 200 5])
         (sample_role 100) = Some o2
    /\ salario_score o1 = salario_score o2
    /\ distancia_chars o1 = distancia_chars o2
    /\ salario_valor o1 = Some 500000 /\ salario_valor o2 = Some 800000.
Proof.
  pose proof (link_rank_order_independent (rt := Example.runtime)
                [sample_salary_of 500000 200 5; sample_salary_of 800000 0 5]
                [sample_salary_of 800000 0 5; sample_salary_of 500000 200 5]
                (sample_role 100) (perm_swap _ _ _)) as Hsame.
  destruct (opportunity_of (build_salaries_map
              [sample_salary_of 500000 200 5; sample_salary_of 800000 0 5]) _)
    as [o1|] eqn:H1; [|vm_compute in H1; discriminate].
  destruct (opportunity_of (build_salaries_map
              [sample_salary_of 800000 0 5; sample_salary_of 500000 200 5]) _)
    as [o2|] eqn:H2; [|vm_compute in H2; discriminate].
  destruct Hsame as (_ & _ & Hscore & Hdist).
  exists o1, o2. split_and!; try done.
  - vm_compute in H1. by injection H1 as <-.
  - vm_compute in H2. by injection H2 as <-.
Defined.

Lemma detect_bond_priority_witness :
  detect_bond (rt := Example.runtime) (utf8 "bolsa em regime clt") = utf8 "CLT"
  /\ re_search (Runtime := Example.runtime) (utf8 "bolsa") (utf8 "bolsa em regime clt")
     = true.
Proof.
  split; [|vm_compute; reflexivity].
  apply (proj1 (detect_bond_priority (rt := Example.runtime)
                  (utf8 "bolsa em regime clt"))
           [] (utf8 "CLT", map utf8 ["clt"; "carteira assinada"; "regime celetista"]%string)
           (tail BOND_KEYWORDS)).
  - reflexivity.
  - vm_compute. reflexivity.
  - constructor.
Defined.

Lemma role_candidates_sound_witness :
  exists candidates,
    extract_instruments (rt := Example.runtime) fagote_taxonomy
      [sample_page "fagote fagotista"] = Some candidates
    /\ length candidates = 1%nat
    /\ Forall (fun r => i_canonical_value r = utf8 "Fagote" /\ i_page_num r = Some 1)
              candidates.
Proof.
  assert (extract_instruments (rt := Example.runtime) fagote_taxonomy
            [sample_page "fagote fagotista"]
          = Some (default [] (extract_instruments (rt := Example.runtime)
                                fagote_taxonomy [sample_page "fagote fagotista"])))
    as Hrun by (vm_compute; reflexivity).
  eexists. split; [exact Hrun|]. split; [vm_compute; reflexivity|].
  eapply Forall_impl;
    [exact (role_candidates_sound (rt := Example.runtime) fagote_taxonomy
              [sample_page "fagote fagotista"] _ example_sorts_descending Hrun)|].
  intros r (row & page_num & canonical & patterns & pattern & spans & start & end_
            & Hrow & Hpn & Htax & _ & _ & _ & _ & Hp & Hc & _).
  apply list_elem_of_singleton in Hrow as ->.
  apply list_elem_of_singleton in Htax. injection Htax as -> _.
  simpl in Hpn. injection Hpn as <-. done.
Defined.

Lemma extraction_then_matching_witness :
  exists candidates opps,
    extract_instruments (rt := Example.runtime) fagote_taxonomy
      [sample_page "fagote fagotista"] = Some candidates
    /\ match_opportunities (rt := Example.runtime) candidates [] = Done opps
    /\ length opps = length candidates
    /\ length candidates = 1%nat.
Proof.
  assert (extract_instruments (rt := Example.runtime) fagote_taxonomy
            [sample_page "fagote fagotista"]
          = Some (default [] (extract_instruments (rt := Example.runtime)
                                fagote_taxonomy [sample_page "fagote fagotista"])))
    as Hrun by (vm_compute; reflexivity).
  destruct (extraction_then_matching (rt := Example.runtime) fagote_taxonomy
              [sample_page "fagote fagotista"] _ [] example_sorts_descending Hrun)
    as (opps & Hmatch & _ & Hlen).
  eexists _, opps. split; [exact Hrun|]. split; [exact Hmatch|].
  split; [exact Hlen|vm_compute; reflexivity].
Defined.

Lemma salary_table_sound_witness :
  StronglySorted (fun a b => s_score b <= s_score a)
    (extract_salaries (rt := Example.runtime)
       [sample_page "R$ 5.000,00 ou salario de R$ 6.000,00"])
  /\ map s_score
       (extract_salaries (rt := Example.runtime)
          [sample_page "R$ 5.000,00 ou salario de R$ 6.000,00"]) = [5; 5].
Proof.
  split; [|vm_compute; reflexivity].
  exact (proj1 (proj2 (salary_table_sound (rt := Example.runtime)
                         [sample_page "R$ 5.000,00 ou salario de R$ 6.000,00"]
                         example_sorts_descending))).
Defined.

Lemma load_data_keeps_pages_witness :
  exists pages,
    Load.load_data LoadExample.sort_manifest
      (Some LoadExample.silver) (Some LoadExample.manifest) = inr pages
    /\ map Load.page_part pages
       = map Load.silver_part (Load.sv_rows LoadExample.silver)
    /\ map p_source_name pages
       = map utf8 ["OSB 2026"; "OSB 2026"; "unknown_source"]%string.
Proof.
  destruct (load_data_keeps_pages LoadExample.sort_manifest
              LoadExample.silver LoadExample.manifest)
    as (pages & Hrun & Hkeep).
  - apply Forall_fold_right. simpl.
    split_and!; try done; apply (bool_decide_unpack _); vm_compute; exact I.
  - apply (bool_decide_unpack _). vm_compute. exact I.
  - exists pages. split; [done|]. split; [done|].
    vm_compute in Hrun. injection Hrun as <-. vm_compute. reflexivity.
Defined.

Lemma load_data_resolves_source_witness :
  exists pages,
    Load.load_data LoadExample.sort_manifest
      (Some LoadExample.silver) (Some LoadExample.manifest) = inr pages
    /\ Forall2 (source_resolved LoadExample.manifest)
               (Load.sv_rows LoadExample.silver) pages.
Proof.
  apply (load_data_resolves_source LoadExample.sort_manifest
           LoadExample.silver LoadExample.manifest example_sorts_manifest).
  - apply Forall_fold_right. simpl.
    split_and!; try done; apply (bool_decide_unpack _); vm_compute; exact I.
  - apply (bool_decide_unpack _). vm_compute. exact I.
  - apply (bool_decide_unpack _). vm_compute. exact I.
  - apply (bool_decide_unpack _). vm_compute. exact I.
Defined.

(** ** A formatted amount read back by the numeric pattern *)

Lemma count_from_elem (n lo : Z) (count : nat) :
  lo <= n < lo + Z.of_nat count -> In n (count_from lo count).
Proof.
  revert lo. induction count as [|k IH]; intros lo Hn; simpl; [lia|].
  destruct (decide (n = lo)) as [->|]; [by left|right; apply IH; lia].
Qed.

Lemma integer_texts_shaped :
  forallb (fun n => integer_shape n (integer_text n)) (count_from 700 (Z.to_nat 44301)) = true.
Proof. vm_compute. reflexivity. Qed.

Lemma integer_text_shape (n : Z) :
  700 <= n <= 45000 -> integer_shape n (integer_text n) = true.
Proof.
  intros Hn. pose proof integer_texts_shaped as Hall.
  rewrite forallb_forall in Hall. apply Hall, count_from_elem. rewrite Z2Nat.id; lia.
Qed.

Lemma swap_marks_app (t1 t2 : list Z) :
  swap_marks (t1 ++ t2) = swap_marks t1 ++ swap_marks t2.
Proof. unfold swap_marks, replace_char. by rewrite !flat_map_app. Qed.

Lemma ascii_digit_bounds (c : Z) : ascii_digit c = true <-> 48 <= c <= 57.
Proof. unfold ascii_digit. rewrite andb_true_iff, !Z.leb_le. done. Qed.

Lemma two_digits_ascii (c : Z) :
  0 <= c < 100 ->
  ascii_digit (48 + c / 10) = true /\ ascii_digit (48 + c mod 10) = true.
Proof.
  intros Hc. rewrite !ascii_digit_bounds.
  pose proof (Z.mod_pos_bound c 10 ltac:(lia)).
  assert (0 <= c / 10 < 10)
    by (split; [apply Z.div_pos; lia|apply Z.div_lt_upper_bound; lia]).
  lia.
Qed.

Lemma swap_marks_digit (c : Z) : ascii_digit c = true -> swap_marks [c] = [c].
Proof.
  rewrite ascii_digit_bounds. intros Hc. unfold swap_marks, replace_char. simpl.
  destruct (Z.eqb_spec c 44); [lia|]. simpl.
  destruct (Z.eqb_spec c 46); [lia|]. simpl.
  destruct (Z.eqb_spec c 88); [lia|]. done.
Qed.

Lemma formatar_real_parts (val : Z) :
  0 <= val ->
  formatar_real (Some val)
  = [82; 36; 32] ++ integer_text (val / 100)
      ++ [44; 48 + val mod 100 / 10; 48 + val mod 100 mod 10].
Proof.
  intros Hval. unfold formatar_real, format_amount.
  change (replace_char 88 [46] (replace_char 46 [44] (replace_char 44 [88] ?t)))
    with (swap_marks t).
  destruct (Z.ltb_spec val 0); [lia|]. rewrite Z.abs_eq by done.
  rewrite !swap_marks_app. unfold two_digits.
  destruct (two_digits_ascii (val mod 100)) as [H1 H2];
    [apply Z.mod_pos_bound; lia|].
  change [48 + val mod 100 / 10; 48 + val mod 100 mod 10]
    with ([48 + val mod 100 / 10] ++ [48 + val mod 100 mod 10]).
  rewrite swap_marks_app, (swap_marks_digit _ H1), (swap_marks_digit _ H2).
  done.
Qed.

Section ReadBack.
Context {rt : Runtime}.
Hypothesis Hrt : ascii_classes.

Lemma ascii_is_digit (c : Z) : ascii_digit c = true -> is_digit c = true.
Proof.
  rewrite ascii_digit_bounds. intros Hc. unfold is_digit.
  destruct Hrt as (Hd & _). by rewrite (Hd c Hc).
Qed.

Lemma comma_not_digit : is_digit 44 = false.
Proof. unfold is_digit. destruct Hrt as (_ & -> & _). done. Qed.

Lemma stop_not_digit : is_digit 46 = false.
Proof. unfold is_digit. destruct Hrt as (_ & _ & -> & _). done. Qed.

Lemma ascii_not_stop (c : Z) : ascii_digit c = true -> (c =? 46) = false.
Proof. rewrite ascii_digit_bounds. intros Hc. apply Z.eqb_neq. lia. Qed.

Lemma suffix_of_cents (e f : Z) :
  ascii_digit e = true -> ascii_digit f = true ->
  match_suffix [44; e; f] = Some (3%nat, Some [e; f]).
Proof.
  intros He Hf. rewrite match_suffix_eq. cbn -[is_digit].
  by rewrite (ascii_is_digit _ He), (ascii_is_digit _ Hf).
Qed.

Lemma number_of_shape (g1 : option (list Z)) (n : Z) (g : list Z) (e f : Z) :
  integer_shape n g = true -> ascii_digit e = true -> ascii_digit f = true ->
  match_number g1 (g ++ [44; e; f])
  = Some {| rm_len := length g + 3; rm_group1 := g1; rm_group2 := g;
            rm_group3 := Some [e; f] |}.
Proof.
  intros Hg He Hf. pose proof (suffix_of_cents e f He Hf) as Hs.
  pose proof comma_not_digit as H44. pose proof stop_not_digit as H46.
  destruct g as [|a [|b [|c [|d [|x [|y [|??]]]]]]]; try done;
    simpl in Hg; rewrite !andb_true_iff in Hg.
  - destruct Hg as [(Ha & Hb & Hc & _) _].
    unfold match_number, grouped, bare, digit_run.
    repeat (cbn -[is_digit Z.eqb match_suffix group_run after_integer];
            rewrite ?group_run_eq,
              ?(ascii_is_digit _ Ha), ?(ascii_is_digit _ Hb), ?(ascii_is_digit _ Hc),
              ?(ascii_not_stop _ Hb), ?(ascii_not_stop _ Hc), ?H44).
    unfold after_integer. cbn -[match_suffix]. by rewrite Hs.
  - destruct Hg as [[Hp (Ha & Hb & Hc & Hd & _)] _].
    apply Z.eqb_eq in Hp as ->.
    unfold match_number, grouped, digit_run.
    repeat (cbn -[is_digit Z.eqb match_suffix group_run after_integer];
            rewrite ?group_run_eq,
              ?(ascii_is_digit _ Ha), ?(ascii_is_digit _ Hb), ?(ascii_is_digit _ Hc),
              ?(ascii_is_digit _ Hd), ?H46).
    unfold after_integer. cbn -[match_suffix]. by rewrite Hs.
  - destruct Hg as [[Hp (Ha & Hb & Hc & Hd & Hx & _)] _].
    apply Z.eqb_eq in Hp as ->.
    unfold match_number, grouped, digit_run.
    repeat (cbn -[is_digit Z.eqb match_suffix group_run after_integer];
            rewrite ?group_run_eq,
              ?(ascii_is_digit _ Ha), ?(ascii_is_digit _ Hb), ?(ascii_is_digit _ Hc),
              ?(ascii_is_digit _ Hd), ?(ascii_is_digit _ Hx), ?H46).
    unfold after_integer. cbn -[match_suffix]. by rewrite Hs.
Qed.

Lemma digits_value_ascii (t : list Z) :
  forallb ascii_digit t = true ->
  digits_value t = Some (fold_left (fun v c => 10 * v + (c - 48)) t 0).
Proof.
  unfold digits_value. generalize 0. induction t as [|c t IH]; intros v; simpl; [done|].
  rewrite andb_true_iff. intros [Hc Ht]. destruct Hrt as (Hd & _).
  rewrite (Hd c) by (by apply ascii_digit_bounds). by apply IH.
Qed.

Lemma value_of_shape (n : Z) (g : list Z) :
  integer_shape n g = true -> digits_value (replace_char 46 [] g) = Some n.
Proof.
  intros Hg.
  destruct g as [|a [|b [|c [|d [|x [|y [|??]]]]]]]; try done;
    simpl in Hg; rewrite !andb_true_iff in Hg.
  - destruct Hg as [(Ha & Hb & Hc & _) Hn]. apply Z.eqb_eq in Hn.
    unfold replace_char. cbn -[Z.eqb digits_value].
    rewrite (ascii_not_stop _ Ha), (ascii_not_stop _ Hb), (ascii_not_stop _ Hc).
    cbn -[digits_value]. rewrite digits_value_ascii by (simpl; by rewrite Ha, Hb, Hc).
    simpl. f_equal. lia.
  - destruct Hg as [[Hp (Ha & Hb & Hc & Hd & _)] Hn].
    apply Z.eqb_eq in Hn. apply Z.eqb_eq in Hp as ->.
    unfold replace_char. cbn -[Z.eqb digits_value]. change (46 =? 46) with true.
    rewrite (ascii_not_stop _ Ha), (ascii_not_stop _ Hb), (ascii_not_stop _ Hc),
      (ascii_not_stop _ Hd).
    cbn -[digits_value]. rewrite digits_value_ascii by (simpl; by rewrite Ha, Hb, Hc, Hd).
    simpl. f_equal. lia.
  - destruct Hg as [[Hp (Ha & Hb & Hc & Hd & Hx & _)] Hn].
    apply Z.eqb_eq in Hn. apply Z.eqb_eq in Hp as ->.
    unfold replace_char. cbn -[Z.eqb digits_value]. change (46 =? 46) with true.
    rewrite (ascii_not_stop _ Ha), (ascii_not_stop _ Hb), (ascii_not_stop _ Hc),
      (ascii_not_stop _ Hd), (ascii_not_stop _ Hx).
    cbn -[digits_value]. rewrite digits_value_ascii by (simpl; by rewrite Ha, Hb, Hc, Hd, Hx).
    simpl. f_equal. lia.
Qed.

Lemma shape_head (n : Z) (g : list Z) :
  integer_shape n g = true ->
  exists a g', g = a :: g' /\ ascii_digit a = true.
Proof.
  intros Hg.
  destruct g as [|a [|b [|c [|d [|x [|y [|??]]]]]]]; try done;
    simpl in Hg; rewrite !andb_true_iff in Hg; exists a; eexists; (split; [done|]);
    [destruct Hg as [(Ha & _) _]|destruct Hg as [[_ (Ha & _)] _]
    |destruct Hg as [[_ (Ha & _)] _]]; done.
Qed.

Lemma match_here_of_shape (n : Z) (g : list Z) (e f : Z) :
  integer_shape n g = true -> ascii_digit e = true -> ascii_digit f = true ->
  match_here None ([82; 36; 32] ++ g ++ [44; e; f])
  = Some {| rm_len := 3 + (length g + 3); rm_group1 := Some [82; 36; 32];
            rm_group2 := g; rm_group3 := Some [e; f] |}.
Proof.
  intros Hg He Hf.
  pose proof (number_of_shape (Some [82; 36; 32]) n g e f Hg He Hf) as Hnum.
  destruct (shape_head n g Hg) as (a & g' & -> & Ha).
  destruct Hrt as (_ & _ & _ & Hsp & Hnsp).
  unfold match_here.
  change (starts_with [82; 36] _) with true.
  cbn -[match_number space]. rewrite Hsp, (Hnsp a) by (by apply ascii_digit_bounds).
  cbn -[match_number]. unfold after_prefix. cbn -[match_number]. 
  cbn -[match_number] in Hnum. rewrite Hnum. done.
Qed.

Lemma scan_inside (t : list Z) (pos : Z) (prev : option Z) (skip : nat) :
  (length t <= skip)%nat -> scan pos prev skip t = [].
Proof.
  revert pos prev skip. induction t as [|c t IH]; intros pos prev skip Hs; [done|].
  simpl in *. destruct skip as [|k]; [lia|]. apply IH. lia.
Qed.

Lemma scan_whole (c : Z) (t : list Z) (r : RawMatch) :
  match_here None (c :: t) = Some r -> rm_len r = S (length t) ->
  salary_finditer (c :: t)
  = [{| m_start := 0; m_end := 0 + Z.of_nat (rm_len r);
        m_group1 := rm_group1 r; m_group2 := rm_group2 r;
        m_group3 := rm_group3 r |}].
Proof.
  intros Hr Hlen. unfold salary_finditer. simpl. rewrite Hr. f_equal.
  apply scan_inside. lia.
Qed.

(** X18.  The display string of an amount reads back as that amount:
    for an amount between 700.00 and 45000.00 (the amounts the extractor
    accepts), the numeric pattern finds in [formatar_real(val)] exactly one
    match, which covers the whole string and has the currency marker, and
    the filters accept it with the amount [val] and the score 2, or 5 with a
    positive keyword around, whenever no negative keyword is around. *)
Theorem formatted_amount_reads_back (val : Z) (has_positive : bool) :
  min_val <= val <= max_val ->
  exists m,
    salary_finditer (formatar_real (Some val)) = [m]
    /\ m_start m = 0 /\ m_end m = len (formatar_real (Some val))
    /\ symbol_found m = true
    /\ judge (symbol_found m) (m_group2 m) (m_group3 m) has_positive false
       = Some (val, if has_positive then 5 else 2).
Proof.
  unfold min_val, max_val. intros Hval.
  rewrite formatar_real_parts by lia.
  pose proof (Z.mod_pos_bound val 100 ltac:(lia)) as Hc.
  destruct (two_digits_ascii (val mod 100) Hc) as [He Hf].
  assert (700 <= val / 100 <= 45000) as Hn.
  { split; [apply Z.div_le_lower_bound; lia|apply Z.div_le_upper_bound; lia]. }
  pose proof (integer_text_shape _ Hn) as Hg.
  pose proof (match_here_of_shape _ _ _ _ Hg He Hf) as Hm.
  pose proof (value_of_shape _ _ Hg) as Hv.
  set (g := integer_text (val / 100)) in *.
  set (e := 48 + val mod 100 / 10) in *. set (f := 48 + val mod 100 mod 10) in *.
  eexists. split; [|split; [|split; [|split]]].
  - apply (scan_whole 82 ([36; 32] ++ g ++ [44; e; f]) _ Hm).
    simpl. rewrite !length_app. simpl. lia.
  - done.
  - unfold len. simpl. rewrite !length_app. simpl. lia.
  - done.
  - apply judge_iff. split_and!; [by left|done| |lia|lia|by destruct has_positive].
    simpl. unfold parse_amount. rewrite Hv.
    rewrite digits_value_ascii by (simpl; by rewrite He, Hf). simpl.
    f_equal. unfold e, f.
    pose proof (Z.div_mod val 100 ltac:(lia)).
    pose proof (Z.div_mod (val mod 100) 10 ltac:(lia)). lia.
Qed.

End ReadBack.

Lemma example_ascii_classes : @ascii_classes Example.runtime.
Proof.
  unfold ascii_classes. split_and!; try done.
  - intros c Hc. assert (c = 48 \/ c = 49 \/ c = 50 \/ c = 51 \/ c = 52 \/ c = 53
      \/ c = 54 \/ c = 55 \/ c = 56 \/ c = 57) as Hcs by lia.
    destruct Hcs as [->|[->|[->|[->|[->|[->|[->|[->|[->| ->]]]]]]]]]; done.
  - intros c Hc. assert (c = 48 \/ c = 49 \/ c = 50 \/ c = 51 \/ c = 52 \/ c = 53
      \/ c = 54 \/ c = 55 \/ c = 56 \/ c = 57) as Hcs by lia.
    destruct Hcs as [->|[->|[->|[->|[->|[->|[->|[->|[->| ->]]]]]]]]]; done.
Qed.

Lemma formatted_amount_reads_back_witness :
  min_val <= 850000 <= max_val
  /\ exists m,
    salary_finditer (rt := Example.runtime) (formatar_real (Some 850000)) = [m]
    /\ m_start m = 0 /\ m_end m = len (formatar_real (Some 850000))
    /\ symbol_found m = true
    /\ judge (rt := Example.runtime) (symbol_found m) (m_group2 m) (m_group3 m)
         true false
       = Some (850000, 5).
Proof.
  assert (min_val <= 850000 <= max_val) as Hval by (unfold min_val, max_val; lia).
  split; [exact Hval|].
  exact (formatted_amount_reads_back (rt := Example.runtime)
           example_ascii_classes 850000 true Hval).
Defined.
